(** * Cohort metrics pipeline of [src/utils/dataProcessor.ts]

    A shallow embedding of [processData]: the three cleaned datasets,
    the per (teacher, location, period) cohort computation (channel
    counts, retention, conversion, rates) and the per-studio rollup,
    followed by the properties of the pipeline.

    Conventions of the embedding:
    - JavaScript strings are [string]; [s || ''] on a string is [s].
    - Counts (array lengths and their sums) are [Z]; [others] is the
      result of a subtraction and may be negative.
    - Sale amounts are rationals [Q] (finite IEEE doubles idealised);
      an amount that is not finite (a [NaN] or infinite number cell, a
      text of hundreds of digits) is outside the model. Rates are
      [jsnum], which keeps the non-finite results a division can
      produce.
    - [Map<string, ...>] is a [gmap string _]; the [studioData] object
      is an association list in the order in which its keys are
      created. [studioEntries] lists it in that order, which is the
      order of [Object.values] when no key is an array index;
      [objectValues], [returnedStudioEntries] and [runOutcome], further
      down, give the order for any keys and the runs that throw because
      a location is the name of a member of [Object.prototype].
    - A local of the source whose name is also a field of the result
      record is suffixed: [trials] is [trialsCount], [retentionRate] is
      [retentionRateOf], and the array [convertedClients] of kept sales
      is [convertedClientsList].
    - [console.log], [updateProgress], [setTimeout] and the [Promise]
      wrapper do not influence the returned value and are left out. The
      result record keeps the fields the main statements read; the
      excluded and included audit lists, the detail list of retained
      clients and the two chart series ([revenueByWeek],
      [clientsBySource]) and the detail list of converted clients are
      modelled on their own further down. The two sorted key lists
      returned beside [processedData] are not modelled. *)

From Stdlib Require Import ZArith QArith String Ascii List Lia.
From stdpp Require Import gmap strings list fin_maps.
Import ListNotations.

Local Open Scope string_scope.
Local Open Scope Z_scope.

(** ** JavaScript primitives *)

Module Js.

(** [String.prototype.toLowerCase], on the ASCII letters. *)
Definition lower_ascii (c : ascii) : ascii :=
  let n := nat_of_ascii c in
  if (Nat.leb 65 n && Nat.leb n 90)%bool then ascii_of_nat (n + 32) else c.

Fixpoint toLowerCase (s : string) : string :=
  match s with
  | EmptyString => EmptyString
  | String c t => String (lower_ascii c) (toLowerCase t)
  end.

(** [s.includes(sub)]. *)
Fixpoint includes (s sub : string) : bool :=
  (String.prefix sub s ||
   match s with
   | EmptyString => false
   | String _ t => includes t sub
   end)%bool.

(** [a || b] on strings: the empty string is falsy. *)
Definition or_str (a b : string) : string :=
  if String.eqb a "" then b else a.

(** [[...new Set(l)]]: first occurrences, in insertion order. *)
Fixpoint uniq_from (seen l : list string) : list string :=
  match l with
  | [] => []
  | x :: t =>
      if List.existsb (String.eqb x) seen then uniq_from seen t
      else x :: uniq_from (x :: seen) t
  end.

Definition uniq (l : list string) : list string := uniq_from [] l.

(** Numbers that a division may produce. *)
Inductive jsnum : Type :=
| Fin (q : Q)
| PosInfinity
| NegInfinity
| NaN.

Definition isFinite (x : jsnum) : bool :=
  match x with Fin _ => true | _ => false end.

(** [a / b] on finite operands. *)
Definition div (a b : Q) : jsnum :=
  if Qeq_bool b 0 then
    if Qeq_bool a 0 then NaN
    else if Qle_bool 0 a then PosInfinity else NegInfinity
  else Fin (Qred (a / b)).

(** [x * 100]. *)
Definition times100 (x : jsnum) : jsnum :=
  match x with
  | Fin q => Fin (Qred (q * 100))
  | other => other
  end.

(** [arr.length] as a count. *)
Definition len {A} (l : list A) : Z := Z.of_nat (List.length l).

End Js.

(** ** Records of the three datasets *)

(** [NewRecord]. The optional ['Teacher'] column is overwritten by the
    matching step, so it is an ordinary field here. *)
Record NewRecord : Type := mkNew {
  First_name : string;
  Last_name : string;
  Email : string;
  Membership_used : string;
  First_visit_at : string;
  First_visit : string;
  First_visit_location : string;
  Teacher : string
}.

(** [BookingRecord], restricted to the columns the pipeline reads. *)
Record BookingRecord : Type := mkBooking {
  Class_Name : string;
  Class_Date : string;
  Location : string;
  bTeacher : string;
  Customer_Email : string;
  Cancelled : string;
  Late_Cancelled : string;
  No_Show : string
}.

(** A ['Sale value'] cell: [string | number]. *)
Inductive cell : Type :=
| CStr (s : string)
| CNum (q : Q).

(** [SaleRecord] as uploaded. *)
Record SaleRecord : Type := mkSale {
  rCategory : string;
  rItem : string;
  rDate : string;
  rSale_value : cell;
  rRefunded : string;
  rPaying_Customer_email : string;
  rCustomer_email : string
}.

(** A sale after step 1: the date is formatted and ['Sale value'] is a
    number, so [typeof sale['Sale value'] === 'number'] always holds
    downstream. *)
Record CleanedSale : Type := mkCleanedSale {
  Category : string;
  Item : string;
  Date : string;
  Sale_value : Q;
  Refunded : string;
  Paying_Customer_email : string;
  Customer_email : string
}.

(** ** Imported helpers

    [./csvParser] and the date and number parsing of the runtime are
    interfaces of the pipeline. *)

Class CsvParser : Type := {
  formatDateString : string -> string;
  getMonthYearFromDate : string -> string;
  cleanFirstVisitValue : string -> string;
  matchesPattern : string -> string -> bool;
  isDateAfter : string -> string -> bool
}.

Class JsRuntime : Type := {
  (** [new Date(s).getTime()]; [None] is [NaN] (an invalid date). *)
  dateGetTime : string -> option Z;
  (** [parseFloat(s.replace(/[^0-9.-]+/g, ''))]; [None] is [NaN]. *)
  parseAmount : string -> option Q
}.

(** ** Results *)

(** Why a client is, or is not, converted: the [reason] template
    strings, kept in structured form. *)
Inductive ConversionReason : Type :=
| NoQualifyingPurchase
| NoConversionData
| PurchaseBeforeFirstVisit (saleDate firstVisitDate : string)
| ExcludedCategory (category : string)
| ExcludedItem (item : string)
| BelowMinimum (saleValue : Q)
| PurchaseRefunded (item : string)
| ConvertedWith (item : string) (saleValue : Q) (saleDate : string).

(** The values of [clientConversionMap]. *)
Module Status.
Record t : Type := mk {
  isConverted : bool;
  reason : ConversionReason;
  firstPurchaseDate : option string;
  firstPurchaseItem : option string;
  purchaseValue : option Q
}.
End Status.

(** The entries of [newClientDetails]. *)
Module Detail.
Record t : Type := mk {
  email : string;
  name : string;
  date : string;
  membershipType : string;
  converted : bool;
  conversionReason : ConversionReason;
  firstPurchaseDate : option string;
  firstPurchaseItem : option string;
  purchaseValue : option Q
}.
End Detail.

(** [ProcessedTeacherData]. *)
Record ProcessedTeacherData : Type := mkData {
  teacherName : string;
  location : string;
  period : string;
  newClients : Z;
  trials : Z;
  referrals : Z;
  hosted : Z;
  influencerSignups : Z;
  others : Z;
  retainedClients : Z;
  retentionRate : Js.jsnum;
  convertedClients : Z;
  conversionRate : Js.jsnum;
  totalRevenue : Q;
  averageRevenuePerClient : Js.jsnum;
  noShowRate : Js.jsnum;
  lateCancellationRate : Js.jsnum;
  firstTimeBuyerRate : Js.jsnum;
  influencerConversionRate : Js.jsnum;
  referralConversionRate : Js.jsnum;
  trialToMembershipConversion : Js.jsnum;
  totalVisits : Z;
  cancellations : Z;
  lateCancellations : Z;
  noShows : Z;
  totalClasses : Z;
  uniqueClients : Z;
  newClientDetails : list Detail.t
}.

(** The patterns handed to [matchesPattern]. *)
Definition excludedPattern : string := "friends|family|staff".
Definition trialPattern : string := "Studio Open Barre Class|Newcomers 2 For 1".
Definition referralLabel : string := "Studio Complimentary Referral Class".
Definition hostedPattern : string :=
  "hosted|x|p57|physique|weword|rugby|outdoor|birthday|bridal|shower".
Definition influencerPattern : string :=
  "sign-up|link|influencer|twain|ooo|lrs|x|p57|physique|complimentary".

Section Pipeline.

Context `{P : CsvParser} `{R : JsRuntime}.

(** ** Step 1: cleaning *)

Definition cleanNew (record : NewRecord) : NewRecord :=
  {| First_name := First_name record;
     Last_name := Last_name record;
     Email := Email record;
     Membership_used := Membership_used record;
     First_visit_at := formatDateString (First_visit_at record);
     First_visit := cleanFirstVisitValue (First_visit record);
     First_visit_location := First_visit_location record;
     Teacher := Teacher record |}.

Definition cleanBooking (record : BookingRecord) : BookingRecord :=
  {| Class_Name := cleanFirstVisitValue (Class_Name record);
     Class_Date := formatDateString (Class_Date record);
     Location := Location record;
     bTeacher := bTeacher record;
     Customer_Email := Customer_Email record;
     Cancelled := Cancelled record;
     Late_Cancelled := Late_Cancelled record;
     No_Show := No_Show record |}.

(** [parseFloat(...) || 0] for a string cell, [value || 0] for a
    number cell, on finite amounts: [parseAmount] is [None] where
    [parseFloat] gives [NaN]. *)
Definition cleanSaleValue (v : cell) : Q :=
  match v with
  | CStr s => match parseAmount s with Some q => q | None => 0%Q end
  | CNum q => q
  end.

Definition cleanSale (record : SaleRecord) : CleanedSale :=
  {| Category := rCategory record;
     Item := rItem record;
     Date := formatDateString (rDate record);
     Sale_value := cleanSaleValue (rSale_value record);
     Refunded := rRefunded record;
     Paying_Customer_email := rPaying_Customer_email record;
     Customer_email := rCustomer_email record |}.

(** [salesData ? salesData.map(...) : []]; [None] is an absent
    dataset. *)
Definition cleanedSalesData (salesData : option (list SaleRecord)) : list CleanedSale :=
  match salesData with
  | Some rows => List.map cleanSale rows
  | None => []
  end.

(** ** Step 2: teacher of the first visit *)

Definition bookingMatches (newRecord : NewRecord) (booking : BookingRecord) : bool :=
  (String.eqb (Customer_Email booking) (Email newRecord) &&
   String.eqb (Class_Name booking) (First_visit newRecord) &&
   String.eqb (Class_Date booking) (First_visit_at newRecord) &&
   String.eqb (Location booking) (First_visit_location newRecord))%bool.

Definition enrich (cleanedBookingsData : list BookingRecord) (newRecord : NewRecord) : NewRecord :=
  {| First_name := First_name newRecord;
     Last_name := Last_name newRecord;
     Email := Email newRecord;
     Membership_used := Membership_used newRecord;
     First_visit_at := First_visit_at newRecord;
     First_visit := First_visit newRecord;
     First_visit_location := First_visit_location newRecord;
     Teacher :=
       match List.find (bookingMatches newRecord) cleanedBookingsData with
       | Some matchingBooking => bTeacher matchingBooking
       | None => "Unknown"
       end |}.

(** ** Step 4: one cohort *)

Section Cohort.

Variable enrichedNewData : list NewRecord.
Variable cleanedBookingsData : list BookingRecord.
Variable cleanedSales : list CleanedSale.
Variables teacher loc per : string.

Definition teacherNewClients : list NewRecord :=
  List.filter (fun record =>
    String.eqb (Teacher record) teacher &&
    String.eqb (First_visit_location record) loc &&
    String.eqb (getMonthYearFromDate (First_visit_at record)) per &&
    negb (matchesPattern (Membership_used record) excludedPattern) &&
    negb (matchesPattern (First_visit record) excludedPattern))%bool
    enrichedNewData.

Definition teacherBookings : list BookingRecord :=
  List.filter (fun booking =>
    String.eqb (bTeacher booking) teacher &&
    String.eqb (Location booking) loc &&
    String.eqb (getMonthYearFromDate (Class_Date booking)) per)%bool
    cleanedBookingsData.

Definition attended (booking : BookingRecord) : bool :=
  (String.eqb (Cancelled booking) "NO" &&
   String.eqb (Late_Cancelled booking) "NO" &&
   String.eqb (No_Show booking) "NO")%bool.

Definition totalVisitsCount : Z := Js.len (List.filter attended teacherBookings).
Definition cancellationsCount : Z :=
  Js.len (List.filter (fun booking => String.eqb (Cancelled booking) "YES") teacherBookings).
Definition lateCancellationsCount : Z :=
  Js.len (List.filter (fun booking => String.eqb (Late_Cancelled booking) "YES") teacherBookings).
Definition noShowsCount : Z :=
  Js.len (List.filter (fun booking => String.eqb (No_Show booking) "YES") teacherBookings).
Definition totalClassesCount : Z :=
  Js.len (Js.uniq (List.map Class_Name teacherBookings)).
Definition uniqueClientsCount : Z :=
  Js.len (Js.uniq (List.map Customer_Email teacherBookings)).

(** *** Channel counts *)

Definition newClientsCount : Z := Js.len teacherNewClients.

Definition isTrial (record : NewRecord) : bool :=
  matchesPattern (Membership_used record) trialPattern.
Definition isReferral (record : NewRecord) : bool :=
  String.eqb (Membership_used record) referralLabel.
Definition isHosted (record : NewRecord) : bool :=
  matchesPattern (First_visit record) hostedPattern.
Definition isInfluencer (record : NewRecord) : bool :=
  matchesPattern (Membership_used record) influencerPattern.

Definition trialsCount : Z := Js.len (List.filter isTrial teacherNewClients).
Definition referralsCount : Z := Js.len (List.filter isReferral teacherNewClients).
Definition hostedCount : Z := Js.len (List.filter isHosted teacherNewClients).
Definition influencerSignupsCount : Z := Js.len (List.filter isInfluencer teacherNewClients).
Definition othersCount : Z :=
  newClientsCount - (trialsCount + referralsCount + hostedCount + influencerSignupsCount).

(** *** Retention *)

Definition returnVisits : list BookingRecord :=
  List.filter (fun booking =>
    match List.find (fun client => String.eqb (Email client) (Customer_Email booking))
                    teacherNewClients with
    | None => false
    | Some matchingClient =>
        (isDateAfter (Class_Date booking) (First_visit_at matchingClient) &&
         String.eqb (Cancelled booking) "NO" &&
         String.eqb (Late_Cancelled booking) "NO" &&
         String.eqb (No_Show booking) "NO")%bool
    end) cleanedBookingsData.

Definition clientReturnVisits (clientEmail : string) : list BookingRecord :=
  List.filter (fun visit => String.eqb (Customer_Email visit) clientEmail) returnVisits.

Definition isRetained (client : NewRecord) : bool :=
  if Js.includes (Js.toLowerCase (First_visit client)) "2 for 1"
  then 2 <=? Js.len (clientReturnVisits (Email client))
  else 1 <=? Js.len (clientReturnVisits (Email client)).

(** The [forEach] that pushes the retained emails. *)
Definition retainedClientEmails : list string :=
  List.fold_left (fun pushed client =>
    if isRetained client then (pushed ++ [Email client])%list else pushed)
    teacherNewClients [].

Definition retainedClientsCount : Z := Js.len retainedClientEmails.

(** [(a / b) * 100]. *)
Definition percentOf (a b : Z) : Js.jsnum :=
  Js.times100 (Js.div (inject_Z a) (inject_Z b)).

Definition retentionRateOf : Js.jsnum :=
  if 0 <? newClientsCount then percentOf retainedClientsCount newClientsCount
  else Js.Fin 0.

(** *** Conversion *)

Definition initialConversionMap : gmap string Status.t :=
  List.fold_left (fun m client =>
    <[Email client := Status.mk false NoQualifyingPurchase None None None]> m)
    teacherNewClients ∅.

Definition matchingClient (sale : CleanedSale) : option NewRecord :=
  List.find (fun client =>
    String.eqb (Email client) (Customer_email sale) ||
    String.eqb (Email client) (Paying_Customer_email sale))%bool
    teacherNewClients.

Definition isDateOnOrAfter (dateA dateB : string) : bool :=
  if (String.eqb dateA "" || String.eqb dateB "")%bool then false
  else match dateGetTime dateA, dateGetTime dateB with
       | Some a, Some b => b <=? a
       | _, _ => false
       end.

Definition saleDateAfterVisit (client : NewRecord) (sale : CleanedSale) : bool :=
  isDateOnOrAfter (Date sale) (First_visit_at client).

Definition notExcludedCategory (sale : CleanedSale) : bool :=
  let category := Js.toLowerCase (Category sale) in
  (negb (Js.includes category "money-credits") &&
   negb (Js.includes category "retail") &&
   negb (Js.includes category "product"))%bool.

Definition not2For1Item (sale : CleanedSale) : bool :=
  negb (Js.includes (Js.toLowerCase (Item sale)) "2 for 1").

Definition hasMinimumSaleValue (sale : CleanedSale) : bool :=
  Qle_bool 1000 (Sale_value sale).

Definition notRefunded (sale : CleanedSale) : bool :=
  negb (String.eqb (Refunded sale) "YES").

Definition conversionReasonOf (client : NewRecord) (sale : CleanedSale) : ConversionReason :=
  if negb (saleDateAfterVisit client sale) then
    PurchaseBeforeFirstVisit (Date sale) (First_visit_at client)
  else if negb (notExcludedCategory sale) then ExcludedCategory (Category sale)
  else if negb (not2For1Item sale) then ExcludedItem (Item sale)
  else if negb (hasMinimumSaleValue sale) then BelowMinimum (Sale_value sale)
  else if negb (notRefunded sale) then PurchaseRefunded (Item sale)
  else ConvertedWith (Item sale) (Sale_value sale) (Date sale).

Definition isConverted (client : NewRecord) (sale : CleanedSale) : bool :=
  (saleDateAfterVisit client sale && notExcludedCategory sale &&
   not2For1Item sale && hasMinimumSaleValue sale && notRefunded sale)%bool.

(** The update of [clientConversionMap] for one matched sale. *)
Definition recordSale (client : NewRecord) (sale : CleanedSale)
    (m : gmap string Status.t) : gmap string Status.t :=
  let clientEmail := Email client in
  let currentStatus := m !! clientEmail in
  if (isConverted client sale &&
      negb (match currentStatus with Some st => Status.isConverted st | None => false end))%bool
  then <[clientEmail :=
          Status.mk true (conversionReasonOf client sale)
            (Some (Date sale)) (Some (Item sale)) (Some (Sale_value sale))]> m
  else
    match currentStatus with
    | Some st =>
        if (negb (isConverted client sale) && negb (Status.isConverted st))%bool
        then <[clientEmail :=
                Status.mk (Status.isConverted st) (conversionReasonOf client sale)
                  (Status.firstPurchaseDate st) (Status.firstPurchaseItem st)
                  (Status.purchaseValue st)]> m
        else m
    | None => m
    end.

(** [cleanedSalesData.filter(...)], whose callback also writes the
    conversion map: the kept sales and the map after the scan. *)
Fixpoint scanSales (sales : list CleanedSale) (m : gmap string Status.t)
    : list CleanedSale * gmap string Status.t :=
  match sales with
  | [] => ([], m)
  | sale :: rest =>
      match matchingClient sale with
      | None => scanSales rest m
      | Some client =>
          let (kept, final) := scanSales rest (recordSale client sale m) in
          (if isConverted client sale then sale :: kept else kept, final)
      end
  end.

Definition convertedClientsList : list CleanedSale :=
  fst (scanSales cleanedSales initialConversionMap).

Definition clientConversionMap : gmap string Status.t :=
  snd (scanSales cleanedSales initialConversionMap).

Definition saleEmail (sale : CleanedSale) : string :=
  Js.or_str (Customer_email sale) (Js.or_str (Paying_Customer_email sale) "").

Definition convertedClientEmails : list string :=
  Js.uniq (List.map saleEmail convertedClientsList).

Definition convertedClientsCount : Z := Js.len convertedClientEmails.

Definition newClientDetailsOf : list Detail.t :=
  List.map (fun client =>
    let conversionInfo :=
      match clientConversionMap !! Email client with
      | Some st => st
      | None => Status.mk false NoConversionData None None None
      end in
    Detail.mk (Email client) (First_name client ++ " " ++ Last_name client)
      (First_visit_at client) (Membership_used client)
      (Status.isConverted conversionInfo) (Status.reason conversionInfo)
      (Status.firstPurchaseDate conversionInfo)
      (Status.firstPurchaseItem conversionInfo)
      (Status.purchaseValue conversionInfo))
    teacherNewClients.

Definition conversionRateOf : Js.jsnum :=
  if 0 <? newClientsCount then percentOf convertedClientsCount newClientsCount
  else Js.Fin 0.

Definition totalRevenueOf : Q :=
  List.fold_left (fun sum sale => (sum + Sale_value sale)%Q) convertedClientsList 0%Q.

Definition averageRevenuePerClientOf : Js.jsnum :=
  if 0 <? convertedClientsCount
  then Js.div totalRevenueOf (inject_Z convertedClientsCount)
  else Js.Fin 0.

(** *** Rates *)

Definition noShowRateOf : Js.jsnum :=
  if 0 <? Js.len teacherBookings then percentOf noShowsCount (Js.len teacherBookings)
  else Js.Fin 0.

Definition lateCancellationRateOf : Js.jsnum :=
  if 0 <? Js.len teacherBookings
  then percentOf lateCancellationsCount (Js.len teacherBookings)
  else Js.Fin 0.

Definition firstTimeBuyerRateOf : Js.jsnum :=
  if 0 <? newClientsCount then percentOf convertedClientsCount newClientsCount
  else Js.Fin 0.

(** The number of kept sales whose email is that of a cohort member of
    the given channel. *)
Definition channelConvertedCount (inChannel : NewRecord -> bool) : Z :=
  Js.len (List.filter (fun sale =>
    List.existsb (fun client =>
      String.eqb (Email client) (saleEmail sale) && inChannel client)%bool
      teacherNewClients) convertedClientsList).

Definition influencerConvertedCount : Z := channelConvertedCount isInfluencer.
Definition referralConvertedCount : Z := channelConvertedCount isReferral.
Definition trialConvertedCount : Z := channelConvertedCount isTrial.

Definition influencerConversionRateOf : Js.jsnum :=
  if 0 <? influencerSignupsCount
  then percentOf influencerConvertedCount influencerSignupsCount
  else Js.Fin 0.

Definition referralConversionRateOf : Js.jsnum :=
  if 0 <? referralsCount then percentOf referralConvertedCount referralsCount
  else Js.Fin 0.

Definition trialToMembershipConversionOf : Js.jsnum :=
  if 0 <? trialsCount then percentOf trialConvertedCount trialsCount
  else Js.Fin 0.

(** The entry pushed to [processedData]; [None] when the triple has no
    new client ([return] before anything is pushed). *)
Definition cohortMetrics : option ProcessedTeacherData :=
  if Js.len teacherNewClients =? 0 then None
  else Some
    {| teacherName := teacher;
       location := loc;
       period := per;
       newClients := newClientsCount;
       trials := trialsCount;
       referrals := referralsCount;
       hosted := hostedCount;
       influencerSignups := influencerSignupsCount;
       others := othersCount;
       retainedClients := retainedClientsCount;
       retentionRate := retentionRateOf;
       convertedClients := convertedClientsCount;
       conversionRate := conversionRateOf;
       totalRevenue := totalRevenueOf;
       averageRevenuePerClient := averageRevenuePerClientOf;
       noShowRate := noShowRateOf;
       lateCancellationRate := lateCancellationRateOf;
       firstTimeBuyerRate := firstTimeBuyerRateOf;
       influencerConversionRate := influencerConversionRateOf;
       referralConversionRate := referralConversionRateOf;
       trialToMembershipConversion := trialToMembershipConversionOf;
       totalVisits := totalVisitsCount;
       cancellations := cancellationsCount;
       lateCancellations := lateCancellationsCount;
       noShows := noShowsCount;
       totalClasses := totalClassesCount;
       uniqueClients := uniqueClientsCount;
       newClientDetails := newClientDetailsOf |}.

End Cohort.

(** ** Step 4: the studio totals *)

(** The object stored at [studioData[location]] when the key is new. *)
Definition emptyStudio (loc per : string) : ProcessedTeacherData :=
  {| teacherName := "All Teachers";
     location := loc;
     period := per;
     newClients := 0;
     trials := 0;
     referrals := 0;
     hosted := 0;
     influencerSignups := 0;
     others := 0;
     retainedClients := 0;
     retentionRate := Js.Fin 0;
     convertedClients := 0;
     conversionRate := Js.Fin 0;
     totalRevenue := 0%Q;
     averageRevenuePerClient := Js.Fin 0;
     noShowRate := Js.Fin 0;
     lateCancellationRate := Js.Fin 0;
     firstTimeBuyerRate := Js.Fin 0;
     influencerConversionRate := Js.Fin 0;
     referralConversionRate := Js.Fin 0;
     trialToMembershipConversion := Js.Fin 0;
     totalVisits := 0;
     cancellations := 0;
     lateCancellations := 0;
     noShows := 0;
     totalClasses := 0;
     uniqueClients := 0;
     newClientDetails := [] |}.

(** The [+=] block: one cohort added to the studio object. *)
Definition addToStudio (d studio : ProcessedTeacherData) : ProcessedTeacherData :=
  {| teacherName := teacherName studio;
     location := location studio;
     period := period studio;
     newClients := newClients studio + newClients d;
     trials := trials studio + trials d;
     referrals := referrals studio + referrals d;
     hosted := hosted studio + hosted d;
     influencerSignups := influencerSignups studio + influencerSignups d;
     others := others studio + others d;
     retainedClients := retainedClients studio + retainedClients d;
     retentionRate := retentionRate studio;
     convertedClients := convertedClients studio + convertedClients d;
     conversionRate := conversionRate studio;
     totalRevenue := (totalRevenue studio + totalRevenue d)%Q;
     averageRevenuePerClient := averageRevenuePerClient studio;
     noShowRate := noShowRate studio;
     lateCancellationRate := lateCancellationRate studio;
     firstTimeBuyerRate := firstTimeBuyerRate studio;
     influencerConversionRate := influencerConversionRate studio;
     referralConversionRate := referralConversionRate studio;
     trialToMembershipConversion := trialToMembershipConversion studio;
     totalVisits := totalVisits studio + totalVisits d;
     cancellations := cancellations studio + cancellations d;
     lateCancellations := lateCancellations studio + lateCancellations d;
     noShows := noShows studio + noShows d;
     totalClasses := totalClasses studio + totalClasses d;
     uniqueClients := uniqueClients studio + uniqueClients d;
     newClientDetails := (newClientDetails studio ++ newClientDetails d)%list |}.

(** [studioData]: keys in insertion order. *)
Definition StudioData : Type := list (string * ProcessedTeacherData).

Fixpoint studioLookup (key : string) (studioData : StudioData) : option ProcessedTeacherData :=
  match studioData with
  | [] => None
  | (k, v) :: rest => if String.eqb k key then Some v else studioLookup key rest
  end.

(** [if (!studioData[key]) studioData[key] = init; update studioData[key]]. *)
Fixpoint studioUpdate (key : string) (init : ProcessedTeacherData)
    (update : ProcessedTeacherData -> ProcessedTeacherData)
    (studioData : StudioData) : StudioData :=
  match studioData with
  | [] => [(key, update init)]
  | (k, v) :: rest =>
      if String.eqb k key then (k, update v) :: rest
      else (k, v) :: studioUpdate key init update rest
  end.

(** The body of the innermost [forEach], on the pair
    ([processedData], [studioData]). *)
Definition addCohort (enrichedNewData : list NewRecord)
    (cleanedBookingsData : list BookingRecord) (cleanedSales : list CleanedSale)
    (teacher loc per : string)
    (st : list ProcessedTeacherData * StudioData)
    : list ProcessedTeacherData * StudioData :=
  match cohortMetrics enrichedNewData cleanedBookingsData cleanedSales teacher loc per with
  | None => st
  | Some d =>
      ((fst st ++ [d])%list,
       studioUpdate loc (emptyStudio loc per) (addToStudio d) (snd st))
  end.

(** [teachers.forEach(locations.forEach(periods.forEach(...)))]. *)
Definition cohortLoop (enrichedNewData : list NewRecord)
    (cleanedBookingsData : list BookingRecord) (cleanedSales : list CleanedSale)
    (teachers locations periods : list string)
    : list ProcessedTeacherData * StudioData :=
  List.fold_left (fun st teacher =>
    List.fold_left (fun st loc =>
      List.fold_left (fun st per =>
        addCohort enrichedNewData cleanedBookingsData cleanedSales teacher loc per st)
        periods st)
      locations st)
    teachers ([], []).

(** The rates set on each studio object after the loop. *)
Definition studioRates (studio : ProcessedTeacherData) : ProcessedTeacherData :=
  {| teacherName := teacherName studio;
     location := location studio;
     period := period studio;
     newClients := newClients studio;
     trials := trials studio;
     referrals := referrals studio;
     hosted := hosted studio;
     influencerSignups := influencerSignups studio;
     others := others studio;
     retainedClients := retainedClients studio;
     retentionRate :=
       if 0 <? newClients studio
       then percentOf (retainedClients studio) (newClients studio)
       else Js.Fin 0;
     convertedClients := convertedClients studio;
     conversionRate :=
       if 0 <? newClients studio
       then percentOf (convertedClients studio) (newClients studio)
       else Js.Fin 0;
     totalRevenue := totalRevenue studio;
     averageRevenuePerClient :=
       if 0 <? convertedClients studio
       then Js.div (totalRevenue studio) (inject_Z (convertedClients studio))
       else Js.Fin 0;
     noShowRate := noShowRate studio;
     lateCancellationRate := lateCancellationRate studio;
     firstTimeBuyerRate := firstTimeBuyerRate studio;
     influencerConversionRate := influencerConversionRate studio;
     referralConversionRate := referralConversionRate studio;
     trialToMembershipConversion := trialToMembershipConversion studio;
     totalVisits := totalVisits studio;
     cancellations := cancellations studio;
     lateCancellations := lateCancellations studio;
     noShows := noShows studio;
     totalClasses := totalClasses studio;
     uniqueClients := uniqueClients studio;
     newClientDetails := newClientDetails studio |}.

(** ** The whole run *)

Section Run.

Variable newData : list NewRecord.
Variable bookingsData : list BookingRecord.
Variable salesData : option (list SaleRecord).

Definition cleanedNewData : list NewRecord := List.map cleanNew newData.
Definition cleanedBookingsDataOf : list BookingRecord := List.map cleanBooking bookingsData.
Definition enrichedNewDataOf : list NewRecord :=
  List.map (enrich cleanedBookingsDataOf) cleanedNewData.

Definition locationsOf : list string :=
  Js.uniq (List.map First_visit_location enrichedNewDataOf).

Definition teachersOf : list string :=
  Js.uniq (List.filter (fun teacher =>
             negb (String.eqb teacher "") && negb (String.eqb teacher "Unknown"))%bool
           (List.map bTeacher cleanedBookingsDataOf)).

Definition periodsOf : list string :=
  Js.uniq (List.map (fun record => getMonthYearFromDate (First_visit_at record))
             enrichedNewDataOf).

(** The cohort of one (teacher, location, period) of this run. *)
Definition cohortOf (teacher loc per : string) : option ProcessedTeacherData :=
  cohortMetrics enrichedNewDataOf cleanedBookingsDataOf (cleanedSalesData salesData)
    teacher loc per.

Definition loopResult : list ProcessedTeacherData * StudioData :=
  cohortLoop enrichedNewDataOf cleanedBookingsDataOf (cleanedSalesData salesData)
    teachersOf locationsOf periodsOf.

(** The per-teacher entries of [processedData]. *)
Definition cohortEntries : list ProcessedTeacherData := fst loopResult.

(** The studio entries pushed after the loop. *)
Definition studioEntries : list ProcessedTeacherData :=
  List.map (fun kv => studioRates (snd kv)) (snd loopResult).

(** The [processedData] field of the resolved value. *)
Definition processData : list ProcessedTeacherData :=
  (cohortEntries ++ studioEntries)%list.

End Run.

End Pipeline.

(** ** A reference instance of the helpers

    Used to run the pipeline on concrete datasets whose dates are
    already formatted and whose labels are already clean. *)

Module Sample.

Fixpoint alternatives (pattern current : string) : list string :=
  match pattern with
  | EmptyString => [current]
  | String c rest =>
      if Ascii.eqb c "|"%char then current :: alternatives rest ""
      else alternatives rest (current ++ String c "")
  end.

(** Modelled from the spec: [matchesPattern] of [./csvParser], which is
    not part of the sources at hand; the specification describes it as a
    case-insensitive substring match against a pipe-delimited list of
    alternatives. *)
Definition matchesAnyKeyword (text pattern : string) : bool :=
  List.existsb (fun alt => Js.includes (Js.toLowerCase text) (Js.toLowerCase alt))
    (alternatives pattern "").

(** Formatted dates with their month bucket and their
    [new Date(s).getTime()] (UTC midnight, in milliseconds). *)
Definition calendar : list (string * (string * Z)) :=
  [ ("2024-01-02", ("Jan 2024", 1704153600000));
    ("2024-01-05", ("Jan 2024", 1704412800000));
    ("2024-01-12", ("Jan 2024", 1705017600000));
    ("2024-01-19", ("Jan 2024", 1705622400000));
    ("2024-01-20", ("Jan 2024", 1705708800000));
    ("2024-02-03", ("Feb 2024", 1706918400000));
    ("2024-02-10", ("Feb 2024", 1707523200000)) ].

Definition lookupDate (s : string) : option (string * Z) :=
  match List.find (fun entry => String.eqb (fst entry) s) calendar with
  | Some entry => Some (snd entry)
  | None => None
  end.

Definition timeOf (s : string) : option Z :=
  match lookupDate s with Some (_, t) => Some t | None => None end.

(** Modelled from the spec: the text and date helpers of [./csvParser]
    ([formatDate], [periodKeyOf], [isStrictlyAfter], [cleanLabel]),
    on formatted dates and clean labels. *)
Definition parser : CsvParser :=
  {| formatDateString := fun s => s;
     getMonthYearFromDate := fun s =>
       match lookupDate s with Some (m, _) => m | None => "" end;
     cleanFirstVisitValue := fun s => s;
     matchesPattern := matchesAnyKeyword;
     isDateAfter := fun a b =>
       match timeOf a, timeOf b with
       | Some x, Some y => y <? x
       | _, _ => false
       end |}.

Definition runtime : JsRuntime :=
  {| dateGetTime := timeOf;
     parseAmount := fun _ => None |}.

(** *** Clients *)

Definition client (first email membership visitAt : string) : NewRecord :=
  mkNew first "K" email membership visitAt "Barre 57" "Studio A" "".

Definition asha : NewRecord := client "Asha" "a@x.com" "Studio Open Barre Class" "2024-01-05".
Definition bina : NewRecord :=
  client "Bina" "b@x.com" "Studio Complimentary Referral Class" "2024-01-05".
Definition chand : NewRecord := client "Chand" "c@x.com" "Influencer Sign-up" "2024-01-05".
Definition dev : NewRecord := client "Dev" "d@x.com" "Studio Open Barre Class" "2024-02-03".
Definition twoForOne : NewRecord :=
  mkNew "Esha" "K" "e@x.com" "Newcomers 2 For 1" "2024-01-05" "2 For 1 Intro" "Studio A" "".

(** *** Bookings *)

Definition visit (email classDate teacher loc : string) : BookingRecord :=
  mkBooking "Barre 57" classDate loc teacher email "NO" "NO" "NO".

Definition firstVisitOf (c : NewRecord) : BookingRecord :=
  mkBooking (First_visit c) (First_visit_at c) (First_visit_location c) "T1" (Email c)
    "NO" "NO" "NO".

Definition noShow (email classDate : string) : BookingRecord :=
  mkBooking "Barre 57" classDate "Studio A" "T1" email "NO" "NO" "YES".

Definition lateCancel (email classDate : string) : BookingRecord :=
  mkBooking "Barre 57" classDate "Studio A" "T1" email "NO" "YES" "NO".

(** *** Sales *)

Definition purchase (customer payer category : string) (value : Q) (saleDate : string)
    : SaleRecord :=
  mkSale category "10-Class Pack" saleDate (CNum value) "NO" payer customer.

Definition cleaned (customer payer category : string) (value : Q) (saleDate : string)
    : CleanedSale :=
  mkCleanedSale category "10-Class Pack" saleDate value "NO" payer customer.

(** *** Runs *)

(** Three clients of T1 at Studio A in January, each with a purchase;
    one no-show and one late cancellation among five booking rows. *)
Definition januaryNew : list NewRecord := [asha; bina; chand].
Definition januaryBookings : list BookingRecord :=
  [ firstVisitOf asha; firstVisitOf bina; firstVisitOf chand;
    noShow "a@x.com" "2024-01-12"; lateCancel "b@x.com" "2024-01-12" ].
Definition januarySales : list SaleRecord :=
  [ purchase "a@x.com" "a@x.com" "Membership" 1200 "2024-01-20";
    purchase "b@x.com" "b@x.com" "Membership" 1500 "2024-01-20";
    purchase "c@x.com" "c@x.com" "Membership" 2000 "2024-01-20" ].

(** One client in January and one in February, same teacher and
    studio. *)
Definition twoMonthsNew : list NewRecord := [asha; dev].
Definition twoMonthsBookings : list BookingRecord := [firstVisitOf asha; firstVisitOf dev].

(** A client of T1 at Studio A who returns to T2 at Studio B in
    February. *)
Definition elsewhereBookings : list BookingRecord :=
  [ firstVisitOf asha; visit "a@x.com" "2024-02-10" "T2" "Studio B" ].

(** Two clients whose purchases are paid by them for one third
    party. *)
Definition giftedSales : list CleanedSale :=
  [ cleaned "z@x.com" "a@x.com" "Membership" 1200 "2024-01-20";
    cleaned "z@x.com" "b@x.com" "Membership" 1500 "2024-01-20" ].

(** One client with two qualifying purchases. *)
Definition repeatSales : list CleanedSale :=
  [ cleaned "a@x.com" "a@x.com" "Membership" 1200 "2024-01-12";
    cleaned "a@x.com" "a@x.com" "Membership" 1500 "2024-01-20" ].

End Sample.

(** ** Notions used in the statements *)

(** The least number of return visits that retains a client. *)
Definition retentionThreshold (client : NewRecord) : Z :=
  if Js.includes (Js.toLowerCase (First_visit client)) "2 for 1" then 2 else 1.

(** The integer counts that the studio totals accumulate. *)
Inductive CountField : Type :=
| FNewClients | FTrials | FReferrals | FHosted | FInfluencerSignups | FOthers
| FRetainedClients | FConvertedClients | FTotalVisits | FCancellations
| FLateCancellations | FNoShows | FTotalClasses | FUniqueClients.

Definition getCount (f : CountField) (d : ProcessedTeacherData) : Z :=
  match f with
  | FNewClients => newClients d
  | FTrials => trials d
  | FReferrals => referrals d
  | FHosted => hosted d
  | FInfluencerSignups => influencerSignups d
  | FOthers => others d
  | FRetainedClients => retainedClients d
  | FConvertedClients => convertedClients d
  | FTotalVisits => totalVisits d
  | FCancellations => cancellations d
  | FLateCancellations => lateCancellations d
  | FNoShows => noShows d
  | FTotalClasses => totalClasses d
  | FUniqueClients => uniqueClients d
  end.

Definition sumCount (f : CountField) (l : list ProcessedTeacherData) : Z :=
  List.fold_right (fun d acc => getCount f d + acc) 0 l.

(** Revenue added up in list order, as [+=] does. *)
Definition sumRevenue (l : list ProcessedTeacherData) : Q :=
  List.fold_left (fun acc d => (acc + totalRevenue d)%Q) l 0%Q.

Definition atLocation (loc : string) (l : list ProcessedTeacherData)
    : list ProcessedTeacherData :=
  List.filter (fun d => String.eqb (location d) loc) l.

Definition atLocationPeriod (loc per : string) (l : list ProcessedTeacherData)
    : list ProcessedTeacherData :=
  List.filter (fun d => String.eqb (location d) loc && String.eqb (period d) per)%bool l.

(** [(n / d) * 100] behind the [d > 0] guard. *)
Definition guardedPercent (n d : Z) : Js.jsnum :=
  if 0 <? d then percentOf n d else Js.Fin 0.

(** Whether the conversion map records an email as converted. *)
Definition markedConverted (m : gmap string Status.t) (e : string) : bool :=
  match m !! e with
  | Some st => Status.isConverted st
  | None => false
  end.

(** Whether a sale is kept by the conversion scan: it matches a cohort
    member and passes the five conditions against that member. *)
Definition qualifyingSale `{P : CsvParser} `{R : JsRuntime}
    (enrichedNewData : list NewRecord) (teacher loc per : string)
    (sale : CleanedSale) : bool :=
  match matchingClient enrichedNewData teacher loc per sale with
  | Some member => isConverted member sale
  | None => false
  end.

(** The number of cohort members whose entry of the conversion map is
    converted. *)
Definition convertedMembersCount `{P : CsvParser} `{R : JsRuntime}
    (enrichedNewData : list NewRecord) (cleanedSales : list CleanedSale)
    (teacher loc per : string) : Z :=
  Js.len (List.filter (fun member =>
            markedConverted
              (clientConversionMap enrichedNewData cleanedSales teacher loc per)
              (Email member))
          (teacherNewClients enrichedNewData teacher loc per)).

(** The five conditions with the excluded category keywords spelled as
    in the specification: "money-credit", "retail", "product". *)
Definition qualifiesAsStated `{R : JsRuntime}
    (client : NewRecord) (sale : CleanedSale) : bool :=
  (isDateOnOrAfter (Date sale) (First_visit_at client) &&
   negb (Js.includes (Js.toLowerCase (Category sale)) "money-credit") &&
   negb (Js.includes (Js.toLowerCase (Category sale)) "retail") &&
   negb (Js.includes (Js.toLowerCase (Category sale)) "product") &&
   negb (Js.includes (Js.toLowerCase (Item sale)) "2 for 1") &&
   Qle_bool 1000 (Sale_value sale) &&
   negb (String.eqb (Refunded sale) "YES"))%bool.

(** The rollup as the specification words it: one studio entry for each
    (location, period) of a cohort, named for all staff, whose counts
    are the sums over the cohorts of that location and period. *)
Definition rollupPerLocationAndPeriod (cohorts rollups : list ProcessedTeacherData) : Prop :=
  (forall d, In d cohorts ->
     exists r, In r rollups /\ location r = location d /\ period r = period d) /\
  (forall r, In r rollups ->
     teacherName r = "All Teachers" /\
     forall f, getCount f r
               = sumCount f (atLocationPeriod (location r) (period r) cohorts)).

(** A quantity of each cohort, added up over a list of cohorts. *)
Definition sumOver (g : ProcessedTeacherData -> Z) (l : list ProcessedTeacherData) : Z :=
  List.fold_right (fun d acc => g d + acc) 0 l.

(** The rates of a studio entry as the specification words them: each
    formula of the metrics calculator applied to the summed counts of
    the cohorts behind the entry. *)
Section StatedRollupRates.

Context `{P : CsvParser} `{R : JsRuntime}.
Variable newData : list NewRecord.
Variable bookingsData : list BookingRecord.
Variable salesData : option (list SaleRecord).
Variable r : ProcessedTeacherData.

Definition cohortsBehind : list ProcessedTeacherData :=
  atLocation (location r) (cohortEntries newData bookingsData salesData).

Definition attendanceRows (d : ProcessedTeacherData) : Z :=
  Js.len (teacherBookings (cleanedBookingsDataOf bookingsData)
            (teacherName d) (location d) (period d)).

Definition channelConverted (inChannel : NewRecord -> bool) (d : ProcessedTeacherData) : Z :=
  channelConvertedCount (enrichedNewDataOf newData bookingsData)
    (cleanedSalesData salesData) (teacherName d) (location d) (period d) inChannel.

Definition statedRetentionRate : Js.jsnum :=
  guardedPercent (retainedClients r) (newClients r).
Definition statedConversionRate : Js.jsnum :=
  guardedPercent (convertedClients r) (newClients r).
Definition statedFirstTimeBuyerRate : Js.jsnum :=
  guardedPercent (convertedClients r) (newClients r).
Definition statedNoShowRate : Js.jsnum :=
  guardedPercent (noShows r) (sumOver attendanceRows cohortsBehind).
Definition statedLateCancellationRate : Js.jsnum :=
  guardedPercent (lateCancellations r) (sumOver attendanceRows cohortsBehind).
Definition statedInfluencerConversionRate : Js.jsnum :=
  guardedPercent (sumOver (channelConverted isInfluencer) cohortsBehind)
    (influencerSignups r).
Definition statedReferralConversionRate : Js.jsnum :=
  guardedPercent (sumOver (channelConverted isReferral) cohortsBehind) (referrals r).
Definition statedTrialToMembershipConversion : Js.jsnum :=
  guardedPercent (sumOver (channelConverted isTrial) cohortsBehind) (trials r).

End StatedRollupRates.

(** What the loop maintains on ([processedData], [studioData]). *)
Definition studioInvariant `{P : CsvParser} `{R : JsRuntime}
    (enrichedNewData : list NewRecord) (cleanedBookingsData : list BookingRecord)
    (cleanedSales : list CleanedSale)
    (st : list ProcessedTeacherData * StudioData) : Prop :=
  List.NoDup (List.map fst (snd st)) /\
  (forall d, In d (fst st) ->
     (exists teacher loc per,
        cohortMetrics enrichedNewData cleanedBookingsData cleanedSales teacher loc per
          = Some d) /\
     In (location d) (List.map fst (snd st))) /\
  (forall k v, In (k, v) (snd st) ->
     teacherName v = "All Teachers" /\
     location v = k /\
     (forall f, getCount f v = sumCount f (atLocation k (fst st))) /\
     totalRevenue v = sumRevenue (atLocation k (fst st)) /\
     atLocation k (fst st) <> [] /\
     (noShowRate v = Js.Fin 0 /\
      lateCancellationRate v = Js.Fin 0 /\
      firstTimeBuyerRate v = Js.Fin 0 /\
      influencerConversionRate v = Js.Fin 0 /\
      referralConversionRate v = Js.Fin 0 /\
      trialToMembershipConversion v = Js.Fin 0)).

(** ** Further parts of [processData]

    The audit lists, the detail list of retained clients and the two
    chart series, each as the pipeline builds it. *)

(** The [reason] of an excluded record: which field matched. *)
Inductive ExclusionReason : Type :=
| ExcludedMembership (membership : string)
| ExcludedClassType (firstVisit : string).

(** An entry of [excludedRecords]. *)
Record ExcludedRecord : Type := mkExcluded {
  exRecord : NewRecord;
  exName : string;
  exEmail : string;
  exFirstVisit : string;
  exReason : ExclusionReason
}.

(** The detail record of a retained client. *)
Module Retained.
Record t : Type := mk {
  email : string;
  name : string;
  date : string;
  firstVisit : string;
  visitCount : Z;
  membershipType : string;
  firstVisitPostTrial : string
}.
End Retained.

(** [parseDate] of [./csvParser] and the Sunday-aligned week key
    ([setDate(getDate() - getDay())], then the date part of
    [toISOString()]) of a parsed date. *)
Class WeekDates : Type := {
  JsDate : Type;
  parseDate : string -> option JsDate;
  weekStartKey : JsDate -> string
}.

(** [acc.find(item => item.week === weekKey)], then [+=] on the entry
    found or [push] of a new one. *)
Fixpoint addWeek (weekKey : string) (revenue : Q) (acc : list (string * Q))
    : list (string * Q) :=
  match acc with
  | [] => [(weekKey, revenue)]
  | (week, sofar) :: rest =>
      if String.eqb week weekKey then (week, (sofar + revenue)%Q) :: rest
      else (week, sofar) :: addWeek weekKey revenue rest
  end.

(** The [forEach] that merges the weeks of a cohort into those of its
    studio. *)
Definition mergeWeeks (revenueByWeek studioWeeks : list (string * Q)) : list (string * Q) :=
  List.fold_left (fun acc weekData => addWeek (fst weekData) (snd weekData) acc)
    revenueByWeek studioWeeks.

Section FurtherParts.

Context `{P : CsvParser} `{R : JsRuntime}.

(** The first [forEach] of step 4. *)
Definition excludedRecordsOf (enrichedNewData : list NewRecord) : list ExcludedRecord :=
  List.fold_left (fun pushed record =>
    let membershipPattern := matchesPattern (Membership_used record) excludedPattern in
    let firstVisitPattern := matchesPattern (First_visit record) excludedPattern in
    if (membershipPattern || firstVisitPattern)%bool
    then (pushed ++
          [ {| exRecord := record;
               exName := First_name record ++ " " ++ Last_name record;
               exEmail := Email record;
               exFirstVisit := First_visit_at record;
               exReason :=
                 if membershipPattern then ExcludedMembership (Membership_used record)
                 else ExcludedClassType (First_visit record) |} ])%list
    else pushed)
    enrichedNewData [].

(** [includedRecords]: the new clients of every cohort that is not
    skipped, pushed in loop order. *)
Definition includedRecordsOf (enrichedNewData : list NewRecord)
    (teachers locations periods : list string) : list NewRecord :=
  List.fold_left (fun pushed teacher =>
    List.fold_left (fun pushed loc =>
      List.fold_left (fun pushed per =>
        let teacherNewClients := teacherNewClients enrichedNewData teacher loc per in
        if Js.len teacherNewClients =? 0 then pushed
        else (pushed ++ teacherNewClients)%list)
        periods pushed)
      locations pushed)
    teachers [].

Section CohortParts.

Variable enrichedNewData : list NewRecord.
Variable cleanedBookingsData : list BookingRecord.
Variable cleanedSales : list CleanedSale.
Variables teacher loc per : string.

(** [retainedClientDetails]. *)
Definition retainedClientDetailsOf : list Retained.t :=
  List.map (fun email =>
    let clientVisits :=
      List.filter (fun visit => String.eqb (Customer_Email visit) email)
        (returnVisits enrichedNewData cleanedBookingsData teacher loc per) in
    let clientInfo :=
      List.find (fun client => String.eqb (Email client) email)
        (teacherNewClients enrichedNewData teacher loc per) in
    let firstReturn :=
      match clientVisits with
      | visit :: _ => Class_Date visit
      | [] => ""
      end in
    {| Retained.email := email;
       Retained.name :=
         match clientInfo with
         | Some client => First_name client ++ " " ++ Last_name client
         | None => "Unknown"
         end;
       Retained.date := Js.or_str firstReturn "";
       Retained.firstVisit :=
         match clientInfo with
         | Some client => First_visit_at client
         | None => ""
         end;
       Retained.visitCount := Js.len clientVisits;
       Retained.membershipType :=
         match clientInfo with
         | Some client => Membership_used client
         | None => ""
         end;
       Retained.firstVisitPostTrial := Js.or_str firstReturn "N/A" |})
    (retainedClientEmails enrichedNewData cleanedBookingsData teacher loc per).

(** [revenueByWeek]: the kept sales bucketed by the start of their
    week; a sale without a date, or whose date does not parse, is
    skipped. *)
Definition revenueByWeekOf `{W : WeekDates} : list (string * Q) :=
  List.fold_left (fun acc sale =>
    let dateStr := Date sale in
    if String.eqb dateStr "" then acc
    else match parseDate dateStr with
         | None => acc
         | Some date => addWeek (weekStartKey date) (Sale_value sale) acc
         end)
    (convertedClientsList enrichedNewData cleanedSales teacher loc per) [].

End CohortParts.

End FurtherParts.

(** *** The channel series and its shared objects

    [clientsBySource] is an array of five [{source, count}] objects.
    The array of a studio is created as a copy of the array of the first
    cohort added to it, a copy that holds the same objects; the later
    [source.count += ...] therefore writes objects that the first cohort
    still refers to. The objects are modelled as the cells of a store,
    allocated in order, and an array as the list of the addresses of its
    objects. The [source] label of an object is never written, so a cell
    holds the count only. *)

Definition sourceNames : list string :=
  ["Trials"; "Referrals"; "Hosted"; "Influencer"; "Others"].

(** The counts of the five objects built for a cohort. *)
Definition sourceCountsOf (d : ProcessedTeacherData) : list Z :=
  [trials d; referrals d; hosted d; influencerSignups d; others d].

Record SourceState : Type := mkSourceState {
  sourceStore : list Z;
  cohortArrays : list (list nat);
  studioArrays : list (string * list nat)
}.

Definition getCell (store : list Z) (address : nat) : Z :=
  match store !! address with Some count => count | None => 0 end.

(** The counts an array shows. *)
Definition viewArray (store : list Z) (array : list nat) : list Z :=
  List.map (getCell store) array.

(** [studio.clientsBySource.forEach((source, index) =>
    source.count += clientsBySource[index].count)]. Both arrays have
    five elements; on a shorter second array the pairing stops where the
    source would fail. *)
Fixpoint addCounts (targets sources : list nat) (store : list Z) : list Z :=
  match targets, sources with
  | target :: targets', source :: sources' =>
      addCounts targets' sources'
        (<[target := getCell store target + getCell store source]> store)
  | _, _ => store
  end.

Fixpoint arrayLookup (loc : string) (arrays : list (string * list nat))
    : option (list nat) :=
  match arrays with
  | [] => None
  | (k, array) :: rest => if String.eqb k loc then Some array else arrayLookup loc rest
  end.

Fixpoint arraySet (loc : string) (array : list nat) (arrays : list (string * list nat))
    : list (string * list nat) :=
  match arrays with
  | [] => [(loc, array)]
  | (k, old) :: rest =>
      if String.eqb k loc then (k, array) :: rest
      else (k, old) :: arraySet loc array rest
  end.

(** The part of the loop body that handles [clientsBySource], for one
    pushed entry: five fresh objects, the array of the entry, then the
    copy into, or the addition to, the array of the studio, which is
    empty as long as the studio has received no cohort. *)
Definition sourceStep (st : SourceState) (d : ProcessedTeacherData) : SourceState :=
  let clientsBySource :=
    List.seq (List.length (sourceStore st)) (List.length (sourceCountsOf d)) in
  let store := (sourceStore st ++ sourceCountsOf d)%list in
  let studioArray :=
    match arrayLookup (location d) (studioArrays st) with
    | Some array => array
    | None => []
    end in
  if Nat.eqb (List.length studioArray) 0
  then {| sourceStore := store;
          cohortArrays := (cohortArrays st ++ [clientsBySource])%list;
          studioArrays := arraySet (location d) clientsBySource (studioArrays st) |}
  else {| sourceStore := addCounts studioArray clientsBySource store;
          cohortArrays := (cohortArrays st ++ [clientsBySource])%list;
          studioArrays := studioArrays st |}.

(** The channel series after the entries have been pushed in order. *)
Definition sourcesLoop (pushed : list ProcessedTeacherData) : SourceState :=
  List.fold_left sourceStep pushed (mkSourceState [] [] []).

(** The position of the first entry of a location. *)
Fixpoint firstAt (loc : string) (l : list ProcessedTeacherData) : option nat :=
  match l with
  | [] => None
  | d :: rest =>
      if String.eqb (location d) loc then Some 0%nat
      else match firstAt loc rest with Some i => Some (S i) | None => None end
  end.

(** The five channel counts added up over a list of entries. *)
Definition sumSources (l : list ProcessedTeacherData) : list Z :=
  [sumCount FTrials l; sumCount FReferrals l; sumCount FHosted l;
   sumCount FInfluencerSignups l; sumCount FOthers l].

(** The block of addresses of the entry at a position. *)
Definition blockOf (i : nat) : list nat := List.seq (5 * i) 5.

(** What the channel loop maintains. *)
Definition sourceInvariant (pushed : list ProcessedTeacherData) (st : SourceState) : Prop :=
  List.length (sourceStore st) = (5 * List.length pushed)%nat /\
  cohortArrays st = List.map blockOf (List.seq 0 (List.length pushed)) /\
  (forall loc,
     arrayLookup loc (studioArrays st)
     = match firstAt loc pushed with Some i => Some (blockOf i) | None => None end) /\
  (forall i d, pushed !! i = Some d ->
     viewArray (sourceStore st) (blockOf i)
     = match firstAt (location d) pushed with
       | Some j => if Nat.eqb i j then sumSources (atLocation (location d) pushed)
                   else sourceCountsOf d
       | None => sourceCountsOf d
       end).

(** A reference instance of the week helpers on the formatted dates of
    [Sample.calendar].

    Modelled from the spec: [parseDate] of [./csvParser] accepts the
    formatted dates, and the week of a date starts on the Sunday on or
    before it. *)
Module SampleWeeks.

Definition weekStarts : list (string * string) :=
  [ ("2024-01-02", "2023-12-31");
    ("2024-01-05", "2023-12-31");
    ("2024-01-12", "2024-01-07");
    ("2024-01-19", "2024-01-14");
    ("2024-01-20", "2024-01-14");
    ("2024-02-03", "2024-01-28");
    ("2024-02-10", "2024-02-04") ].

Definition weeks : WeekDates :=
  {| JsDate := string;
     parseDate := fun s =>
       if List.existsb (fun entry => String.eqb (fst entry) s) weekStarts
       then Some s else None;
     weekStartKey := fun date =>
       match List.find (fun entry => String.eqb (fst entry) date) weekStarts with
       | Some entry => snd entry
       | None => ""
       end |}.

End SampleWeeks.

(** ** Further notions used in the statements *)

(** The (teacher, location, period) of an entry. *)
Definition cohortKey (d : ProcessedTeacherData) : string * (string * string) :=
  (teacherName d, (location d, period d)).

(** A record that passes the exclusion test of the cohort filter. *)
Definition notExcluded `{P : CsvParser} (record : NewRecord) : bool :=
  (negb (matchesPattern (Membership_used record) excludedPattern) &&
   negb (matchesPattern (First_visit record) excludedPattern))%bool.

(** A record whose assigned teacher can head a cohort. *)
Definition linked (record : NewRecord) : bool :=
  (negb (String.eqb (Teacher record) "") &&
   negb (String.eqb (Teacher record) "Unknown"))%bool.

(** An optional push. *)
Definition optionList {A} (o : option A) : list A :=
  match o with Some x => [x] | None => [] end.

Definition sumZ (l : list Z) : Z := List.fold_right Z.add 0 l.

(** [===] on the three components of a cohort key. *)
Definition keyEqb (a b : string * (string * string)) : bool :=
  (String.eqb (fst a) (fst b) &&
   String.eqb (fst (snd a)) (fst (snd b)) &&
   String.eqb (snd (snd a)) (snd (snd b)))%bool.

(** The key under which the cohort filter selects an intake record. *)
Definition recordKey `{P : CsvParser} (record : NewRecord) : string * (string * string) :=
  (Teacher record,
   (First_visit_location record, getMonthYearFromDate (First_visit_at record))).

(** A finite rate between 0 and 100. *)
Definition isPercentage (x : Js.jsnum) : Prop :=
  exists q, x = Js.Fin q /\ (0 <= q)%Q /\ (q <= 100)%Q.

Definition sumQ (l : list Q) : Q := List.fold_right Qplus 0%Q l.

(** The revenue recorded for a week, 0 when the week is absent. *)
Fixpoint weekRevenue (weekKey : string) (weeks : list (string * Q)) : Q :=
  match weeks with
  | [] => 0%Q
  | (week, revenue) :: rest =>
      if String.eqb week weekKey then revenue else weekRevenue weekKey rest
  end.

(** The week a sale is bucketed under, if any. *)
Definition saleWeek `{W : WeekDates} (sale : CleanedSale) : option string :=
  if String.eqb (Date sale) "" then None
  else match parseDate (Date sale) with
       | Some date => Some (weekStartKey date)
       | None => None
       end.

Definition inWeek `{W : WeekDates} (week : string) (sale : CleanedSale) : bool :=
  match saleWeek sale with
  | Some key => String.eqb key week
  | None => false
  end.

(** One step of the weekly bucketing. *)
Definition bucketSale `{W : WeekDates} (acc : list (string * Q)) (sale : CleanedSale)
    : list (string * Q) :=
  match saleWeek sale with
  | Some weekKey => addWeek weekKey (Sale_value sale) acc
  | None => acc
  end.

(** What the loop maintains besides the sums: the order of the studio
    keys, the period label and the concatenated detail lists. *)
Definition studioOrderInvariant
    (st : list ProcessedTeacherData * StudioData) : Prop :=
  List.map fst (snd st) = Js.uniq (List.map location (fst st)) /\
  (forall k v, In (k, v) (snd st) ->
     (exists first rest, atLocation k (fst st) = first :: rest /\ period v = period first) /\
     newClientDetails v
       = List.concat (List.map newClientDetails (atLocation k (fst st)))).


(** ** The detail list of converted clients *)

(** The detail record of a converted client. The [conversionStatus] is
    the constant ['converted'] and the [conversionReason] is a text made
    of [firstPurchaseItem] and [value]; both are left out. *)
Module Converted.
Record t : Type := mk {
  email : string;
  name : string;
  date : string;
  firstVisit : string;
  value : Q;
  firstPurchaseDate : string;
  membershipType : string;
  firstPurchaseItem : option string;
  purchaseValue : Q
}.
End Converted.

Section ConvertedParts.

Context `{P : CsvParser} `{R : JsRuntime}.

(** The comparator [dateA.getTime() - dateB.getTime()] is not positive.
    With a date that does not parse the difference is [NaN], which the
    sort reads as 0; the kept sales all carry a date that parses. *)
Definition notAfter (a b : CleanedSale) : bool :=
  match dateGetTime (Date a), dateGetTime (Date b) with
  | Some timeA, Some timeB => timeA <=? timeB
  | _, _ => true
  end.

Fixpoint insertByDate (sale : CleanedSale) (sorted : list CleanedSale) : list CleanedSale :=
  match sorted with
  | [] => [sale]
  | next :: rest =>
      if notAfter sale next then sale :: next :: rest
      else next :: insertByDate sale rest
  end.

(** [sales.sort((a, b) => dateA.getTime() - dateB.getTime())] on a fresh
    array: ascending by time, sales of equal time in their former order
    (the sort is stable since ECMAScript 2019). *)
Definition sortByDate (sales : list CleanedSale) : list CleanedSale :=
  List.fold_right insertByDate [] sales.

Section CohortConverted.

Variable enrichedNewData : list NewRecord.
Variable cleanedSales : list CleanedSale.
Variables teacher loc per : string.

(** [convertedClientDetails]: one record per converted email, built from
    the kept sales under that email sorted by date. *)
Definition convertedClientDetailsOf : list Converted.t :=
  List.map (fun email =>
    let clientSales :=
      sortByDate
        (List.filter (fun sale =>
           String.eqb (Js.or_str (Customer_email sale) (Paying_Customer_email sale)) email)
           (convertedClientsList enrichedNewData cleanedSales teacher loc per)) in
    let totalValue :=
      List.fold_left (fun sum sale => (sum + Sale_value sale)%Q) clientSales 0%Q in
    let clientInfo :=
      List.find (fun client => String.eqb (Email client) email)
        (teacherNewClients enrichedNewData teacher loc per) in
    let firstPurchaseDate :=
      match clientSales with
      | first :: _ => Date first
      | [] => ""
      end in
    {| Converted.email := email;
       Converted.name :=
         match clientInfo with
         | Some client => First_name client ++ " " ++ Last_name client
         | None => "Unknown"
         end;
       Converted.date := firstPurchaseDate;
       Converted.firstVisit :=
         match clientInfo with
         | Some client => First_visit_at client
         | None => ""
         end;
       Converted.value := totalValue;
       Converted.firstPurchaseDate := firstPurchaseDate;
       Converted.membershipType :=
         match clientSales with
         | first :: _ => Js.or_str (Item first) ""
         | [] => ""
         end;
       Converted.firstPurchaseItem :=
         match clientSales with
         | first :: _ => Some (Item first)
         | [] => None
         end;
       Converted.purchaseValue := totalValue |})
    (convertedClientEmails enrichedNewData cleanedSales teacher loc per).

End CohortConverted.

End ConvertedParts.

(** ** [studioData] as a plain object

    [studioData] is created as [{}] and read and written under the
    location names. Two features of a plain object show in a run.

    A name that [Object.prototype] defines is found on the empty object:
    [studioData[location]] is then a function (the prototype itself for
    [__proto__]), the test [!studioData[location]] fails, no studio
    entry is created, the sums are written to that inherited value and
    [[...studio.newClientDetails, ...]] spreads [undefined]: the
    callback throws a [TypeError] and the promise is never resolved.

    [Object.values] lists the keys that are array indices first, in
    ascending numeric order, and the other keys after them in the order
    of their creation. *)

(** The names defined by [Object.prototype]. *)
Definition objectPrototypeMembers : list string :=
  [ "constructor"; "__defineGetter__"; "__defineSetter__"; "hasOwnProperty";
    "__lookupGetter__"; "__lookupSetter__"; "isPrototypeOf"; "propertyIsEnumerable";
    "toString"; "valueOf"; "__proto__"; "toLocaleString" ].

Definition inheritedKey (key : string) : bool :=
  List.existsb (String.eqb key) objectPrototypeMembers.

Definition digitOf (c : ascii) : option N :=
  let code := N_of_ascii c in
  if ((48 <=? code) && (code <=? 57))%N then Some (code - 48)%N else None.

Fixpoint digitsValue (s : string) (acc : N) : option N :=
  match s with
  | EmptyString => Some acc
  | String c rest =>
      match digitOf c with
      | Some d => digitsValue rest (10 * acc + d)%N
      | None => None
      end
  end.

(** The array index a key stands for: the key is the decimal writing,
    without a leading zero, of an integer below [2^32 - 1]. *)
Definition arrayIndexOf (key : string) : option N :=
  match key with
  | EmptyString => None
  | String c rest =>
      if (Ascii.eqb c "0" && negb (String.eqb rest ""))%bool then None
      else match digitsValue key 0%N with
           | Some n => if (n <? 4294967295)%N then Some n else None
           | None => None
           end
  end.

Definition isArrayIndex (key : string) : bool :=
  match arrayIndexOf key with Some _ => true | None => false end.

Fixpoint insertIndexed {A} (entry : N * A) (sorted : list (N * A)) : list (N * A) :=
  match sorted with
  | [] => [entry]
  | next :: rest =>
      if (fst entry <=? fst next)%N then entry :: next :: rest
      else next :: insertIndexed entry rest
  end.

(** The entries under array indices, in ascending order of the index. *)
Definition indexedValues {A} (object : list (string * A)) : list (N * A) :=
  List.fold_right insertIndexed []
    (List.flat_map (fun kv =>
       match arrayIndexOf (fst kv) with
       | Some n => [(n, snd kv)]
       | None => []
       end) object).

(** [Object.values] of an object given by its properties in the order
    of their creation. *)
Definition objectValues {A} (object : list (string * A)) : list A :=
  (List.map snd (indexedValues object) ++
   List.map snd (List.filter (fun kv => negb (isArrayIndex (fst kv))) object))%list.

(** How a run ends: the promise is resolved with [processedData], or the
    callback has thrown. *)
Inductive Outcome : Type :=
| Resolved (processedData : list ProcessedTeacherData)
| Thrown.

Section RunOutcome.

Context `{P : CsvParser} `{R : JsRuntime}.

Variable newData : list NewRecord.
Variable bookingsData : list BookingRecord.
Variable salesData : option (list SaleRecord).

(** The studio entries in the order in which [Object.values] lists
    them. *)
Definition returnedStudioEntries : list ProcessedTeacherData :=
  List.map studioRates (objectValues (snd (loopResult newData bookingsData salesData))).

(** The run. The loop throws at the first cohort that is not skipped
    and whose location is a name defined by [Object.prototype];
    otherwise the entries of the cohorts are followed by those of the
    studios. The helpers of [./csvParser] are taken not to throw. *)
Definition runOutcome : Outcome :=
  if List.existsb (fun d => inheritedKey (location d))
       (cohortEntries newData bookingsData salesData)
  then Thrown
  else Resolved (cohortEntries newData bookingsData salesData ++ returnedStudioEntries)%list.

End RunOutcome.

(** Runs with unusual location names. *)
Module SampleKeys.

Import Sample.

Definition at_ (location : string) (first email visitAt : string) : NewRecord :=
  mkNew first "K" email "Studio Open Barre Class" visitAt "Barre 57" location "".

(** One client whose first-visit location is called [constructor]. *)
Definition constructorNew : list NewRecord := [at_ "constructor" "Asha" "a@x.com" "2024-01-05"].
Definition constructorBookings : list BookingRecord :=
  [firstVisitOf (at_ "constructor" "Asha" "a@x.com" "2024-01-05")].

(** Three clients at the locations [Studio A], [7] and [12]. *)
Definition numberedNew : list NewRecord :=
  [ at_ "Studio A" "Asha" "a@x.com" "2024-01-05";
    at_ "12" "Bina" "b@x.com" "2024-01-05";
    at_ "7" "Chand" "c@x.com" "2024-01-05" ].
Definition numberedBookings : list BookingRecord := List.map firstVisitOf numberedNew.

#[local] Existing Instance parser.
#[local] Existing Instance runtime.

(** The cohort of T1 at [constructor] in January, and the run on these
    uploads with the given sales. *)
Definition constructorCohort : list NewRecord :=
  teacherNewClients (enrichedNewDataOf constructorNew constructorBookings)
    "T1" "constructor" "Jan 2024".

Definition constructorRun (salesData : option (list SaleRecord)) : Outcome :=
  runOutcome constructorNew constructorBookings salesData.

End SampleKeys.

(** One client with two qualifying purchases, the later dated one
    listed first. *)
Definition outOfOrderSales : list CleanedSale :=
  [ mkCleanedSale "Membership" "Annual" "2024-01-20" 1500 "NO" "a@x.com" "a@x.com";
    mkCleanedSale "Membership" "10-Class Pack" "2024-01-12" 1200 "NO" "a@x.com" "a@x.com" ].

(** The attendance records that count towards the retention of a
    member: the member's email as customer email, a class date strictly
    after the member's first visit, and neither cancelled, late
    cancelled nor missed. *)
Definition qualifyingReturnVisit `{P : CsvParser} (member : NewRecord)
    (booking : BookingRecord) : bool :=
  (String.eqb (Customer_Email booking) (Email member) &&
   isDateAfter (Class_Date booking) (First_visit_at member) &&
   String.eqb (Cancelled booking) "NO" &&
   String.eqb (Late_Cancelled booking) "NO" &&
   String.eqb (No_Show booking) "NO")%bool.

(** The time of a sale's date. *)
Definition saleTime `{R : JsRuntime} (sale : CleanedSale) : option Z :=
  dateGetTime (Date sale).

(** A list of indices in ascending order. *)
Fixpoint ascending (indices : list N) : bool :=
  match indices with
  | [] => true
  | index :: rest => List.forallb (N.leb index) rest && ascending rest
  end.

(** The period label and the detail list that a studio entry holds
    after the cohort entries [entries] were added to the studios: the
    period of the first cohort of its location, and the detail lists of
    the cohorts of its location one after the other. *)
Definition labelledByFirstCohort (entries : list ProcessedTeacherData)
    (r : ProcessedTeacherData) : Prop :=
  (exists first rest,
      atLocation (location r) entries = first :: rest /\ period r = period first) /\
  newClientDetails r
    = List.concat (List.map newClientDetails (atLocation (location r) entries)).

(** ** Properties *)

Section Properties.

Context `{P : CsvParser} `{R : JsRuntime}.

Lemma len_nonneg {A} (l : list A) : 0 <= Js.len l.
Proof. unfold Js.len. lia. Qed.

Lemma len_filter_le {A} (p : A -> bool) (l : list A) :
  Js.len (List.filter p l) <= Js.len l.
Proof.
  unfold Js.len. induction l as [|x l IH]; simpl; [lia|].
  destruct (p x); simpl; lia.
Qed.

Lemma len_zero_nil {A} (l : list A) : Js.len l = 0 -> l = [].
Proof. destruct l; [reflexivity|]. unfold Js.len. simpl. lia. Qed.

(** A [forEach] that pushes [f x] for the elements passing [p]
    appends the mapped filter. *)
Lemma push_fold {A B} (p : A -> bool) (f : A -> B) (l : list A) (pushed : list B) :
  List.fold_left (fun acc x => if p x then (acc ++ [f x])%list else acc) l pushed
  = (pushed ++ List.map f (List.filter p l))%list.
Proof.
  revert pushed. induction l as [|x l IH]; intros pushed; simpl.
  - now rewrite app_nil_r.
  - rewrite IH. destruct (p x); simpl; [|reflexivity].
    now rewrite <- app_assoc.
Qed.

(** *** Sets as lists of first occurrences *)

Lemma existsb_eqb_In (x : string) (l : list string) :
  List.existsb (String.eqb x) l = true <-> In x l.
Proof.
  rewrite existsb_exists. split.
  - intros (y & Hin & Heq). apply String.eqb_eq in Heq. now subst.
  - intros Hin. exists x. split; [exact Hin | apply String.eqb_refl].
Qed.

Lemma uniq_from_In (seen l : list string) (x : string) :
  In x (Js.uniq_from seen l) <-> In x l /\ ~ In x seen.
Proof.
  revert seen. induction l as [|y l IH]; intros seen; simpl; [tauto|].
  destruct (List.existsb (String.eqb y) seen) eqn:Hy.
  - apply existsb_eqb_In in Hy. rewrite IH. split.
    + intros [Hin Hnot]. split; [now right | exact Hnot].
    + intros [[-> | Hin] Hnot]; [contradiction | tauto].
  - assert (Hnot : ~ In y seen).
    { intros Hin. apply existsb_eqb_In in Hin. congruence. }
    simpl. rewrite IH. simpl. split.
    + intros [-> | [Hin Hns]]; [tauto|]. split; [now right | tauto].
    + intros [[-> | Hin] Hns]; [now left|].
      destruct (string_dec y x) as [->|Hne]; [now left | right; tauto].
Qed.

Lemma uniq_from_NoDup (seen l : list string) : List.NoDup (Js.uniq_from seen l).
Proof.
  revert seen. induction l as [|y l IH]; intros seen; simpl; [constructor|].
  destruct (List.existsb (String.eqb y) seen); [apply IH|].
  constructor; [|apply IH]. rewrite uniq_from_In. simpl. tauto.
Qed.

Lemma uniq_In (l : list string) (x : string) : In x (Js.uniq l) <-> In x l.
Proof. unfold Js.uniq. rewrite uniq_from_In. simpl. tauto. Qed.

Lemma uniq_NoDup (l : list string) : List.NoDup (Js.uniq l).
Proof. apply uniq_from_NoDup. Qed.

Section CohortFacts.

Variable enrichedNewData : list NewRecord.
Variable cleanedBookingsData : list BookingRecord.
Variable cleanedSales : list CleanedSale.
Variables teacher loc per : string.

Abbreviation clients := (teacherNewClients enrichedNewData teacher loc per).
Abbreviation visits := (returnVisits enrichedNewData cleanedBookingsData teacher loc per).

(** C4 (as amended). The return visits of a cohort are exactly the
    records of the whole attendance dataset, whatever their teacher,
    location or period, whose customer email is that of a cohort member,
    whose class date is strictly after the first-visit date of the
    first member with that email, and whose three flags are all "NO". *)
Theorem C4_return_visits_characterised (booking : BookingRecord) :
  In booking visits <->
  In booking cleanedBookingsData /\
  (exists member,
      List.find (fun client => String.eqb (Email client) (Customer_Email booking)) clients
        = Some member /\
      In member clients /\
      Email member = Customer_Email booking /\
      isDateAfter (Class_Date booking) (First_visit_at member) = true) /\
  Cancelled booking = "NO" /\
  Late_Cancelled booking = "NO" /\
  No_Show booking = "NO".
Proof.
  unfold returnVisits. rewrite filter_In.
  split.
  - intros [Hin Hkeep]. split; [exact Hin|].
    destruct (List.find _ clients) as [member|] eqn:Hfind; [|discriminate].
    repeat (apply andb_prop in Hkeep; destruct Hkeep as [Hkeep ?]).
    destruct (find_some _ _ Hfind) as [Hmem Heq].
    apply String.eqb_eq in Heq.
    repeat split; try (now apply String.eqb_eq).
    exists member. repeat split; assumption.
  - intros (Hin & (member & Hfind & _ & _ & Hafter) & Hc & Hl & Hn).
    split; [exact Hin|]. rewrite Hfind, Hafter, Hc, Hl, Hn. reflexivity.
Qed.

(** The return visits of one email, spelled out over the attendance
    dataset: once the first cohort member with the email is known, they
    are the records with that customer email, a class date strictly
    after that member's first-visit date and the three flags "NO". *)
Lemma client_return_visits_spelled (email : string) (first : NewRecord) :
  List.find (fun client => String.eqb (Email client) email) clients = Some first ->
  clientReturnVisits enrichedNewData cleanedBookingsData teacher loc per email
  = List.filter (fun booking =>
      (String.eqb (Customer_Email booking) email &&
       isDateAfter (Class_Date booking) (First_visit_at first) &&
       String.eqb (Cancelled booking) "NO" &&
       String.eqb (Late_Cancelled booking) "NO" &&
       String.eqb (No_Show booking) "NO")%bool) cleanedBookingsData.
Proof.
  intros Hfind. unfold clientReturnVisits, returnVisits.
  induction cleanedBookingsData as [|booking rest IH]; [reflexivity|].
  cbn [List.filter].
  destruct (String.eqb (Customer_Email booking) email) eqn:Hemail.
  - apply String.eqb_eq in Hemail. rewrite Hemail, Hfind.
    cbn [andb].
    destruct (isDateAfter (Class_Date booking) (First_visit_at first) &&
              String.eqb (Cancelled booking) "NO" &&
              String.eqb (Late_Cancelled booking) "NO" &&
              String.eqb (No_Show booking) "NO")%bool eqn:Hkeep.
    + cbn [List.filter]. rewrite Hemail, String.eqb_refl. now rewrite IH.
    + exact IH.
  - cbn [andb].
    destruct (List.find (fun client => String.eqb (Email client) (Customer_Email booking))
                clients) as [other|]; [|exact IH].
    destruct (isDateAfter (Class_Date booking) (First_visit_at other) &&
              String.eqb (Cancelled booking) "NO" &&
              String.eqb (Late_Cancelled booking) "NO" &&
              String.eqb (No_Show booking) "NO")%bool; [|exact IH].
    cbn [List.filter]. rewrite Hemail. exact IH.
Qed.

Lemma client_return_visits_unknown (email : string) :
  List.find (fun client => String.eqb (Email client) email) clients = None ->
  clientReturnVisits enrichedNewData cleanedBookingsData teacher loc per email = [].
Proof.
  intros Hfind. unfold clientReturnVisits, returnVisits.
  induction cleanedBookingsData as [|booking rest IH]; [reflexivity|].
  cbn [List.filter].
  destruct (List.find (fun client => String.eqb (Email client) (Customer_Email booking))
              clients) as [other|] eqn:Hother; [|exact IH].
  destruct (_ && _)%bool; [|exact IH].
  cbn [List.filter].
  destruct (String.eqb (Customer_Email booking) email) eqn:Hemail; [|exact IH].
  apply String.eqb_eq in Hemail. rewrite Hemail, Hfind in Hother. discriminate.
Qed.

(** C5. A cohort member is retained exactly when the number of their
    return visits reaches the threshold of their first-visit label: 2
    when it contains "2 for 1" in any letter case, 1 otherwise.  The
    return visits are counted over the whole attendance dataset: the
    records with the member's email as customer email, a class date
    strictly after the first-visit date of the first cohort member with
    that email (the member itself when emails are unique) and the three
    flags "NO".  Every cohort member has such a first member; an email
    with none has no return visit and is not retained.  The retained
    emails are those of the retained members, in cohort order, and the
    retained count is their number. *)
Theorem C5_retention_threshold :
  (forall client first,
      List.find (fun member => String.eqb (Email member) (Email client)) clients
        = Some first ->
      (isRetained enrichedNewData cleanedBookingsData teacher loc per client = true <->
       retentionThreshold client <=
         Js.len (List.filter (fun booking =>
                   (String.eqb (Customer_Email booking) (Email client) &&
                    isDateAfter (Class_Date booking) (First_visit_at first) &&
                    String.eqb (Cancelled booking) "NO" &&
                    String.eqb (Late_Cancelled booking) "NO" &&
                    String.eqb (No_Show booking) "NO")%bool) cleanedBookingsData))) /\
  (forall client, In client clients ->
      exists first,
        List.find (fun member => String.eqb (Email member) (Email client)) clients
          = Some first /\
        In first clients /\ Email first = Email client) /\
  (forall client,
      List.find (fun member => String.eqb (Email member) (Email client)) clients = None ->
      isRetained enrichedNewData cleanedBookingsData teacher loc per client = false) /\
  retainedClientEmails enrichedNewData cleanedBookingsData teacher loc per
    = List.map Email
        (List.filter (isRetained enrichedNewData cleanedBookingsData teacher loc per) clients) /\
  retainedClientsCount enrichedNewData cleanedBookingsData teacher loc per
    = Js.len
        (List.filter (isRetained enrichedNewData cleanedBookingsData teacher loc per) clients).
Proof.
  split; [|split; [|split; [|split]]].
  - intros client first Hfind.
    rewrite <- (client_return_visits_spelled (Email client) first Hfind).
    unfold isRetained, retentionThreshold.
    destruct (Js.includes _ _); apply Z.leb_le.
  - intros client Hin.
    destruct (List.find (fun member => String.eqb (Email member) (Email client)) clients)
      as [first|] eqn:Hfind.
    + destruct (find_some _ _ Hfind) as [Hmem Heq]. apply String.eqb_eq in Heq.
      exists first. repeat split; assumption.
    + pose proof (find_none _ _ Hfind client Hin) as Hno. cbn beta in Hno.
      rewrite String.eqb_refl in Hno. discriminate.
  - intros client Hfind. unfold isRetained.
    rewrite (client_return_visits_unknown (Email client) Hfind).
    now destruct (Js.includes _ _).
  - unfold retainedClientEmails. now rewrite push_fold.
  - unfold retainedClientsCount, retainedClientEmails. rewrite push_fold. simpl.
    unfold Js.len. now rewrite length_map.
Qed.

(** C7 (as amended). Each of the four tested channel counts is the
    number of cohort members passing that channel's own test, lies
    between 0 and the new-client count, and the five counts add up to
    the new-client count; the tests are applied independently of one
    another. *)
Theorem C7_channel_counts_sum :
  trialsCount enrichedNewData teacher loc per
    + referralsCount enrichedNewData teacher loc per
    + hostedCount enrichedNewData teacher loc per
    + influencerSignupsCount enrichedNewData teacher loc per
    + othersCount enrichedNewData teacher loc per
    = newClientsCount enrichedNewData teacher loc per /\
  trialsCount enrichedNewData teacher loc per = Js.len (List.filter isTrial clients) /\
  referralsCount enrichedNewData teacher loc per = Js.len (List.filter isReferral clients) /\
  hostedCount enrichedNewData teacher loc per = Js.len (List.filter isHosted clients) /\
  influencerSignupsCount enrichedNewData teacher loc per
    = Js.len (List.filter isInfluencer clients) /\
  0 <= trialsCount enrichedNewData teacher loc per
    <= newClientsCount enrichedNewData teacher loc per /\
  0 <= referralsCount enrichedNewData teacher loc per
    <= newClientsCount enrichedNewData teacher loc per /\
  0 <= hostedCount enrichedNewData teacher loc per
    <= newClientsCount enrichedNewData teacher loc per /\
  0 <= influencerSignupsCount enrichedNewData teacher loc per
    <= newClientsCount enrichedNewData teacher loc per.
Proof.
  unfold othersCount, trialsCount, referralsCount, hostedCount, influencerSignupsCount,
    newClientsCount.
  pose proof (len_nonneg (List.filter isTrial clients)).
  pose proof (len_nonneg (List.filter isReferral clients)).
  pose proof (len_nonneg (List.filter isHosted clients)).
  pose proof (len_nonneg (List.filter isInfluencer clients)).
  pose proof (len_filter_le isTrial clients).
  pose proof (len_filter_le isReferral clients).
  pose proof (len_filter_le isHosted clients).
  pose proof (len_filter_le isInfluencer clients).
  repeat split; try reflexivity; lia.
Qed.


(** *** The conversion scan *)

Abbreviation scan := (scanSales enrichedNewData teacher loc per).
Abbreviation matched := (matchingClient enrichedNewData teacher loc per).

Lemma recordSale_other (client : NewRecord) (sale : CleanedSale)
    (m : gmap string Status.t) (e : string) :
  e <> Email client -> recordSale client sale m !! e = m !! e.
Proof.
  intros Hne. unfold recordSale.
  destruct (isConverted client sale && _)%bool.
  - now rewrite lookup_insert_ne.
  - destruct (m !! Email client) as [st|]; [|reflexivity].
    destruct (negb _ && _)%bool; [|reflexivity].
    now rewrite lookup_insert_ne.
Qed.

(** One sale marks at most the matched member, and only when it
    qualifies. *)
Lemma recordSale_marked (client : NewRecord) (sale : CleanedSale)
    (m : gmap string Status.t) (e : string) :
  markedConverted (recordSale client sale m) e
  = (markedConverted m e || (String.eqb e (Email client) && isConverted client sale))%bool.
Proof.
  destruct (String.eqb e (Email client)) eqn:He.
  - apply String.eqb_eq in He. subst e.
    unfold markedConverted, recordSale.
    destruct (m !! Email client) as [st|] eqn:Hm; simpl.
    + destruct (isConverted client sale), (Status.isConverted st) eqn:Hst; simpl;
        rewrite ?lookup_insert_eq, ?Hm; simpl; try rewrite Hst; reflexivity.
    + destruct (isConverted client sale); simpl;
        rewrite ?lookup_insert_eq, ?Hm; reflexivity.
  - apply String.eqb_neq in He.
    unfold markedConverted. rewrite (recordSale_other _ _ _ _ He).
    simpl. now rewrite orb_false_r.
Qed.

(** An entry that is converted is never written again. *)
Lemma recordSale_keeps_converted (client : NewRecord) (sale : CleanedSale)
    (m : gmap string Status.t) (e : string) (st : Status.t) :
  m !! e = Some st -> Status.isConverted st = true ->
  recordSale client sale m !! e = Some st.
Proof.
  intros Hm Hst.
  destruct (String.eqb e (Email client)) eqn:He.
  - apply String.eqb_eq in He. subst e.
    unfold recordSale. rewrite Hm, Hst. simpl.
    rewrite !andb_false_r. exact Hm.
  - apply String.eqb_neq in He. now rewrite recordSale_other.
Qed.

(** The first qualifying sale of a member writes its own date, item and
    value. *)
Lemma recordSale_first (client : NewRecord) (sale : CleanedSale)
    (m : gmap string Status.t) :
  isConverted client sale = true ->
  markedConverted m (Email client) = false ->
  recordSale client sale m !! Email client
  = Some (Status.mk true (ConvertedWith (Item sale) (Sale_value sale) (Date sale))
            (Some (Date sale)) (Some (Item sale)) (Some (Sale_value sale))).
Proof.
  intros Hconv Hnot. unfold recordSale. unfold markedConverted in Hnot.
  rewrite Hconv, Hnot. simpl. rewrite lookup_insert_eq.
  unfold conversionReasonOf. unfold isConverted in Hconv.
  repeat (apply andb_prop in Hconv; destruct Hconv as [Hconv ?]).
  repeat match goal with H : _ = true |- _ => rewrite H; clear H end.
  reflexivity.
Qed.

Lemma scan_app (a b : list CleanedSale) (m : gmap string Status.t) :
  scan (a ++ b)%list m
  = ((fst (scan a m) ++ fst (scan b (snd (scan a m))))%list,
     snd (scan b (snd (scan a m)))).
Proof.
  revert m. induction a as [|sale a IH]; intros m; simpl.
  - now destruct (scan b m).
  - destruct (matched sale) as [client|]; [|apply IH].
    rewrite IH.
    destruct (scan a (recordSale client sale m)) as [kept final]. simpl.
    now destruct (isConverted client sale).
Qed.

(** The kept sales are the qualifying ones, whatever the map. *)
Lemma scan_kept (sales : list CleanedSale) (m : gmap string Status.t) :
  fst (scan sales m)
  = List.filter (qualifyingSale enrichedNewData teacher loc per) sales.
Proof.
  revert m. induction sales as [|sale sales IH]; intros m; simpl; [reflexivity|].
  unfold qualifyingSale at 1.
  destruct (matched sale) as [client|]; [|apply IH].
  specialize (IH (recordSale client sale m)).
  destruct (scan sales (recordSale client sale m)) as [kept final]. simpl in *.
  destruct (isConverted client sale); now rewrite IH.
Qed.

Lemma scan_keeps_converted (sales : list CleanedSale) (m : gmap string Status.t)
    (e : string) (st : Status.t) :
  m !! e = Some st -> Status.isConverted st = true ->
  snd (scan sales m) !! e = Some st.
Proof.
  revert m. induction sales as [|sale sales IH]; intros m Hm Hst; simpl; [exact Hm|].
  destruct (matched sale) as [client|]; [|now apply IH].
  specialize (IH (recordSale client sale m)
                (recordSale_keeps_converted client sale m e st Hm Hst) Hst).
  now destruct (scan sales (recordSale client sale m)).
Qed.

(** Without a qualifying sale of the member, the member stays
    unmarked. *)
Lemma scan_stays_unmarked (sales : list CleanedSale) (m : gmap string Status.t)
    (e : string) :
  markedConverted m e = false ->
  (forall earlier c, In earlier sales -> matched earlier = Some c -> Email c = e ->
     isConverted c earlier = false) ->
  markedConverted (snd (scan sales m)) e = false.
Proof.
  revert m. induction sales as [|sale sales IH]; intros m Hm Hnone; simpl; [exact Hm|].
  destruct (matched sale) as [client|] eqn:Hmatch.
  - assert (Hstep : markedConverted (recordSale client sale m) e = false).
    { rewrite recordSale_marked, Hm. simpl.
      destruct (String.eqb e (Email client)) eqn:He; [|reflexivity].
      apply String.eqb_eq in He. simpl.
      apply (Hnone sale client); [now left | exact Hmatch | now symmetry]. }
    specialize (IH (recordSale client sale m) Hstep).
    destruct (scan sales (recordSale client sale m)) as [kept final]. simpl in *.
    apply IH. intros earlier c Hin. apply Hnone. now right.
  - apply IH; [exact Hm|]. intros earlier c Hin. apply Hnone. now right.
Qed.

(** A property of the entries that both writes of [recordSale]
    establish or preserve holds of every entry after the scan. *)
Lemma scan_marked_inv (Good : Status.t -> Prop) (sales : list CleanedSale)
    (m : gmap string Status.t) :
  (forall client sale st, Good st -> Good
     (Status.mk (Status.isConverted st) (conversionReasonOf client sale)
        (Status.firstPurchaseDate st) (Status.firstPurchaseItem st)
        (Status.purchaseValue st))) ->
  (forall client sale, isConverted client sale = true -> Good
     (Status.mk true (conversionReasonOf client sale)
        (Some (Date sale)) (Some (Item sale)) (Some (Sale_value sale)))) ->
  (forall e st, m !! e = Some st -> Good st) ->
  forall e st, snd (scan sales m) !! e = Some st -> Good st.
Proof.
  intros Hreason Hfirst. revert m.
  induction sales as [|sale sales IH]; intros m Hm e st; simpl; [apply Hm|].
  destruct (matched sale) as [client|]; [|now apply IH].
  destruct (scan sales (recordSale client sale m)) as [kept final] eqn:Hscan. simpl.
  intros Hfinal. apply (IH (recordSale client sale m)) with (e := e).
  - clear e st Hfinal. intros e st. unfold recordSale.
    destruct (isConverted client sale) eqn:Hconv; simpl.
    + destruct (negb _).
      * destruct (decide (e = Email client)) as [->|Hne].
        -- rewrite lookup_insert_eq. intros [= <-]. now apply Hfirst.
        -- rewrite lookup_insert_ne by congruence. apply Hm.
      * destruct (m !! Email client); apply Hm.
    + destruct (m !! Email client) as [st0|] eqn:Hm0; [|apply Hm].
      destruct (negb (Status.isConverted st0)); simpl; [|apply Hm].
      destruct (decide (e = Email client)) as [->|Hne].
      * rewrite lookup_insert_eq. intros [= <-]. apply Hreason. now apply (Hm _ _ Hm0).
      * rewrite lookup_insert_ne by congruence. apply Hm.
  - now rewrite Hscan.
Qed.

Lemma initial_map_inv (Good : Status.t -> Prop) :
  Good (Status.mk false NoQualifyingPurchase None None None) ->
  forall e st,
    initialConversionMap enrichedNewData teacher loc per !! e = Some st -> Good st.
Proof.
  intros Hgood. unfold initialConversionMap.
  assert (Hgen : forall (l : list NewRecord) (m : gmap string Status.t),
    (forall e st, m !! e = Some st -> Good st) ->
    forall e st,
      List.fold_left (fun m client =>
        <[Email client := Status.mk false NoQualifyingPurchase None None None]> m) l m
      !! e = Some st -> Good st).
  { induction l as [|c l IH]; intros m Hm e st; simpl; [apply Hm|].
    apply IH. clear e st. intros e st.
    destruct (decide (e = Email c)) as [->|Hne].
    - rewrite lookup_insert_eq. now intros [= <-].
    - rewrite lookup_insert_ne by congruence. apply Hm. }
  apply Hgen. intros e st. now rewrite lookup_empty.
Qed.

Lemma initial_map_unmarked (e : string) :
  markedConverted (initialConversionMap enrichedNewData teacher loc per) e = false.
Proof.
  unfold markedConverted.
  destruct (initialConversionMap enrichedNewData teacher loc per !! e) as [st|] eqn:Hm;
    [|reflexivity].
  now apply (initial_map_inv (fun st => Status.isConverted st = false) eq_refl e st).
Qed.

Lemma isDateOnOrAfter_spec (dateA dateB : string) :
  isDateOnOrAfter dateA dateB = true <->
  dateA <> "" /\ dateB <> "" /\
  exists a b, dateGetTime dateA = Some a /\ dateGetTime dateB = Some b /\ b <= a.
Proof.
  unfold isDateOnOrAfter.
  destruct (String.eqb dateA "") eqn:Ha; simpl.
  { apply String.eqb_eq in Ha. split; [discriminate | intros [H _]; contradiction]. }
  destruct (String.eqb dateB "") eqn:Hb; simpl.
  { apply String.eqb_eq in Hb. split; [discriminate | intros (_ & H & _); contradiction]. }
  apply String.eqb_neq in Ha, Hb.
  destruct (dateGetTime dateA) as [a|], (dateGetTime dateB) as [b|].
  - rewrite Z.leb_le. split.
    + intros Hle. repeat split; try assumption. now exists a, b.
    + intros (_ & _ & a' & b' & [= <-] & [= <-] & Hle). exact Hle.
  - split; [discriminate | intros (_ & _ & a' & b' & _ & [=] & _)].
  - split; [discriminate | intros (_ & _ & a' & b' & [=] & _)].
  - split; [discriminate | intros (_ & _ & a' & b' & [=] & _)].
Qed.

(** C2 (as amended). A sale qualifies for a cohort member exactly when
    all five conditions hold: both dates are present and parse, and the
    sale date is on or after the first-visit date; the category, in
    lower case, contains none of "money-credits", "retail", "product";
    the item, in lower case, does not contain "2 for 1"; the value is at
    least 1000; the refunded flag is not "YES". A sale below 1000
    therefore never qualifies and never marks any entry of the
    conversion map as converted, and every converted entry of the map
    after the scan carries a value of at least 1000. *)
Theorem C2_qualifying_sale_conditions (client : NewRecord) (sale : CleanedSale) :
  (isConverted client sale = true <->
     (Date sale <> "" /\ First_visit_at client <> "" /\
      exists a b, dateGetTime (Date sale) = Some a /\
                  dateGetTime (First_visit_at client) = Some b /\ b <= a) /\
     (Js.includes (Js.toLowerCase (Category sale)) "money-credits" = false /\
      Js.includes (Js.toLowerCase (Category sale)) "retail" = false /\
      Js.includes (Js.toLowerCase (Category sale)) "product" = false) /\
     Js.includes (Js.toLowerCase (Item sale)) "2 for 1" = false /\
     (1000 <= Sale_value sale)%Q /\
     Refunded sale <> "YES") /\
  ((Sale_value sale < 1000)%Q ->
     isConverted client sale = false /\
     forall m e, markedConverted (recordSale client sale m) e = markedConverted m e) /\
  (forall e st,
     clientConversionMap enrichedNewData cleanedSales teacher loc per !! e = Some st ->
     Status.isConverted st = true ->
     exists v, Status.purchaseValue st = Some v /\ (1000 <= v)%Q).
Proof.
  split; [|split].
  - unfold isConverted, saleDateAfterVisit, notExcludedCategory, not2For1Item,
      hasMinimumSaleValue, notRefunded.
    rewrite !andb_true_iff, !negb_true_iff, isDateOnOrAfter_spec, Qle_bool_iff,
      String.eqb_neq.
    tauto.
  - intros Hlow.
    assert (Hno : isConverted client sale = false).
    { unfold isConverted, hasMinimumSaleValue.
      destruct (Qle_bool 1000 (Sale_value sale)) eqn:Hle.
      - apply Qle_bool_iff in Hle. exfalso. apply (Qlt_not_le _ _ Hlow Hle).
      - now rewrite andb_false_r. }
    split; [exact Hno|]. intros m e.
    rewrite recordSale_marked, Hno, andb_false_r, orb_false_r. reflexivity.
  - intros e st Hfinal. unfold clientConversionMap in Hfinal.
    revert e st Hfinal.
    apply (scan_marked_inv (fun st => Status.isConverted st = true ->
              exists v, Status.purchaseValue st = Some v /\ (1000 <= v)%Q)).
    + intros c s st Hgood. exact Hgood.
    + intros c s Hconv _. exists (Sale_value s). split; [reflexivity|].
      unfold isConverted, hasMinimumSaleValue in Hconv.
      rewrite !andb_true_iff in Hconv. apply Qle_bool_iff. tauto.
    + intros e st Hinit.
      apply (initial_map_inv (fun st => Status.isConverted st = true ->
               exists v, Status.purchaseValue st = Some v /\ (1000 <= v)%Q)) with (e := e);
        [discriminate | exact Hinit].
Qed.

(** *** The date sort of the converted-client details *)

Lemma In_insertByDate (x sale : CleanedSale) (sorted : list CleanedSale) :
  In x (insertByDate sale sorted) <-> x = sale \/ In x sorted.
Proof.
  induction sorted as [|next rest IH]; simpl.
  - split; [intros [<-|[]]; now left | intros [->|[]]; now left].
  - destruct (notAfter sale next); simpl; [split; intros [<-|H]; auto|].
    rewrite IH. split; intros [H|[H|H]]; auto.
Qed.

Lemma In_sortByDate (x : CleanedSale) (sales : list CleanedSale) :
  In x (sortByDate sales) <-> In x sales.
Proof.
  induction sales as [|sale sales IH]; simpl; [reflexivity|].
  rewrite In_insertByDate, IH. split; intros [H|H]; auto.
Qed.

(** On sales whose dates parse, the sort puts a sale of the least time
    first. *)
Lemma sortByDate_head (sales : list CleanedSale) :
  (forall s, In s sales -> exists t, saleTime s = Some t) ->
  forall first rest, sortByDate sales = first :: rest ->
  forall s, In s sales ->
  exists t0 t, saleTime first = Some t0 /\ saleTime s = Some t /\ t0 <= t.
Proof.
  induction sales as [|sale sales IH]; intros Hdated first rest Hsort s Hin;
    [contradiction|].
  assert (Hrest : forall s', In s' sales -> exists t, saleTime s' = Some t)
    by (intros s' H'; apply Hdated; now right).
  specialize (IH Hrest).
  destruct (Hdated sale (or_introl eq_refl)) as [tsale Htsale].
  simpl in Hsort.
  destruct (sortByDate sales) as [|next sorted] eqn:Hsorted.
  - simpl in Hsort. injection Hsort as <- <-.
    destruct sales as [|s' sales'].
    + destruct Hin as [<-|[]]. exists tsale, tsale. repeat split; try assumption. lia.
    + assert (Hs' : In s' (sortByDate (s' :: sales')))
        by (apply In_sortByDate; now left).
      rewrite Hsorted in Hs'. contradiction.
  - specialize (IH next sorted eq_refl).
    assert (Hnext : In next sales)
      by (apply In_sortByDate; rewrite Hsorted; now left).
    destruct (Hrest next Hnext) as [tnext Htnext].
    simpl in Hsort. unfold notAfter in Hsort. unfold saleTime in *.
    rewrite Htsale, Htnext in Hsort.
    destruct (tsale <=? tnext) eqn:Hle.
    + injection Hsort as <- <-. apply Z.leb_le in Hle.
      destruct Hin as [<-|Hin].
      * exists tsale, tsale. repeat split; try assumption. lia.
      * destruct (IH s Hin) as (t0 & t & H0 & Ht & Hle').
        rewrite Htnext in H0. injection H0 as <-.
        exists tsale, t. repeat split; try assumption. lia.
    + injection Hsort as <- <-. apply Z.leb_gt in Hle.
      destruct Hin as [<-|Hin].
      * exists tnext, tsale. repeat split; try assumption. lia.
      * exact (IH s Hin).
Qed.

Lemma fold_sum_from (sales : list CleanedSale) (start : Q) :
  (List.fold_left (fun sum s => sum + Sale_value s) sales start
   == start + sumQ (List.map Sale_value sales))%Q.
Proof.
  revert start. induction sales as [|sale sales IH]; intros start; simpl.
  - ring.
  - rewrite IH. ring.
Qed.

Lemma sumQ_insertByDate (sale : CleanedSale) (sorted : list CleanedSale) :
  (sumQ (List.map Sale_value (insertByDate sale sorted))
   == Sale_value sale + sumQ (List.map Sale_value sorted))%Q.
Proof.
  induction sorted as [|next rest IH]; simpl; [reflexivity|].
  destruct (notAfter sale next); simpl; [reflexivity|].
  rewrite IH. ring.
Qed.

Lemma sumQ_sortByDate (sales : list CleanedSale) :
  (sumQ (List.map Sale_value (sortByDate sales)) == sumQ (List.map Sale_value sales))%Q.
Proof.
  induction sales as [|sale sales IH]; simpl; [reflexivity|].
  rewrite sumQ_insertByDate, IH. reflexivity.
Qed.

(** The date of a qualifying sale parses. *)
Lemma qualifying_sale_dated (sale : CleanedSale) :
  qualifyingSale enrichedNewData teacher loc per sale = true ->
  exists t, saleTime sale = Some t.
Proof.
  unfold qualifyingSale. destruct (matched sale) as [member|]; [|discriminate].
  unfold isConverted, saleDateAfterVisit. rewrite !andb_true_iff.
  intros ((((Hdate & _) & _) & _) & _).
  apply isDateOnOrAfter_spec in Hdate.
  destruct Hdate as (_ & _ & a & b & Ha & _ & _). now exists a.
Qed.

(** The email a kept sale is listed under, as the detail list of the
    converted clients reads it. *)
Lemma or_str_saleEmail (sale : CleanedSale) :
  Js.or_str (Customer_email sale) (Paying_Customer_email sale) = saleEmail sale.
Proof.
  unfold saleEmail, Js.or_str.
  destruct (String.eqb (Customer_email sale) ""); [|reflexivity].
  destruct (String.eqb (Paying_Customer_email sale) "") eqn:He; [|reflexivity].
  now apply String.eqb_eq in He.
Qed.

(** C3 (as amended). When a member has a qualifying sale, the
    conversion map and the member's record of the new-client details
    (there is one) carry the date, item and value of the first
    qualifying sale in dataset order, whatever sales follow it.  The
    cohort's total revenue adds up, in dataset order, the values of all
    qualifying sales, repeat purchases of one member included.  The
    detail list of the converted clients follows another rule: it has
    one record per converted email, which carries the date and the item
    of a qualifying sale of the least time among those listed under
    that email, and as value the sum of the values of all of them. *)
Theorem C3_first_purchase_and_full_revenue
    (pre post : list CleanedSale) (sale : CleanedSale) (member : NewRecord) :
  cleanedSales = (pre ++ sale :: post)%list ->
  matched sale = Some member ->
  isConverted member sale = true ->
  (forall earlier c, In earlier pre -> matched earlier = Some c ->
     Email c = Email member -> isConverted c earlier = false) ->
  clientConversionMap enrichedNewData cleanedSales teacher loc per !! Email member
    = Some (Status.mk true (ConvertedWith (Item sale) (Sale_value sale) (Date sale))
              (Some (Date sale)) (Some (Item sale)) (Some (Sale_value sale))) /\
  (exists d, In d (newClientDetailsOf enrichedNewData cleanedSales teacher loc per) /\
     Detail.email d = Email member) /\
  (forall d, In d (newClientDetailsOf enrichedNewData cleanedSales teacher loc per) ->
     Detail.email d = Email member ->
     Detail.converted d = true /\
     Detail.firstPurchaseDate d = Some (Date sale) /\
     Detail.firstPurchaseItem d = Some (Item sale) /\
     Detail.purchaseValue d = Some (Sale_value sale)) /\
  totalRevenueOf enrichedNewData cleanedSales teacher loc per
    = List.fold_left (fun sum s => (sum + Sale_value s)%Q)
        (List.filter (qualifyingSale enrichedNewData teacher loc per) cleanedSales) 0%Q /\
  List.map Converted.email
      (convertedClientDetailsOf enrichedNewData cleanedSales teacher loc per)
    = convertedClientEmails enrichedNewData cleanedSales teacher loc per /\
  In (saleEmail sale) (convertedClientEmails enrichedNewData cleanedSales teacher loc per) /\
  Forall (fun r =>
      exists first t0,
        In first (List.filter (qualifyingSale enrichedNewData teacher loc per) cleanedSales) /\
        saleEmail first = Converted.email r /\
        saleTime first = Some t0 /\
        (forall s,
           In s (List.filter (qualifyingSale enrichedNewData teacher loc per) cleanedSales) ->
           saleEmail s = Converted.email r ->
           exists t, saleTime s = Some t /\ t0 <= t) /\
        Converted.date r = Date first /\
        Converted.firstPurchaseDate r = Date first /\
        Converted.firstPurchaseItem r = Some (Item first) /\
        Converted.purchaseValue r = Converted.value r /\
        (Converted.value r
         == sumQ (List.map Sale_value
              (List.filter (fun s => String.eqb (saleEmail s) (Converted.email r))
                 (List.filter (qualifyingSale enrichedNewData teacher loc per)
                    cleanedSales))))%Q)
    (convertedClientDetailsOf enrichedNewData cleanedSales teacher loc per).
Proof.
  intros Hsplit Hmatch Hconv Hfirst.
  assert (Hmap :
    clientConversionMap enrichedNewData cleanedSales teacher loc per !! Email member
    = Some (Status.mk true (ConvertedWith (Item sale) (Sale_value sale) (Date sale))
              (Some (Date sale)) (Some (Item sale)) (Some (Sale_value sale)))).
  { unfold clientConversionMap. rewrite Hsplit, scan_app. simpl. rewrite Hmatch.
    set (m := snd (scan pre (initialConversionMap enrichedNewData teacher loc per))).
    assert (Hun : markedConverted m (Email member) = false).
    { apply scan_stays_unmarked; [apply initial_map_unmarked | exact Hfirst]. }
    pose proof (recordSale_first member sale m Hconv Hun) as Hrec.
    pose proof (scan_keeps_converted post _ _ _ Hrec eq_refl) as Hkeep.
    destruct (scan post (recordSale member sale m)) as [kept final]. exact Hkeep. }
  assert (Hkept : In sale
            (List.filter (qualifyingSale enrichedNewData teacher loc per) cleanedSales)).
  { apply filter_In. split.
    - rewrite Hsplit. apply in_or_app. right. now left.
    - unfold qualifyingSale. now rewrite Hmatch. }
  split; [exact Hmap|].
  split.
  { exists (Detail.mk (Email member) (First_name member ++ " " ++ Last_name member)
              (First_visit_at member) (Membership_used member) true
              (ConvertedWith (Item sale) (Sale_value sale) (Date sale))
              (Some (Date sale)) (Some (Item sale)) (Some (Sale_value sale))).
    split; [|reflexivity].
    unfold newClientDetailsOf. apply in_map_iff. exists member. split.
    - now rewrite Hmap.
    - unfold matchingClient in Hmatch. exact (proj1 (find_some _ _ Hmatch)). }
  split.
  { intros d Hin Hemail. unfold newClientDetailsOf in Hin.
    apply in_map_iff in Hin. destruct Hin as (c & <- & _). simpl in *.
    rewrite Hemail, Hmap. simpl. repeat split. }
  split.
  { unfold totalRevenueOf, convertedClientsList. now rewrite scan_kept. }
  split.
  { unfold convertedClientDetailsOf. rewrite List.map_map. simpl. apply List.map_id. }
  split.
  { unfold convertedClientEmails, convertedClientsList. rewrite scan_kept.
    apply (proj2 (uniq_In _ _)). apply in_map. exact Hkept. }
  apply List.Forall_forall. intros r Hr.
  unfold convertedClientDetailsOf in Hr. apply in_map_iff in Hr.
  destruct Hr as (email & <- & Hemail). cbn [Converted.email Converted.date
    Converted.firstPurchaseDate Converted.firstPurchaseItem Converted.purchaseValue
    Converted.value].
  unfold convertedClientsList. rewrite scan_kept.
  set (kept := List.filter (qualifyingSale enrichedNewData teacher loc per) cleanedSales).
  assert (Hsame :
    List.filter (fun s => String.eqb (Js.or_str (Customer_email s) (Paying_Customer_email s))
                            email) kept
    = List.filter (fun s => String.eqb (saleEmail s) email) kept).
  { apply filter_ext. intros s. now rewrite or_str_saleEmail. }
  rewrite Hsame.
  set (mine := List.filter (fun s => String.eqb (saleEmail s) email) kept).
  assert (Hdated : forall s, In s mine -> exists t, saleTime s = Some t).
  { intros s Hs. apply filter_In in Hs. destruct Hs as [Hs _].
    apply filter_In in Hs. exact (qualifying_sale_dated s (proj2 Hs)). }
  assert (Hsome : exists s, In s mine).
  { unfold convertedClientEmails, convertedClientsList in Hemail.
    rewrite scan_kept in Hemail. apply (proj1 (uniq_In _ _)) in Hemail.
    apply in_map_iff in Hemail. destruct Hemail as (s & Hs & Hin).
    exists s. apply filter_In. split; [exact Hin|]. now apply String.eqb_eq. }
  destruct (sortByDate mine) as [|first rest] eqn:Hsort.
  { destruct Hsome as [s Hs]. apply In_sortByDate in Hs. rewrite Hsort in Hs.
    contradiction. }
  assert (Hfirstin : In first mine)
    by (apply In_sortByDate; rewrite Hsort; now left).
  destruct (Hdated first Hfirstin) as [t0 Ht0].
  exists first, t0.
  apply filter_In in Hfirstin. destruct Hfirstin as [Hfk Hfe].
  apply String.eqb_eq in Hfe.
  split; [exact Hfk|]. split; [exact Hfe|]. split; [exact Ht0|].
  split.
  { intros s Hs Hse.
    assert (Hsm : In s mine)
      by (apply filter_In; split; [exact Hs | now apply String.eqb_eq]).
    destruct (sortByDate_head mine Hdated first rest Hsort s Hsm)
      as (t0' & t & H0 & Ht & Hle).
    rewrite Ht0 in H0. injection H0 as <-. now exists t. }
  repeat (split; [reflexivity|]).
  rewrite <- Hsort, fold_sum_from, sumQ_sortByDate. ring.
Qed.

(** The converted count is the number of distinct emails read from the
    kept sales: the customer email, or the payer email when the customer
    email is empty. *)
Lemma converted_emails_from_sales :
  convertedClientEmails enrichedNewData cleanedSales teacher loc per
    = Js.uniq (List.map saleEmail
        (List.filter (qualifyingSale enrichedNewData teacher loc per) cleanedSales)) /\
  convertedClientsCount enrichedNewData cleanedSales teacher loc per
    = Js.len (Js.uniq (List.map saleEmail
        (List.filter (qualifyingSale enrichedNewData teacher loc per) cleanedSales))).
Proof.
  unfold convertedClientsCount, convertedClientEmails, convertedClientsList.
  now rewrite scan_kept.
Qed.

Lemma saleEmail_spec (sale : CleanedSale) :
  saleEmail sale
  = if String.eqb (Customer_email sale) "" then Paying_Customer_email sale
    else Customer_email sale.
Proof.
  unfold saleEmail, Js.or_str.
  destruct (String.eqb (Customer_email sale) ""); [|reflexivity].
  destruct (String.eqb (Paying_Customer_email sale) "") eqn:He; [|reflexivity].
  apply String.eqb_eq in He. now rewrite He.
Qed.

(** *** Rates of a cohort *)

Lemma percentOf_finite (n d : Z) : 0 < d -> Js.isFinite (percentOf n d) = true.
Proof.
  intros Hd. unfold percentOf, Js.div.
  destruct (Qeq_bool (inject_Z d) 0) eqn:Hz; [|reflexivity].
  apply Qeq_bool_iff in Hz. unfold Qeq in Hz. simpl in Hz. lia.
Qed.

Lemma guardedPercent_finite (n d : Z) : Js.isFinite (guardedPercent n d) = true.
Proof.
  unfold guardedPercent. destruct (0 <? d) eqn:Hd; [|reflexivity].
  apply percentOf_finite. now apply Z.ltb_lt.
Qed.

Lemma guardedAverage_finite (total : Q) (n : Z) :
  Js.isFinite (if 0 <? n then Js.div total (inject_Z n) else Js.Fin 0) = true.
Proof.
  destruct (0 <? n) eqn:Hn; [|reflexivity]. apply Z.ltb_lt in Hn.
  unfold Js.div. destruct (Qeq_bool (inject_Z n) 0) eqn:Hz; [|reflexivity].
  apply Qeq_bool_iff in Hz. unfold Qeq in Hz. simpl in Hz. lia.
Qed.

(** What [cohortMetrics] stores in each field. *)
Lemma cohortMetrics_fields (d : ProcessedTeacherData) :
  cohortMetrics enrichedNewData cleanedBookingsData cleanedSales teacher loc per = Some d ->
  teacherName d = teacher /\ location d = loc /\ period d = per /\
  newClients d = newClientsCount enrichedNewData teacher loc per /\
  0 < newClients d /\
  trials d = trialsCount enrichedNewData teacher loc per /\
  referrals d = referralsCount enrichedNewData teacher loc per /\
  hosted d = hostedCount enrichedNewData teacher loc per /\
  influencerSignups d = influencerSignupsCount enrichedNewData teacher loc per /\
  others d = othersCount enrichedNewData teacher loc per /\
  retainedClients d = retainedClientsCount enrichedNewData cleanedBookingsData teacher loc per /\
  convertedClients d = convertedClientsCount enrichedNewData cleanedSales teacher loc per /\
  totalRevenue d = totalRevenueOf enrichedNewData cleanedSales teacher loc per.
Proof.
  unfold cohortMetrics.
  destruct (Js.len clients =? 0) eqn:Hlen; [discriminate|].
  intros [= <-]. simpl. apply Z.eqb_neq in Hlen.
  pose proof (len_nonneg clients).
  unfold newClientsCount. repeat split; lia.
Qed.

Lemma cohortMetrics_rates (d : ProcessedTeacherData) :
  cohortMetrics enrichedNewData cleanedBookingsData cleanedSales teacher loc per = Some d ->
  retentionRate d = guardedPercent (retainedClients d) (newClients d) /\
  conversionRate d = guardedPercent (convertedClients d) (newClients d) /\
  firstTimeBuyerRate d = guardedPercent (convertedClients d) (newClients d) /\
  noShowRate d
    = guardedPercent (noShows d) (Js.len (teacherBookings cleanedBookingsData teacher loc per)) /\
  lateCancellationRate d
    = guardedPercent (lateCancellations d)
        (Js.len (teacherBookings cleanedBookingsData teacher loc per)) /\
  influencerConversionRate d
    = guardedPercent (influencerConvertedCount enrichedNewData cleanedSales teacher loc per)
        (influencerSignups d) /\
  referralConversionRate d
    = guardedPercent (referralConvertedCount enrichedNewData cleanedSales teacher loc per)
        (referrals d) /\
  trialToMembershipConversion d
    = guardedPercent (trialConvertedCount enrichedNewData cleanedSales teacher loc per)
        (trials d) /\
  averageRevenuePerClient d
    = (if 0 <? convertedClients d
       then Js.div (totalRevenue d) (inject_Z (convertedClients d))
       else Js.Fin 0).
Proof.
  unfold cohortMetrics.
  destruct (Js.len clients =? 0); [discriminate|].
  intros [= <-]. simpl. repeat split.
Qed.

End CohortFacts.

(** *** The studio object *)

Lemma studioUpdate_keys (key : string) (init : ProcessedTeacherData)
    (update : ProcessedTeacherData -> ProcessedTeacherData) (studioData : StudioData)
    (k : string) :
  In k (List.map fst (studioUpdate key init update studioData)) <->
  In k (List.map fst studioData) \/ k = key.
Proof.
  induction studioData as [|[k0 v0] rest IH]; simpl.
  - intuition.
  - destruct (String.eqb k0 key) eqn:Hk; simpl.
    + apply String.eqb_eq in Hk. subst k0. intuition.
    + rewrite IH. intuition.
Qed.

Lemma studioUpdate_NoDup (key : string) (init : ProcessedTeacherData)
    (update : ProcessedTeacherData -> ProcessedTeacherData) (studioData : StudioData) :
  List.NoDup (List.map fst studioData) ->
  List.NoDup (List.map fst (studioUpdate key init update studioData)).
Proof.
  induction studioData as [|[k0 v0] rest IH]; simpl; intros Hnd.
  - constructor; [intros [] | constructor].
  - destruct (String.eqb k0 key) eqn:Hk; simpl; [exact Hnd|].
    apply String.eqb_neq in Hk. inversion Hnd as [|? ? Hnotin Hrest]; subst.
    constructor; [|now apply IH].
    rewrite studioUpdate_keys. intros [Hin | Heq]; [now apply Hnotin | now apply Hk].
Qed.

(** An entry after the update is an untouched entry of another key, the
    updated entry of the key, or the updated initial object when the
    key is new. *)
Lemma studioUpdate_In (key : string) (init : ProcessedTeacherData)
    (update : ProcessedTeacherData -> ProcessedTeacherData) (studioData : StudioData)
    (k : string) (v : ProcessedTeacherData) :
  List.NoDup (List.map fst studioData) ->
  In (k, v) (studioUpdate key init update studioData) ->
  (k <> key /\ In (k, v) studioData) \/
  (k = key /\
   ((exists v0, In (key, v0) studioData /\ v = update v0) \/
    (~ In key (List.map fst studioData) /\ v = update init))).
Proof.
  induction studioData as [|[k0 v0] rest IH]; simpl; intros Hnd Hin.
  - destruct Hin as [[= <- <-]|[]]. right. split; [reflexivity|]. right. tauto.
  - inversion Hnd as [|? ? Hnotin Hrest]; subst.
    destruct (String.eqb k0 key) eqn:Hk.
    + apply String.eqb_eq in Hk. subst k0.
      destruct Hin as [[= <- <-]|Hin].
      * right. split; [reflexivity|]. left. exists v0. tauto.
      * left. split; [|now right]. intros ->. apply Hnotin.
        apply in_map_iff. now exists (key, v).
    + apply String.eqb_neq in Hk.
      destruct Hin as [[= <- <-]|Hin].
      * left. split; [exact Hk | now left].
      * destruct (IH Hrest Hin) as [[Hne Hold] | [-> [(v1 & Hold & ->) | [Hnew ->]]]].
        -- left. split; [exact Hne | now right].
        -- right. split; [reflexivity|]. left. exists v1. split; [now right | reflexivity].
        -- right. split; [reflexivity|]. right. split; [|reflexivity].
           intros [Heq | Hin']; [now apply Hk | now apply Hnew].
Qed.

Lemma getCount_addToStudio (f : CountField) (d studio : ProcessedTeacherData) :
  getCount f (addToStudio d studio) = getCount f studio + getCount f d.
Proof. destruct f; reflexivity. Qed.

Lemma getCount_emptyStudio (f : CountField) (loc per : string) :
  getCount f (emptyStudio loc per) = 0.
Proof. destruct f; reflexivity. Qed.

Lemma getCount_studioRates (f : CountField) (studio : ProcessedTeacherData) :
  getCount f (studioRates studio) = getCount f studio.
Proof. destruct f; reflexivity. Qed.

Lemma sumCount_app (f : CountField) (l1 l2 : list ProcessedTeacherData) :
  sumCount f (l1 ++ l2)%list = sumCount f l1 + sumCount f l2.
Proof.
  unfold sumCount. induction l1 as [|d l1 IH]; simpl; [reflexivity|]. rewrite IH. lia.
Qed.

Lemma sumRevenue_snoc (l : list ProcessedTeacherData) (d : ProcessedTeacherData) :
  sumRevenue (l ++ [d])%list = (sumRevenue l + totalRevenue d)%Q.
Proof. unfold sumRevenue. now rewrite fold_left_app. Qed.

Lemma atLocation_snoc (k : string) (l : list ProcessedTeacherData)
    (d : ProcessedTeacherData) :
  atLocation k (l ++ [d])%list
  = (atLocation k l ++ if String.eqb (location d) k then [d] else [])%list.
Proof. unfold atLocation. rewrite List.filter_app. reflexivity. Qed.

Lemma atLocation_none (k : string) (l : list ProcessedTeacherData) :
  (forall d, In d l -> location d <> k) -> atLocation k l = [].
Proof.
  intros Hall. unfold atLocation. induction l as [|d l IH]; simpl; [reflexivity|].
  destruct (String.eqb (location d) k) eqn:Hk.
  - apply String.eqb_eq in Hk. exfalso. apply (Hall d); [now left | exact Hk].
  - apply IH. intros d' Hin. apply Hall. now right.
Qed.

(** *** The loop *)

Lemma fold_left_invariant {S X} (Inv : S -> Prop) (f : S -> X -> S) (l : list X) :
  (forall st x, Inv st -> Inv (f st x)) ->
  forall st, Inv st -> Inv (List.fold_left f l st).
Proof.
  intros Hstep. induction l as [|x l IH]; intros st Hst; simpl; [exact Hst|].
  apply IH. now apply Hstep.
Qed.

Section Loop.

Variable enrichedNewData : list NewRecord.
Variable cleanedBookingsData : list BookingRecord.
Variable cleanedSales : list CleanedSale.

Abbreviation Inv := (studioInvariant enrichedNewData cleanedBookingsData cleanedSales).

Lemma addCohort_invariant (teacher loc per : string)
    (st : list ProcessedTeacherData * StudioData) :
  Inv st ->
  Inv (addCohort enrichedNewData cleanedBookingsData cleanedSales teacher loc per st).
Proof.
  intros (Hnd & Hcoh & Hstudio). unfold addCohort.
  destruct (cohortMetrics _ _ _ teacher loc per) as [d|] eqn:Hd;
    [|exact (conj Hnd (conj Hcoh Hstudio))].
  destruct (cohortMetrics_fields _ _ _ _ _ _ d Hd) as (_ & Hloc & _).
  destruct st as [pd sd]. simpl in *.
  split; [|split]; simpl.
  - now apply studioUpdate_NoDup.
  - intros d' Hin. apply in_app_or in Hin. destruct Hin as [Hin | [<- | []]].
    + destruct (Hcoh d' Hin) as [Hex Hkey]. split; [exact Hex|].
      apply studioUpdate_keys. now left.
    + split; [now exists teacher, loc, per|].
      apply studioUpdate_keys. now right.
  - intros k v Hin.
    destruct (studioUpdate_In _ _ _ _ _ _ Hnd Hin)
      as [[Hne Hold] | [-> [(v0 & Hold & ->) | [Hnew ->]]]].
    + destruct (Hstudio k v Hold) as (Hname & Hk & Hsum & Hrev & Hne' & Hrates).
      rewrite atLocation_snoc.
      assert (Hoff : String.eqb (location d) k = false).
      { apply String.eqb_neq. congruence. }
      rewrite Hoff, app_nil_r. tauto.
    + destruct (Hstudio loc v0 Hold) as (Hname & Hk & Hsum & Hrev & Hne' & Hrates).
      rewrite atLocation_snoc, Hloc, String.eqb_refl.
      repeat split; try apply Hrates; try assumption.
      * intros f. rewrite getCount_addToStudio, sumCount_app, Hsum. simpl. lia.
      * rewrite sumRevenue_snoc. simpl. now rewrite Hrev.
      * intros Habs. now apply app_eq_nil in Habs as [_ [=]].
    + assert (Hnone : atLocation loc pd = []).
      { apply atLocation_none. intros d' Hin' Heq.
        apply Hnew. rewrite <- Heq. now apply (Hcoh d' Hin'). }
      rewrite atLocation_snoc, Hloc, String.eqb_refl, Hnone.
      repeat split; try discriminate.
      intros f. rewrite getCount_addToStudio, getCount_emptyStudio. simpl. lia.
Qed.

Lemma cohortLoop_invariant (teachers locations periods : list string) :
  Inv (cohortLoop enrichedNewData cleanedBookingsData cleanedSales
         teachers locations periods).
Proof.
  unfold cohortLoop.
  apply fold_left_invariant.
  - intros st teacher Hst. apply fold_left_invariant; [|exact Hst].
    intros st' loc Hst'. apply fold_left_invariant; [|exact Hst'].
    intros st'' per Hst''. now apply addCohort_invariant.
  - split; [constructor | split]; intros; simpl in *; contradiction.
Qed.

End Loop.

(** *** The whole run *)

Section RunFacts.

Variable newData : list NewRecord.
Variable bookingsData : list BookingRecord.
Variable salesData : option (list SaleRecord).

Abbreviation cohorts := (cohortEntries newData bookingsData salesData).
Abbreviation rollups := (studioEntries newData bookingsData salesData).

Lemma run_invariant :
  studioInvariant (enrichedNewDataOf newData bookingsData)
    (cleanedBookingsDataOf bookingsData) (cleanedSalesData salesData)
    (loopResult newData bookingsData salesData).
Proof. apply cohortLoop_invariant. Qed.

Lemma rollup_origin (r : ProcessedTeacherData) :
  In r rollups ->
  exists v, In (location r, v) (snd (loopResult newData bookingsData salesData)) /\
            r = studioRates v.
Proof.
  unfold studioEntries. intros Hin. apply in_map_iff in Hin.
  destruct Hin as ([k v] & <- & Hin). simpl.
  destruct run_invariant as (_ & _ & Hstudio).
  destruct (Hstudio k v Hin) as (_ & <- & _).
  now exists v.
Qed.

Lemma rollup_locations :
  List.map location rollups
  = List.map fst (snd (loopResult newData bookingsData salesData)).
Proof.
  unfold studioEntries. rewrite List.map_map. apply map_ext_in.
  intros [k v] Hin. simpl.
  destruct run_invariant as (_ & _ & Hstudio).
  now destruct (Hstudio k v Hin) as (_ & <- & _).
Qed.

Lemma cohort_origin (d : ProcessedTeacherData) :
  In d cohorts ->
  exists teacher loc per, cohortOf newData bookingsData salesData teacher loc per = Some d.
Proof.
  intros Hin. destruct run_invariant as (_ & Hcoh & _).
  now destruct (Hcoh d Hin) as [Hex _].
Qed.

(** C1 (as amended). There is one studio entry per location that has a
    cohort, whatever the period: its staff-member field is "All
    Teachers" and each of its counts, the new-client count among them,
    is the sum of that count over all cohorts of that location, of every
    staff member and every period; its revenue is their revenue added
    up in order. *)
Theorem C1_rollup_sums_per_location :
  List.NoDup (List.map location rollups) /\
  (forall d, In d cohorts -> exists r, In r rollups /\ location r = location d) /\
  (forall r, In r rollups ->
     teacherName r = "All Teachers" /\
     atLocation (location r) cohorts <> [] /\
     (forall f, getCount f r = sumCount f (atLocation (location r) cohorts)) /\
     totalRevenue r = sumRevenue (atLocation (location r) cohorts)).
Proof.
  destruct run_invariant as (Hnd & Hcoh & Hstudio).
  split; [|split].
  - now rewrite rollup_locations.
  - intros d Hin. destruct (Hcoh d Hin) as [_ Hkey].
    rewrite <- rollup_locations in Hkey. apply in_map_iff in Hkey.
    destruct Hkey as (r & Hloc & Hr). now exists r.
  - intros r Hin. destruct (rollup_origin r Hin) as (v & Hv & ->).
    destruct (Hstudio _ v Hv) as (Hname & Hk & Hsum & Hrev & Hne & _).
    split; [exact Hname | split; [exact Hne | split; [|exact Hrev]]].
    intros f. rewrite getCount_studioRates. apply Hsum.
Qed.

(** C6 (as amended). The retention rate and the conversion rate of a
    studio entry are the rate formulas applied to the entry's summed
    retained, converted and new-client counts, that is, to the sums of
    these counts over the cohorts of the location. *)
Theorem C6_rollup_rates_recomputed (r : ProcessedTeacherData) :
  In r rollups ->
  retentionRate r = statedRetentionRate r /\
  conversionRate r = statedConversionRate r /\
  retentionRate r
    = guardedPercent (sumCount FRetainedClients (atLocation (location r) cohorts))
        (sumCount FNewClients (atLocation (location r) cohorts)) /\
  conversionRate r
    = guardedPercent (sumCount FConvertedClients (atLocation (location r) cohorts))
        (sumCount FNewClients (atLocation (location r) cohorts)).
Proof.
  intros Hin. destruct (rollup_origin r Hin) as (v & Hv & ->).
  destruct run_invariant as (_ & _ & Hstudio).
  destruct (Hstudio _ v Hv) as (_ & _ & Hsum & _).
  simpl in Hsum.
  pose proof (Hsum FRetainedClients) as Hret.
  pose proof (Hsum FConvertedClients) as Hconv.
  pose proof (Hsum FNewClients) as Hnew.
  simpl in Hret, Hconv, Hnew.
  unfold statedRetentionRate, statedConversionRate, cohortEntries. simpl.
  rewrite <- Hret, <- Hconv, <- Hnew.
  repeat split.
Qed.

Lemma rollup_rates (r : ProcessedTeacherData) :
  In r rollups ->
  retentionRate r = guardedPercent (retainedClients r) (newClients r) /\
  conversionRate r = guardedPercent (convertedClients r) (newClients r) /\
  averageRevenuePerClient r
    = (if 0 <? convertedClients r
       then Js.div (totalRevenue r) (inject_Z (convertedClients r))
       else Js.Fin 0) /\
  noShowRate r = Js.Fin 0 /\
  lateCancellationRate r = Js.Fin 0 /\
  firstTimeBuyerRate r = Js.Fin 0 /\
  influencerConversionRate r = Js.Fin 0 /\
  referralConversionRate r = Js.Fin 0 /\
  trialToMembershipConversion r = Js.Fin 0.
Proof.
  intros Hin. destruct (rollup_origin r Hin) as (v & Hv & ->).
  destruct run_invariant as (_ & _ & Hstudio).
  destruct (Hstudio _ v Hv) as (_ & _ & _ & _ & _ & Hrates).
  simpl. repeat split; apply Hrates.
Qed.

End RunFacts.

Lemma sumCount_zero (f : CountField) (l : list ProcessedTeacherData) :
  (forall d, In d l -> getCount f d = 0) -> sumCount f l = 0.
Proof.
  unfold sumCount. induction l as [|d l IH]; intros Hall; simpl; [reflexivity|].
  rewrite (Hall d (or_introl eq_refl)), IH; [reflexivity|].
  intros d' Hin. apply Hall. now right.
Qed.

Lemma sumRevenue_zero (l : list ProcessedTeacherData) :
  (forall d, In d l -> totalRevenue d = 0%Q) -> sumRevenue l = 0%Q.
Proof.
  unfold sumRevenue. induction l as [|d l IH]; intros Hall; simpl; [reflexivity|].
  rewrite (Hall d (or_introl eq_refl)). apply IH.
  intros d' Hin. apply Hall. now right.
Qed.

Lemma no_sales_no_conversion (newData : list NewRecord)
    (bookingsData : list BookingRecord) (salesData : option (list SaleRecord)) :
  cleanedSalesData salesData = [] ->
  Forall (fun d => convertedClients d = 0 /\ totalRevenue d = 0%Q)
    (processData newData bookingsData salesData).
Proof.
  intros Hempty.
  assert (Hcohort : forall d, In d (cohortEntries newData bookingsData salesData) ->
            convertedClients d = 0 /\ totalRevenue d = 0%Q).
  { intros d Hin. destruct (cohort_origin _ _ _ d Hin) as (teacher & loc & per & Hd).
    unfold cohortOf in Hd. rewrite Hempty in Hd.
    destruct (cohortMetrics_fields _ _ _ _ _ _ d Hd)
      as (_ & _ & _ & _ & _ & _ & _ & _ & _ & _ & _ & Hconv & Hrev).
    rewrite Hconv, Hrev. split; reflexivity. }
  unfold processData. apply List.Forall_forall. intros d Hin.
  apply in_app_or in Hin. destruct Hin as [Hin | Hin]; [now apply Hcohort|].
  destruct (rollup_origin _ _ _ d Hin) as (v & Hv & ->).
  destruct (run_invariant newData bookingsData salesData) as (_ & _ & Hstudio).
  destruct (Hstudio _ v Hv) as (_ & _ & Hsum & Hrev & _).
  simpl in *. split.
  - change (getCount FConvertedClients v = 0).
    rewrite (Hsum FConvertedClients). apply sumCount_zero.
    intros d' Hin'. apply filter_In in Hin'. now apply Hcohort.
  - rewrite Hrev. apply sumRevenue_zero.
    intros d' Hin'. apply filter_In in Hin'. now apply Hcohort.
Qed.

(** C9. Every rate of a cohort and of a studio entry is a finite number,
    so no division by zero is ever evaluated, and a rate whose
    denominator (new-client count, attendance-row count, channel member
    count, or converted count for the average revenue) is zero is 0. *)
Theorem C9_zero_denominator_rates
    (enrichedNewData : list NewRecord) (cleanedBookingsData : list BookingRecord)
    (cleanedSales : list CleanedSale) (teacher loc per : string)
    (newData : list NewRecord) (bookingsData : list BookingRecord)
    (salesData : option (list SaleRecord)) :
  (newClientsCount enrichedNewData teacher loc per = 0 ->
     retentionRateOf enrichedNewData cleanedBookingsData teacher loc per = Js.Fin 0 /\
     conversionRateOf enrichedNewData cleanedSales teacher loc per = Js.Fin 0 /\
     firstTimeBuyerRateOf enrichedNewData cleanedSales teacher loc per = Js.Fin 0) /\
  (Js.len (teacherBookings cleanedBookingsData teacher loc per) = 0 ->
     noShowRateOf cleanedBookingsData teacher loc per = Js.Fin 0 /\
     lateCancellationRateOf cleanedBookingsData teacher loc per = Js.Fin 0) /\
  (influencerSignupsCount enrichedNewData teacher loc per = 0 ->
     influencerConversionRateOf enrichedNewData cleanedSales teacher loc per = Js.Fin 0) /\
  (referralsCount enrichedNewData teacher loc per = 0 ->
     referralConversionRateOf enrichedNewData cleanedSales teacher loc per = Js.Fin 0) /\
  (trialsCount enrichedNewData teacher loc per = 0 ->
     trialToMembershipConversionOf enrichedNewData cleanedSales teacher loc per = Js.Fin 0) /\
  (convertedClientsCount enrichedNewData cleanedSales teacher loc per = 0 ->
     averageRevenuePerClientOf enrichedNewData cleanedSales teacher loc per = Js.Fin 0) /\
  Forall (fun rate => Js.isFinite rate = true)
    [ retentionRateOf enrichedNewData cleanedBookingsData teacher loc per;
      conversionRateOf enrichedNewData cleanedSales teacher loc per;
      firstTimeBuyerRateOf enrichedNewData cleanedSales teacher loc per;
      noShowRateOf cleanedBookingsData teacher loc per;
      lateCancellationRateOf cleanedBookingsData teacher loc per;
      influencerConversionRateOf enrichedNewData cleanedSales teacher loc per;
      referralConversionRateOf enrichedNewData cleanedSales teacher loc per;
      trialToMembershipConversionOf enrichedNewData cleanedSales teacher loc per;
      averageRevenuePerClientOf enrichedNewData cleanedSales teacher loc per ] /\
  (forall r, In r (studioEntries newData bookingsData salesData) ->
     (newClients r = 0 ->
        retentionRate r = Js.Fin 0 /\ conversionRate r = Js.Fin 0) /\
     (convertedClients r = 0 -> averageRevenuePerClient r = Js.Fin 0) /\
     Forall (fun rate => Js.isFinite rate = true)
       [ retentionRate r; conversionRate r; firstTimeBuyerRate r; noShowRate r;
         lateCancellationRate r; influencerConversionRate r;
         referralConversionRate r; trialToMembershipConversion r;
         averageRevenuePerClient r ]).
Proof.
  repeat apply conj.
  - intros H0. unfold retentionRateOf, conversionRateOf, firstTimeBuyerRateOf.
    rewrite H0. repeat split.
  - intros H0. unfold noShowRateOf, lateCancellationRateOf. rewrite H0. split; reflexivity.
  - intros H0. unfold influencerConversionRateOf. now rewrite H0.
  - intros H0. unfold referralConversionRateOf. now rewrite H0.
  - intros H0. unfold trialToMembershipConversionOf. now rewrite H0.
  - intros H0. unfold averageRevenuePerClientOf. now rewrite H0.
  - repeat constructor;
      try apply (guardedPercent_finite _ _); apply guardedAverage_finite.
  - intros r Hin.
    destruct (rollup_rates _ _ _ r Hin)
      as (Hret & Hconv & Havg & Hns & Hlc & Hfb & Hic & Hrc & Htm).
    rewrite Hret, Hconv, Havg, Hns, Hlc, Hfb, Hic, Hrc, Htm.
    repeat apply conj.
    + intros H0. rewrite H0. split; reflexivity.
    + intros H0. now rewrite H0.
    + repeat constructor;
        try apply guardedPercent_finite; apply guardedAverage_finite.
Qed.

End Properties.

(** ** Concrete runs *)

Section ConcreteRuns.

#[local] Existing Instance Sample.parser.
#[local] Existing Instance Sample.runtime.

Import Sample.

Abbreviation januaryEnriched := (enrichedNewDataOf januaryNew januaryBookings).
Abbreviation januaryCleanedBookings := (cleanedBookingsDataOf januaryBookings).

(** Scenario: one return visit a week after a plain first visit
    retains the client. *)
Example scenario_one_return_visit_retains :
  let bookings := [firstVisitOf asha; visit "a@x.com" "2024-01-12" "T1" "Studio A"] in
  retainedClientEmails (enrichedNewDataOf [asha] bookings) (cleanedBookingsDataOf bookings)
    "T1" "Studio A" "Jan 2024" = ["a@x.com"].
Proof. vm_compute. reflexivity. Qed.

(** Scenario: after a "2 For 1 Intro" first visit one return visit does
    not retain the client, two do. *)
Example scenario_two_for_one_needs_two_visits :
  let once := [firstVisitOf twoForOne; visit "e@x.com" "2024-01-12" "T1" "Studio A"] in
  let twice := (once ++ [visit "e@x.com" "2024-01-19" "T1" "Studio A"])%list in
  retainedClientsCount (enrichedNewDataOf [twoForOne] once) (cleanedBookingsDataOf once)
    "T1" "Studio A" "Jan 2024" = 0 /\
  retainedClientsCount (enrichedNewDataOf [twoForOne] twice) (cleanedBookingsDataOf twice)
    "T1" "Studio A" "Jan 2024" = 1.
Proof. vm_compute. split; reflexivity. Qed.

(** Scenario: a membership purchase of 1200 converts the client; a
    purchase of 500 does not, and the reason names the minimum. *)
Example scenario_purchase_value :
  let enriched := enrichedNewDataOf [asha] [firstVisitOf asha] in
  let large := [cleaned "a@x.com" "a@x.com" "Membership" 1200 "2024-01-20"] in
  let small := [cleaned "a@x.com" "a@x.com" "Membership" 500 "2024-01-20"] in
  convertedClientsCount enriched large "T1" "Studio A" "Jan 2024" = 1 /\
  totalRevenueOf enriched large "T1" "Studio A" "Jan 2024" = 1200%Q /\
  convertedClientsCount enriched small "T1" "Studio A" "Jan 2024" = 0 /\
  Status.reason <$> (clientConversionMap enriched small "T1" "Studio A" "Jan 2024" !! "a@x.com")
    = Some (BelowMinimum 500).
Proof. vm_compute. repeat split; reflexivity. Qed.

(** C1, counterexample. A teacher with one new client in January and
    one in February at the same studio: the only studio entry is
    labelled January and counts both clients, while the January cohorts
    of the studio count one; February has no studio entry. *)
Lemma C1_counterexample_two_periods :
  exists r,
    studioEntries twoMonthsNew twoMonthsBookings None = [r] /\
    List.map period (cohortEntries twoMonthsNew twoMonthsBookings None)
      = ["Jan 2024"; "Feb 2024"] /\
    period r = "Jan 2024" /\
    getCount FNewClients r = 2 /\
    sumCount FNewClients
      (atLocationPeriod (location r) (period r)
         (cohortEntries twoMonthsNew twoMonthsBookings None)) = 1 /\
    ~ rollupPerLocationAndPeriod
        (cohortEntries twoMonthsNew twoMonthsBookings None)
        (studioEntries twoMonthsNew twoMonthsBookings None).
Proof.
  eexists. split; [vm_compute; reflexivity|].
  split; [vm_compute; reflexivity|].
  split; [reflexivity|].
  split; [reflexivity|].
  split; [vm_compute; reflexivity|].
  intros [_ Hsum].
  match type of Hsum with
  | forall r, In r ?l -> _ =>
      let l' := eval vm_compute in l in
      match l' with
      | [?r0] => destruct (Hsum r0) as [_ Hcount]; [vm_compute; left; reflexivity|];
                 specialize (Hcount FNewClients); vm_compute in Hcount; discriminate
      end
  end.
Qed.

(** C1, witness: the same run, read per location. *)
Lemma C1_witness_two_periods :
  exists r,
    In r (studioEntries twoMonthsNew twoMonthsBookings None) /\
    teacherName r = "All Teachers" /\
    getCount FNewClients r
      = sumCount FNewClients
          (atLocation (location r) (cohortEntries twoMonthsNew twoMonthsBookings None)) /\
    getCount FNewClients r = 2.
Proof.
  pose proof (C1_rollup_sums_per_location twoMonthsNew twoMonthsBookings None)
    as (_ & _ & Hall).
  assert (Hin : exists r, In r (studioEntries twoMonthsNew twoMonthsBookings None) /\
                          getCount FNewClients r = 2).
  { eexists. split; [vm_compute; left; reflexivity | reflexivity]. }
  destruct Hin as (r & Hin & Htwo).
  exists r. destruct (Hall r Hin) as (Hname & _ & Hsum & _).
  repeat split; [exact Hin | exact Hname | apply Hsum | exact Htwo].
Defined.

(** C2, counterexample. A category "Money-Credit" contains the keyword
    "money-credit" but not "money-credits": the sale qualifies, and
    converts the client, although the stated conditions exclude it. *)
Lemma C2_counterexample_money_credit :
  let sale := cleaned "a@x.com" "a@x.com" "Money-Credit" 1200 "2024-01-20" in
  isConverted asha sale = true /\
  qualifiesAsStated asha sale = false /\
  convertedClientsCount (enrichedNewDataOf [asha] [firstVisitOf asha]) [sale]
    "T1" "Studio A" "Jan 2024" = 1.
Proof. vm_compute. repeat split; reflexivity. Qed.

(** C2, witness: a purchase of 500. *)
Lemma C2_witness_below_minimum :
  let sale := cleaned "a@x.com" "a@x.com" "Membership" 500 "2024-01-20" in
  (Sale_value sale < 1000)%Q /\
  isConverted asha sale = false /\
  forall m e, markedConverted (recordSale asha sale m) e = markedConverted m e.
Proof.
  intros sale.
  assert (Hlow : (Sale_value sale < 1000)%Q) by reflexivity.
  split; [exact Hlow|].
  exact (proj1 (proj2 (C2_qualifying_sale_conditions [] [] "" "" "" asha sale)) Hlow).
Defined.

(** C3, counterexample. Asha, first seen on 5 January, buys an annual
    membership for 1500 on 20 January and a class pack for 1200 on
    12 January; the sales dataset lists them in that order. The first
    qualifying sale in dataset order is the annual membership, which the
    conversion map and Asha's new-client detail record carry. Her
    record in the detail list of the converted clients carries instead
    the date and the item of the class pack, the earlier dated sale, and
    2700 as value. *)
Lemma C3_counterexample_converted_details_by_date :
  let enriched := enrichedNewDataOf [asha] [firstVisitOf asha] in
  let member := enrich [firstVisitOf asha] asha in
  exists first second r,
    outOfOrderSales = [first; second] /\
    matchingClient enriched "T1" "Studio A" "Jan 2024" first = Some member /\
    isConverted member first = true /\
    isConverted member second = true /\
    clientConversionMap enriched outOfOrderSales "T1" "Studio A" "Jan 2024" !! Email member
      = Some (Status.mk true (ConvertedWith (Item first) (Sale_value first) (Date first))
                (Some (Date first)) (Some (Item first)) (Some (Sale_value first))) /\
    List.map Detail.firstPurchaseItem
        (newClientDetailsOf enriched outOfOrderSales "T1" "Studio A" "Jan 2024")
      = [Some (Item first)] /\
    convertedClientDetailsOf enriched outOfOrderSales "T1" "Studio A" "Jan 2024" = [r] /\
    Converted.email r = Email member /\
    Converted.date r = "2024-01-12" /\
    Converted.firstPurchaseItem r = Some "10-Class Pack" /\
    (Converted.purchaseValue r == 2700)%Q /\
    Converted.date r <> Date first /\
    Converted.firstPurchaseItem r <> Some (Item first) /\
    ~ (Converted.purchaseValue r == Sale_value first)%Q.
Proof.
  intros enriched member.
  eexists _, _, _.
  split; [reflexivity|].
  split; [vm_compute; reflexivity|].
  split; [vm_compute; reflexivity|].
  split; [vm_compute; reflexivity|].
  split; [vm_compute; reflexivity|].
  split; [vm_compute; reflexivity|].
  split; [vm_compute; reflexivity|].
  split; [reflexivity|].
  split; [reflexivity|].
  split; [reflexivity|].
  split; [vm_compute; reflexivity|].
  split; [vm_compute; discriminate|].
  split; [vm_compute; discriminate|].
  vm_compute. discriminate.
Qed.

(** C3, witness: two qualifying purchases of one client; the first one
    is attributed in the conversion map and in the new-client details,
    both are summed, and the client is listed among the converted
    emails. *)
Lemma C3_witness_repeat_purchase :
  let enriched := enrichedNewDataOf [asha] [firstVisitOf asha] in
  let first := cleaned "a@x.com" "a@x.com" "Membership" 1200 "2024-01-12" in
  let second := cleaned "a@x.com" "a@x.com" "Membership" 1500 "2024-01-20" in
  repeatSales = ([] ++ first :: [second])%list /\
  isConverted (enrich [firstVisitOf asha] asha) first = true /\
  isConverted (enrich [firstVisitOf asha] asha) second = true /\
  Status.purchaseValue <$>
    (clientConversionMap enriched repeatSales "T1" "Studio A" "Jan 2024" !! "a@x.com")
    = Some (Some 1200%Q) /\
  (totalRevenueOf enriched repeatSales "T1" "Studio A" "Jan 2024" == 2700)%Q /\
  In "a@x.com" (convertedClientEmails enriched repeatSales "T1" "Studio A" "Jan 2024").
Proof.
  intros enriched first second.
  assert (Hsplit : repeatSales = ([] ++ first :: [second])%list) by reflexivity.
  assert (Hmatch : matchingClient enriched "T1" "Studio A" "Jan 2024" first
                   = Some (enrich [firstVisitOf asha] asha)) by (vm_compute; reflexivity).
  assert (Hconv : isConverted (enrich [firstVisitOf asha] asha) first = true)
    by (vm_compute; reflexivity).
  pose proof (C3_first_purchase_and_full_revenue enriched repeatSales
                "T1" "Studio A" "Jan 2024" [] [second] first
                (enrich [firstVisitOf asha] asha) Hsplit Hmatch Hconv
                (fun earlier c (Hin : In earlier []) => match Hin with end))
    as (Hmap & _ & _ & Hrev & _ & Hlisted & _).
  split; [exact Hsplit|]. split; [exact Hconv|].
  split; [vm_compute; reflexivity|].
  split; [|split].
  - change "a@x.com" with (Email (enrich [firstVisitOf asha] asha)).
    rewrite Hmap. reflexivity.
  - rewrite Hrev. vm_compute. reflexivity.
  - exact Hlisted.
Defined.

(** C4, counterexample. The client of T1 at Studio A returns in
    February to T2 at Studio B: the visit is a return visit of the
    January cohort of T1 although it is not an attendance record of
    that teacher, studio and period. *)
Lemma C4_counterexample_other_teacher :
  let enriched := enrichedNewDataOf [asha] elsewhereBookings in
  let bookings := cleanedBookingsDataOf elsewhereBookings in
  let elsewhere := visit "a@x.com" "2024-02-10" "T2" "Studio B" in
  List.map Email (teacherNewClients enriched "T1" "Studio A" "Jan 2024") = ["a@x.com"] /\
  In elsewhere (returnVisits enriched bookings "T1" "Studio A" "Jan 2024") /\
  ~ In elsewhere (teacherBookings bookings "T1" "Studio A" "Jan 2024") /\
  retainedClientsCount enriched bookings "T1" "Studio A" "Jan 2024" = 1.
Proof.
  vm_compute. split; [reflexivity|]. split; [left; reflexivity|].
  split; [|reflexivity]. intros [H|[]]. discriminate.
Qed.

(** C6, counterexample. In the January run the studio entry sums one
    cohort; its first-time-buyer, no-show, late-cancellation,
    influencer, referral and trial rates are 0 although the formulas
    give 100, 20, 20, 100, 100 and 100 on the summed counts. *)
Lemma C6_counterexample_rates_left_at_zero :
  exists r,
    In r (studioEntries januaryNew januaryBookings (Some januarySales)) /\
    firstTimeBuyerRate r = Js.Fin 0 /\
    statedFirstTimeBuyerRate r = Js.Fin 100 /\
    noShowRate r = Js.Fin 0 /\
    statedNoShowRate januaryNew januaryBookings (Some januarySales) r = Js.Fin 20 /\
    lateCancellationRate r = Js.Fin 0 /\
    statedLateCancellationRate januaryNew januaryBookings (Some januarySales) r
      = Js.Fin 20 /\
    influencerConversionRate r = Js.Fin 0 /\
    statedInfluencerConversionRate januaryNew januaryBookings (Some januarySales) r
      = Js.Fin 100 /\
    referralConversionRate r = Js.Fin 0 /\
    statedReferralConversionRate januaryNew januaryBookings (Some januarySales) r
      = Js.Fin 100 /\
    trialToMembershipConversion r = Js.Fin 0 /\
    statedTrialToMembershipConversion januaryNew januaryBookings (Some januarySales) r
      = Js.Fin 100.
Proof.
  eexists. split; [vm_compute; left; reflexivity|].
  repeat split; vm_compute; reflexivity.
Qed.

(** C6, witness: the retention and conversion rates of the same studio
    entry. *)
Lemma C6_witness_january :
  exists r,
    In r (studioEntries januaryNew januaryBookings (Some januarySales)) /\
    retentionRate r = statedRetentionRate r /\
    conversionRate r = statedConversionRate r /\
    conversionRate r = Js.Fin 100.
Proof.
  assert (Hin : exists r,
            In r (studioEntries januaryNew januaryBookings (Some januarySales)) /\
            conversionRate r = Js.Fin 100).
  { eexists. split; [vm_compute; left; reflexivity | vm_compute; reflexivity]. }
  destruct Hin as (r & Hin & Hrate). exists r.
  destruct (C6_rollup_rates_recomputed januaryNew januaryBookings (Some januarySales) r Hin)
    as (Hret & Hconv & _).
  repeat split; assumption.
Defined.

(** C7, counterexample. The referral label contains "complimentary",
    one of the influencer alternatives: the referred client is counted
    under both channels and the remainder is negative. *)
Lemma C7_counterexample_overlapping_channels :
  newClientsCount januaryEnriched "T1" "Studio A" "Jan 2024" = 3 /\
  trialsCount januaryEnriched "T1" "Studio A" "Jan 2024" = 1 /\
  referralsCount januaryEnriched "T1" "Studio A" "Jan 2024" = 1 /\
  hostedCount januaryEnriched "T1" "Studio A" "Jan 2024" = 0 /\
  influencerSignupsCount januaryEnriched "T1" "Studio A" "Jan 2024" = 2 /\
  othersCount januaryEnriched "T1" "Studio A" "Jan 2024" = -1 /\
  exists member,
    In member (teacherNewClients januaryEnriched "T1" "Studio A" "Jan 2024") /\
    isReferral member = true /\ isInfluencer member = true.
Proof.
  repeat (split; [vm_compute; reflexivity|]).
  exists (enrich januaryCleanedBookings bina).
  split; [vm_compute; right; left; reflexivity|].
  split; vm_compute; reflexivity.
Qed.

(** C9, witness: a cohort without referrals has a referral conversion
    rate of 0, and the studio entry of the run has finite rates. *)
Lemma C9_witness_no_referrals :
  let enriched := enrichedNewDataOf [asha] [firstVisitOf asha] in
  referralsCount enriched "T1" "Studio A" "Jan 2024" = 0 /\
  referralConversionRateOf enriched [] "T1" "Studio A" "Jan 2024" = Js.Fin 0.
Proof.
  intros enriched.
  assert (Hzero : referralsCount enriched "T1" "Studio A" "Jan 2024" = 0)
    by (vm_compute; reflexivity).
  split; [exact Hzero|].
  destruct (C9_zero_denominator_rates enriched [] [] "T1" "Studio A" "Jan 2024"
              [] [] None) as (_ & _ & _ & Href & _).
  exact (Href Hzero).
Defined.

(** C10. The converted count of a cohort is the number of distinct
    emails read from the qualifying sales, the customer email or, when
    that is empty, the payer email; it is not the number of members
    marked converted. Two clients who each pay a qualifying purchase
    for the same third party are both marked converted, while the count
    is 1 and the counted email belongs to no member. *)
Theorem C10_converted_count_not_member_count :
  (forall (P : CsvParser) (R : JsRuntime) (enrichedNewData : list NewRecord)
          (cleanedSales : list CleanedSale) (teacher loc per : string),
     convertedClientsCount enrichedNewData cleanedSales teacher loc per
     = Js.len (Js.uniq (List.map
         (fun sale => if String.eqb (Customer_email sale) ""
                      then Paying_Customer_email sale else Customer_email sale)
         (List.filter (qualifyingSale enrichedNewData teacher loc per) cleanedSales)))) /\
  exists (enrichedNewData : list NewRecord) (cleanedSales : list CleanedSale)
         (teacher loc per : string),
    convertedClientsCount enrichedNewData cleanedSales teacher loc per = 1 /\
    convertedMembersCount enrichedNewData cleanedSales teacher loc per = 2 /\
    exists sale member,
      In sale cleanedSales /\
      matchingClient enrichedNewData teacher loc per sale = Some member /\
      isConverted member sale = true /\
      Email member = Paying_Customer_email sale /\
      Customer_email sale <> "" /\
      Customer_email sale <> Email member /\
      markedConverted
        (clientConversionMap enrichedNewData cleanedSales teacher loc per)
        (Email member) = true /\
      convertedClientEmails enrichedNewData cleanedSales teacher loc per
        = [Customer_email sale] /\
      ~ In (Customer_email sale)
          (List.map Email (teacherNewClients enrichedNewData teacher loc per)).
Proof.
  split.
  - intros P0 R0 enrichedNewData cleanedSales teacher loc per.
    rewrite (proj2 (converted_emails_from_sales enrichedNewData cleanedSales teacher loc per)).
    f_equal. f_equal. apply map_ext. intros sale. apply saleEmail_spec.
  - exists (enrichedNewDataOf [asha; bina] [firstVisitOf asha; firstVisitOf bina]),
      giftedSales, "T1", "Studio A", "Jan 2024".
    split; [vm_compute; reflexivity|]. split; [vm_compute; reflexivity|].
    exists (cleaned "z@x.com" "a@x.com" "Membership" 1200 "2024-01-20"),
      (enrich [firstVisitOf asha; firstVisitOf bina] asha).
    split; [left; reflexivity|].
    repeat (split; [vm_compute; try reflexivity; try discriminate|]).
    vm_compute. intros [H|[H|[]]]; discriminate.
Qed.

End ConcreteRuns.

(** ** Further properties *)

(** *** More on the lists of first occurrences *)

Lemma uniq_from_snoc (seen l : list string) (x : string) :
  Js.uniq_from seen (l ++ [x])%list
  = (Js.uniq_from seen l ++
     if (List.existsb (String.eqb x) seen || List.existsb (String.eqb x) l)%bool
     then [] else [x])%list.
Proof.
  revert seen. induction l as [|y l IH]; intros seen; simpl.
  - rewrite orb_false_r. now destruct (List.existsb (String.eqb x) seen).
  - destruct (List.existsb (String.eqb y) seen) eqn:Hy.
    + rewrite IH. f_equal.
      destruct (String.eqb x y) eqn:Hxy; simpl; [|reflexivity].
      apply String.eqb_eq in Hxy. subst y. rewrite Hy. reflexivity.
    + simpl. rewrite IH. simpl. f_equal. f_equal.
      destruct (String.eqb x y), (List.existsb (String.eqb x) seen); reflexivity.
Qed.

Lemma uniq_snoc (l : list string) (x : string) :
  Js.uniq (l ++ [x])%list
  = (Js.uniq l ++ if List.existsb (String.eqb x) l then [] else [x])%list.
Proof. unfold Js.uniq. now rewrite uniq_from_snoc. Qed.

(** *** Loops that push *)

Lemma fold_left_pushes {S X B} (proj : S -> list B) (f : S -> X -> S)
    (g : X -> list B) (l : list X) :
  (forall st x, proj (f st x) = (proj st ++ g x)%list) ->
  forall st, proj (List.fold_left f l st) = (proj st ++ List.flat_map g l)%list.
Proof.
  intros Hstep. induction l as [|x l IH]; intros st; simpl.
  - now rewrite app_nil_r.
  - rewrite IH, Hstep. now rewrite <- app_assoc.
Qed.

Lemma flat_map_list_prod {A B C} (g : A * B -> list C) (la : list A) (lb : list B) :
  List.flat_map g (list_prod la lb)
  = List.flat_map (fun a => List.flat_map (fun b => g (a, b)) lb) la.
Proof.
  induction la as [|a la IH]; simpl; [reflexivity|].
  rewrite flat_map_app, IH. f_equal. clear IH.
  induction lb as [|b lb IHb]; simpl; [reflexivity|]. now rewrite IHb.
Qed.

Lemma list_prod_NoDup {A B} (la : list A) (lb : list B) :
  List.NoDup la -> List.NoDup lb -> List.NoDup (list_prod la lb).
Proof.
  intros Ha Hb. induction Ha as [|a la Hnotin Ha IH]; simpl; [constructor|].
  apply List.NoDup_app.
  - clear -Hb. induction Hb as [|b lb Hnotin Hb IH]; simpl; constructor; [|exact IH].
    rewrite in_map_iff. intros (b' & [= <-] & Hin). contradiction.
  - exact IH.
  - intros [a' b'] Hin Hin'. apply in_map_iff in Hin. destruct Hin as (b0 & [= <- <-] & _).
    apply in_prod_iff in Hin'. tauto.
Qed.

Lemma sumZ_app (l1 l2 : list Z) : sumZ (l1 ++ l2)%list = sumZ l1 + sumZ l2.
Proof. unfold sumZ. induction l1 as [|x l1 IH]; simpl; [reflexivity|]. rewrite IH. lia. Qed.

Lemma keyEqb_eq (a b : string * (string * string)) : keyEqb a b = true <-> a = b.
Proof.
  destruct a as [a1 [a2 a3]], b as [b1 [b2 b3]]. unfold keyEqb. simpl.
  rewrite !andb_true_iff, !String.eqb_eq. split.
  - intros [[-> ->] ->]. reflexivity.
  - intros [= -> -> ->]. tauto.
Qed.

Lemma existsb_keyEqb_In (k : string * (string * string))
    (ks : list (string * (string * string))) :
  List.existsb (keyEqb k) ks = true <-> In k ks.
Proof.
  rewrite existsb_exists. split.
  - intros (k' & Hin & Heq). apply keyEqb_eq in Heq. now subst.
  - intros Hin. exists k. split; [exact Hin | now apply keyEqb_eq].
Qed.

(** Weights added up group by group, over distinct keys, are the
    weights of the elements whose key is one of them. *)
Lemma sum_by_key {A K} (keqb : K -> K -> bool) (key : A -> K) (q : A -> bool)
    (w : A -> Z) (l : list A) (ks : list K) :
  (forall a b, keqb a b = true <-> a = b) ->
  List.NoDup ks ->
  sumZ (List.map (fun k =>
          sumZ (List.map w (List.filter (fun x => keqb (key x) k && q x)%bool l))) ks)
  = sumZ (List.map w
      (List.filter (fun x => q x && List.existsb (keqb (key x)) ks)%bool l)).
Proof.
  intros Heqb Hnd. induction Hnd as [|k ks Hnotin Hnd IH]; simpl.
  - induction l as [|x l IHl]; simpl; [reflexivity|].
    rewrite andb_false_r. exact IHl.
  - rewrite IH. clear IH.
    induction l as [|x l IHl]; simpl; [reflexivity|].
    destruct (keqb (key x) k) eqn:Hk; simpl.
    + assert (Hout : List.existsb (keqb (key x)) ks = false).
      { destruct (List.existsb (keqb (key x)) ks) eqn:He; [|reflexivity].
        apply existsb_exists in He. destruct He as (k' & Hin & Hk').
        apply Heqb in Hk, Hk'. congruence. }
      rewrite Hout, andb_false_r, andb_true_r.
      destruct (q x); simpl; [|exact IHl]. unfold sumZ in *. simpl. lia.
    + destruct (q x && List.existsb (keqb (key x)) ks)%bool; simpl; [|exact IHl].
      unfold sumZ in *. simpl. lia.
Qed.

Lemma sumZ_ones {A} (l : list A) : sumZ (List.map (fun _ => 1) l) = Js.len l.
Proof.
  unfold sumZ, Js.len. induction l as [|x l IH]; simpl length; simpl; [reflexivity|].
  rewrite IH. lia.
Qed.

Lemma len_app {A} (l1 l2 : list A) : Js.len (l1 ++ l2)%list = Js.len l1 + Js.len l2.
Proof. unfold Js.len. rewrite length_app. lia. Qed.

Lemma len_flat_map {A B} (g : A -> list B) (l : list A) :
  Js.len (List.flat_map g l) = sumZ (List.map (fun x => Js.len (g x)) l).
Proof.
  induction l as [|x l IH]; simpl; [reflexivity|].
  rewrite len_app, IH. reflexivity.
Qed.

Lemma len_filter_split {A} (p : A -> bool) (l : list A) :
  Js.len l = Js.len (List.filter p l) + Js.len (List.filter (fun x => negb (p x)) l).
Proof.
  unfold Js.len. induction l as [|x l IH]; simpl; [reflexivity|].
  destruct (p x); simpl; lia.
Qed.

Lemma filter_filter {A} (p q : A -> bool) (l : list A) :
  List.filter p (List.filter q l) = List.filter (fun x => p x && q x)%bool l.
Proof.
  induction l as [|x l IH]; simpl; [reflexivity|].
  destruct (q x) eqn:Hq; simpl.
  - rewrite andb_true_r. destruct (p x); now rewrite IH.
  - now rewrite andb_false_r.
Qed.

(** Distinct keys give entries with distinct keys, one at most per
    key. *)
Lemma keyed_flat_map_NoDup {A K} (key : A -> K) (g : K -> option A) (ks : list K) :
  (forall k d, g k = Some d -> key d = k) ->
  List.NoDup ks ->
  List.NoDup (List.map key (List.flat_map (fun k => optionList (g k)) ks)).
Proof.
  intros Hkey Hnd. induction Hnd as [|k ks Hnotin Hnd IH]; simpl; [constructor|].
  rewrite List.map_app. apply List.NoDup_app; [|exact IH|].
  - destruct (g k); simpl; repeat constructor. intros [].
  - intros a Hin Hin'.
    assert (a = k) as ->.
    { destruct (g k) as [d|] eqn:Hg; simpl in Hin; [|contradiction].
      destruct Hin as [<-|[]]. now apply Hkey. }
    apply Hnotin. apply in_map_iff in Hin'. destruct Hin' as (d & Hd & Hin').
    apply in_flat_map in Hin'. destruct Hin' as (k' & Hk' & Hin').
    destruct (g k') as [d'|] eqn:Hg; simpl in Hin'; [|contradiction].
    destruct Hin' as [<-|[]]. rewrite <- Hd, (Hkey k' d' Hg). exact Hk'.
Qed.

Section MorePipeline.

Context `{P : CsvParser} `{R : JsRuntime}.

Lemma addCohort_pushes (enrichedNewData : list NewRecord)
    (cleanedBookingsData : list BookingRecord) (cleanedSales : list CleanedSale)
    (teacher loc per : string) (st : list ProcessedTeacherData * StudioData) :
  fst (addCohort enrichedNewData cleanedBookingsData cleanedSales teacher loc per st)
  = (fst st ++
     optionList (cohortMetrics enrichedNewData cleanedBookingsData cleanedSales
                   teacher loc per))%list.
Proof.
  unfold addCohort. destruct (cohortMetrics _ _ _ _ _ _); simpl; [reflexivity|].
  now rewrite app_nil_r.
Qed.

Lemma cohortLoop_entries (enrichedNewData : list NewRecord)
    (cleanedBookingsData : list BookingRecord) (cleanedSales : list CleanedSale)
    (teachers locations periods : list string) :
  fst (cohortLoop enrichedNewData cleanedBookingsData cleanedSales
         teachers locations periods)
  = List.flat_map (fun k =>
      optionList (cohortMetrics enrichedNewData cleanedBookingsData cleanedSales
                    (fst k) (fst (snd k)) (snd (snd k))))
      (list_prod teachers (list_prod locations periods)).
Proof.
  unfold cohortLoop.
  rewrite (fold_left_pushes fst _
             (fun teacher => List.flat_map (fun loc => List.flat_map (fun per =>
                optionList (cohortMetrics enrichedNewData cleanedBookingsData cleanedSales
                              teacher loc per)) periods) locations)).
  - simpl. rewrite flat_map_list_prod. apply flat_map_ext. intros teacher.
    now rewrite flat_map_list_prod.
  - intros st teacher. apply fold_left_pushes. intros st' loc.
    apply fold_left_pushes. intros st'' per. apply addCohort_pushes.
Qed.

(** The teacher assigned to a record is "Unknown" or the teacher of a
    booking. *)
Lemma enrich_teacher (cleanedBookingsData : list BookingRecord) (record : NewRecord) :
  Teacher (enrich cleanedBookingsData record) = "Unknown" \/
  In (Teacher (enrich cleanedBookingsData record))
     (List.map bTeacher cleanedBookingsData).
Proof.
  unfold enrich. simpl.
  destruct (List.find _ cleanedBookingsData) as [b|] eqn:Hfind; [right | now left].
  apply find_some in Hfind. apply in_map. tauto.
Qed.

Section MoreRunFacts.

Variable newData : list NewRecord.
Variable bookingsData : list BookingRecord.
Variable salesData : option (list SaleRecord).

Abbreviation enriched := (enrichedNewDataOf newData bookingsData).
Abbreviation teachers := (teachersOf bookingsData).
Abbreviation locations := (locationsOf newData bookingsData).
Abbreviation periods := (periodsOf newData bookingsData).
Abbreviation triples := (list_prod teachers (list_prod locations periods)).
Abbreviation entries := (cohortEntries newData bookingsData salesData).

Lemma teachers_spec (t : string) :
  In t teachers <->
  In t (List.map bTeacher (cleanedBookingsDataOf bookingsData)) /\ t <> "" /\ t <> "Unknown".
Proof.
  unfold teachersOf. rewrite uniq_In, filter_In, andb_true_iff, !negb_true_iff,
    !String.eqb_neq. tauto.
Qed.

Lemma triples_NoDup : List.NoDup triples.
Proof. repeat apply list_prod_NoDup; apply uniq_NoDup. Qed.

Lemma entries_spec :
  entries
  = List.flat_map (fun k =>
      optionList (cohortOf newData bookingsData salesData
                    (fst k) (fst (snd k)) (snd (snd k)))) triples.
Proof. apply cohortLoop_entries. Qed.

Lemma entry_origin (d : ProcessedTeacherData) :
  In d entries ->
  In (teacherName d) teachers /\ In (location d) locations /\ In (period d) periods /\
  cohortOf newData bookingsData salesData (teacherName d) (location d) (period d) = Some d.
Proof.
  rewrite entries_spec. intros Hin. apply in_flat_map in Hin.
  destruct Hin as ([t [l p]] & Hk & Hin). simpl in Hin.
  destruct (cohortOf newData bookingsData salesData t l p) as [d'|] eqn:Hd;
    simpl in Hin; [|contradiction].
  destruct Hin as [<-|[]].
  destruct (cohortMetrics_fields _ _ _ _ _ _ d' Hd) as (-> & -> & -> & _).
  apply in_prod_iff in Hk. destruct Hk as [Ht Hk]. apply in_prod_iff in Hk.
  repeat split; tauto.
Qed.

(** X3. The per-teacher entries of the result are, in loop order
    (teachers, then locations, then periods), the cohorts that have at
    least one new client: no empty cohort is emitted, no two entries
    share a (teacher, location, period), and no entry is headed by the
    "Unknown" teacher or by an empty teacher name. *)
Theorem X3_cohort_entries_in_loop_order :
  entries
  = List.flat_map (fun k =>
      optionList (cohortOf newData bookingsData salesData
                    (fst k) (fst (snd k)) (snd (snd k)))) triples /\
  List.NoDup (List.map cohortKey entries) /\
  Forall (fun d =>
    In (cohortKey d) triples /\
    cohortOf newData bookingsData salesData (teacherName d) (location d) (period d)
      = Some d /\
    teacherName d <> "Unknown" /\ teacherName d <> "" /\
    0 < newClients d) entries.
Proof.
  split; [apply entries_spec | split].
  - rewrite entries_spec.
    apply (keyed_flat_map_NoDup cohortKey
             (fun k => cohortOf newData bookingsData salesData
                         (fst k) (fst (snd k)) (snd (snd k)))); [|apply triples_NoDup].
    intros [t [l p]] d Hd. simpl in Hd.
    destruct (cohortMetrics_fields _ _ _ _ _ _ d Hd) as (Ht & Hl & Hp & _).
    unfold cohortKey. now rewrite Ht, Hl, Hp.
  - apply List.Forall_forall. intros d Hin.
    destruct (entry_origin d Hin) as (Ht & Hl & Hp & Hd).
    destruct (cohortMetrics_fields _ _ _ _ _ _ d Hd) as (_ & _ & _ & _ & Hpos & _).
    apply teachers_spec in Ht as Ht'.
    unfold cohortKey. rewrite !in_prod_iff. tauto.
Qed.

Lemma teacherNewClients_by_key (t l p : string) :
  teacherNewClients enriched t l p
  = List.filter (fun r => keyEqb (recordKey r) (t, (l, p)) && notExcluded r)%bool enriched.
Proof.
  unfold teacherNewClients. apply filter_ext. intros r.
  unfold keyEqb, recordKey, notExcluded. simpl. now rewrite !andb_assoc.
Qed.

Lemma entries_newClients :
  sumZ (List.map newClients entries)
  = sumZ (List.map (fun k =>
            Js.len (teacherNewClients enriched (fst k) (fst (snd k)) (snd (snd k))))
          triples).
Proof.
  rewrite entries_spec.
  induction triples as [|[t [l p]] ks IH]; simpl; [reflexivity|].
  rewrite List.map_app, sumZ_app, IH. f_equal.
  unfold cohortOf, cohortMetrics.
  destruct (Js.len (teacherNewClients enriched t l p) =? 0) eqn:Hlen; simpl.
  - apply Z.eqb_eq in Hlen. now rewrite Hlen.
  - unfold newClientsCount. lia.
Qed.

Lemma enriched_key_in_triples (r : NewRecord) :
  In r enriched ->
  List.existsb (keyEqb (recordKey r)) triples = linked r.
Proof.
  intros Hin.
  assert (Hloc : In (First_visit_location r) locations).
  { unfold locationsOf. apply uniq_In. now apply in_map. }
  assert (Hper : In (getMonthYearFromDate (First_visit_at r)) periods).
  { unfold periodsOf. apply uniq_In.
    apply (in_map (fun record => getMonthYearFromDate (First_visit_at record))). exact Hin. }
  assert (Hteacher : In (Teacher r) teachers <-> linked r = true).
  { rewrite teachers_spec. unfold linked.
    rewrite andb_true_iff, !negb_true_iff, !String.eqb_neq.
    split; [tauto|]. intros [Hne Hunk]. split; [|tauto].
    unfold enrichedNewDataOf in Hin. apply in_map_iff in Hin.
    destruct Hin as (r0 & <- & _).
    destruct (enrich_teacher (cleanedBookingsDataOf bookingsData) r0); tauto. }
  destruct (linked r) eqn:Hlinked.
  - apply existsb_keyEqb_In. unfold recordKey. rewrite !in_prod_iff. tauto.
  - destruct (List.existsb (keyEqb (recordKey r)) triples) eqn:He; [|reflexivity].
    apply existsb_keyEqb_In in He. unfold recordKey in He. rewrite !in_prod_iff in He.
    destruct He as [Ht _]. apply Hteacher in Ht. discriminate.
Qed.

Lemma excludedRecords_spec :
  List.map exRecord (excludedRecordsOf enriched)
  = List.filter (fun r => negb (notExcluded r)) enriched.
Proof.
  unfold excludedRecordsOf.
  rewrite (push_fold
             (fun record => matchesPattern (Membership_used record) excludedPattern
                            || matchesPattern (First_visit record) excludedPattern)%bool
             (fun record =>
                {| exRecord := record;
                   exName := First_name record ++ " " ++ Last_name record;
                   exEmail := Email record;
                   exFirstVisit := First_visit_at record;
                   exReason :=
                     if matchesPattern (Membership_used record) excludedPattern
                     then ExcludedMembership (Membership_used record)
                     else ExcludedClassType (First_visit record) |})).
  simpl. rewrite List.map_map. simpl. rewrite List.map_id.
  apply filter_ext. intros r. unfold notExcluded. now rewrite negb_andb, !negb_involutive.
Qed.

Lemma includedRecords_spec :
  includedRecordsOf enriched teachers locations periods
  = List.flat_map (fun k =>
      teacherNewClients enriched (fst k) (fst (snd k)) (snd (snd k))) triples.
Proof.
  unfold includedRecordsOf.
  rewrite (fold_left_pushes (fun pushed => pushed) _
             (fun teacher => List.flat_map (fun loc => List.flat_map (fun per =>
                teacherNewClients enriched teacher loc per) periods) locations)).
  - simpl. rewrite flat_map_list_prod. apply flat_map_ext. intros teacher.
    now rewrite flat_map_list_prod.
  - intros st teacher.
    apply (fold_left_pushes (fun pushed : list NewRecord => pushed) _
             (fun loc => List.flat_map (fun per =>
                teacherNewClients enriched teacher loc per) periods)).
    intros st' loc.
    apply (fold_left_pushes (fun pushed : list NewRecord => pushed) _
             (fun per => teacherNewClients enriched teacher loc per)).
    intros st'' per.
    destruct (Js.len (teacherNewClients enriched teacher loc per) =? 0) eqn:Hlen;
      [|reflexivity].
    apply Z.eqb_eq, len_zero_nil in Hlen. rewrite Hlen. now rewrite app_nil_r.
Qed.

Lemma entries_newClients_linked :
  sumZ (List.map newClients entries)
  = Js.len (List.filter (fun r => linked r && notExcluded r)%bool enriched).
Proof.
  rewrite entries_newClients.
  rewrite (map_ext _ (fun k => sumZ (List.map (fun _ => 1)
             (List.filter (fun r => keyEqb (recordKey r) k && notExcluded r)%bool
                enriched)))).
  2:{ intros [t [l p]]. simpl. now rewrite teacherNewClients_by_key, sumZ_ones. }
  rewrite (sum_by_key keyEqb recordKey notExcluded (fun _ => 1) enriched triples
             keyEqb_eq triples_NoDup).
  rewrite sumZ_ones. f_equal. apply filter_ext_in. intros r Hin.
  rewrite (enriched_key_in_triples r Hin). apply andb_comm.
Qed.

(** X4. Every intake record is accounted for exactly once: it is
    excluded, or it is not excluded and unlinked (teacher "Unknown" or
    empty), or it is one new client of exactly one cohort. The new-client
    counts of the cohorts add up to the number of linked, non-excluded
    records, which is also the length of the included-records list; the
    excluded-records list holds the remaining excluded records, in input
    order, and shares no record with a cohort. *)
Theorem X4_every_record_accounted_once :
  sumZ (List.map newClients entries)
    = Js.len (List.filter (fun r => linked r && notExcluded r)%bool enriched) /\
  Js.len (includedRecordsOf enriched teachers locations periods)
    = sumZ (List.map newClients entries) /\
  List.map exRecord (excludedRecordsOf enriched)
    = List.filter (fun r => negb (notExcluded r)) enriched /\
  Forall (fun r => linked r = true /\ notExcluded r = true)
    (includedRecordsOf enriched teachers locations periods) /\
  Js.len newData
    = Js.len (excludedRecordsOf enriched)
      + Js.len (List.filter (fun r => notExcluded r && negb (linked r))%bool enriched)
      + sumZ (List.map newClients entries).
Proof.
  pose proof entries_newClients_linked as Hsum.
  split; [exact Hsum | split; [|split; [apply excludedRecords_spec | split]]].
  - rewrite includedRecords_spec, len_flat_map, entries_newClients. reflexivity.
  - apply List.Forall_forall. intros r Hin. rewrite includedRecords_spec in Hin.
    apply in_flat_map in Hin. destruct Hin as ([t [l p]] & Hk & Hin). simpl in Hin.
    rewrite teacherNewClients_by_key in Hin. apply filter_In in Hin.
    destruct Hin as [Hin Hpred]. apply andb_prop in Hpred. destruct Hpred as [Hkey Hex].
    split; [|exact Hex]. rewrite <- (enriched_key_in_triples r Hin).
    apply existsb_keyEqb_In. apply keyEqb_eq in Hkey. now rewrite Hkey.
  - rewrite Hsum.
    assert (Hlen : Js.len (excludedRecordsOf enriched)
                   = Js.len (List.filter (fun r => negb (notExcluded r)) enriched)).
    { rewrite <- excludedRecords_spec. unfold Js.len. now rewrite length_map. }
    rewrite Hlen.
    assert (Hnew : Js.len newData = Js.len enriched).
    { unfold enrichedNewDataOf, cleanedNewData, Js.len. now rewrite !length_map. }
    rewrite Hnew, (len_filter_split notExcluded enriched).
    rewrite (len_filter_split linked (List.filter notExcluded enriched)).
    assert (Hf1 : List.filter linked (List.filter notExcluded enriched)
                  = List.filter (fun r => linked r && notExcluded r)%bool enriched)
      by apply filter_filter.
    assert (Hf2 : List.filter (fun r => negb (linked r)) (List.filter notExcluded enriched)
                  = List.filter (fun r => notExcluded r && negb (linked r))%bool enriched).
    { rewrite filter_filter. apply filter_ext. intros r. apply andb_comm. }
    rewrite Hf1, Hf2. lia.
Qed.

(** *** Order, label and details of the studio entries *)

Lemma studioUpdate_keys_list (key : string) (init : ProcessedTeacherData)
    (update : ProcessedTeacherData -> ProcessedTeacherData) (studioData : StudioData) :
  List.map fst (studioUpdate key init update studioData)
  = (List.map fst studioData ++
     if List.existsb (String.eqb key) (List.map fst studioData) then [] else [key])%list.
Proof.
  induction studioData as [|[k0 v0] rest IH]; simpl; [reflexivity|].
  rewrite (String.eqb_sym key k0).
  destruct (String.eqb k0 key); simpl; [now rewrite app_nil_r|]. now rewrite IH.
Qed.

Lemma existsb_uniq (x : string) (l : list string) :
  List.existsb (String.eqb x) (Js.uniq l) = List.existsb (String.eqb x) l.
Proof.
  destruct (List.existsb (String.eqb x) l) eqn:He.
  - apply existsb_eqb_In, uniq_In. now apply existsb_eqb_In.
  - destruct (List.existsb (String.eqb x) (Js.uniq l)) eqn:Hu; [|reflexivity].
    apply (proj1 (existsb_eqb_In _ _)) in Hu. apply (proj1 (uniq_In _ _)) in Hu.
    apply (proj2 (existsb_eqb_In _ _)) in Hu. congruence.
Qed.

Lemma addCohort_order_invariant (enrichedNewData : list NewRecord)
    (cleanedBookingsData : list BookingRecord) (cleanedSales : list CleanedSale)
    (teacher loc per : string) (st : list ProcessedTeacherData * StudioData) :
  studioOrderInvariant st ->
  studioOrderInvariant
    (addCohort enrichedNewData cleanedBookingsData cleanedSales teacher loc per st).
Proof.
  intros [Hkeys Hstudio]. unfold addCohort.
  destruct (cohortMetrics _ _ _ teacher loc per) as [d|] eqn:Hd;
    [|exact (conj Hkeys Hstudio)].
  destruct (cohortMetrics_fields _ _ _ _ _ _ d Hd) as (_ & Hloc & Hper & _).
  destruct st as [pd sd]. simpl in *.
  assert (Hnd : List.NoDup (List.map fst sd)) by (rewrite Hkeys; apply uniq_NoDup).
  split; simpl.
  - rewrite studioUpdate_keys_list, List.map_app. simpl (List.map location [d]).
    rewrite uniq_snoc, Hkeys, existsb_uniq. now rewrite Hloc.
  - intros k v Hin.
    destruct (studioUpdate_In _ _ _ _ _ _ Hnd Hin)
      as [[Hne Hold] | [-> [(v0 & Hold & ->) | [Hnew ->]]]].
    + destruct (Hstudio k v Hold) as [Hfirst Hdet].
      rewrite atLocation_snoc.
      assert (Hoff : String.eqb (location d) k = false).
      { apply String.eqb_neq. congruence. }
      rewrite Hoff, app_nil_r. tauto.
    + destruct (Hstudio loc v0 Hold) as [(first & rest & Hat & Hp) Hdet].
      rewrite atLocation_snoc, Hloc, String.eqb_refl, Hat. split.
      * exists first, (rest ++ [d])%list. split; [reflexivity | exact Hp].
      * simpl. rewrite Hdet, Hat, List.map_app, concat_app. simpl.
        now rewrite app_nil_r, <- app_assoc.
    + assert (Hnone : atLocation loc pd = []).
      { apply atLocation_none. intros d' Hin' Heq. apply Hnew. rewrite Hkeys.
        apply uniq_In. rewrite <- Heq. now apply in_map. }
      rewrite atLocation_snoc, Hloc, String.eqb_refl, Hnone. split.
      * exists d, []. split; [reflexivity | simpl; now rewrite Hper].
      * simpl. now rewrite app_nil_r.
Qed.

Lemma run_order_invariant :
  studioOrderInvariant (loopResult newData bookingsData salesData).
Proof.
  unfold loopResult, cohortLoop.
  apply fold_left_invariant.
  - intros st teacher Hst. apply fold_left_invariant; [|exact Hst].
    intros st' loc Hst'. apply fold_left_invariant; [|exact Hst'].
    intros st'' per Hst''. now apply addCohort_order_invariant.
  - split; [reflexivity|]. intros k v [].
Qed.

Lemma sumCount_sumZ (f : CountField) (l : list ProcessedTeacherData) :
  sumCount f l = sumZ (List.map (getCount f) l).
Proof. unfold sumCount, sumZ. induction l as [|d l IH]; simpl; [reflexivity|]. now rewrite IH. Qed.

(** X6. Whatever the count, the studio entries together hold what the
    cohort entries together hold: the grand total over the studio
    entries equals the grand total over the cohorts; in particular the
    new clients of all studio entries are the linked, non-excluded
    intake records. *)
Theorem X6_grand_totals_agree (f : CountField) :
  sumZ (List.map (getCount f) (studioEntries newData bookingsData salesData))
    = sumZ (List.map (getCount f) entries) /\
  sumZ (List.map newClients (studioEntries newData bookingsData salesData))
    = Js.len (List.filter (fun r => linked r && notExcluded r)%bool enriched).
Proof.
  assert (Hall : forall g,
    sumZ (List.map (getCount g) (studioEntries newData bookingsData salesData))
    = sumZ (List.map (getCount g) entries)).
  { intros g.
    destruct (run_invariant newData bookingsData salesData) as (_ & _ & Hstudio).
    destruct run_order_invariant as [Hkeys _].
    fold (cohortEntries newData bookingsData salesData) in Hkeys.
    rewrite (map_ext_in _ (fun r => sumZ (List.map (getCount g)
               (List.filter (fun d => String.eqb (location d) (location r) && true)%bool
                  entries)))).
    2:{ intros r Hin. destruct (rollup_origin _ _ _ r Hin) as (v & Hv & ->).
        destruct (Hstudio _ v Hv) as (_ & _ & Hsum & _).
        rewrite getCount_studioRates, Hsum, sumCount_sumZ. simpl.
        f_equal. f_equal. unfold atLocation. apply filter_ext. intros d.
        now rewrite andb_true_r. }
    rewrite <- (List.map_map location
                  (fun k => sumZ (List.map (getCount g)
                     (List.filter (fun d => String.eqb (location d) k && true)%bool entries)))).
    rewrite rollup_locations, Hkeys.
    rewrite (sum_by_key String.eqb location (fun _ => true) (getCount g) entries
               (Js.uniq (List.map location entries)) String.eqb_eq (uniq_NoDup _)).
    f_equal. f_equal.
    rewrite <- (filter_ext_in (fun _ => true)); [clear; induction entries; simpl; congruence|].
    intros d Hin. simpl. symmetry. rewrite existsb_uniq.
    apply existsb_eqb_In. now apply in_map. }
  split; [apply Hall|].
  rewrite <- entries_newClients_linked.
  apply (Hall FNewClients).
Qed.

(** *** Linking, and the three key lists *)

Lemma find_split {A} (p : A -> bool) (l : list A) (x : A) :
  List.find p l = Some x ->
  exists pre post,
    l = (pre ++ x :: post)%list /\ p x = true /\ forall y, In y pre -> p y = false.
Proof.
  induction l as [|a l IH]; simpl; [discriminate|].
  destruct (p a) eqn:Hp.
  - intros [= <-]. exists [], l. repeat split; [exact Hp | intros y []].
  - intros Hfind. destruct (IH Hfind) as (pre & post & -> & Hx & Hpre).
    exists (a :: pre), post. repeat split; [exact Hx|].
    intros y [<- | Hin]; [exact Hp | now apply Hpre].
Qed.

(** X1. Linking assigns to an intake record the teacher of the first
    booking, in dataset order, that agrees with it on customer email,
    class name, class date and location, whatever bookings follow; when
    no booking agrees on all four, the teacher is "Unknown". The other
    fields of the record are kept. *)
Theorem X1_first_matching_booking_assigns_teacher
    (cleanedBookingsData : list BookingRecord) (record : NewRecord) :
  (forall booking,
     bookingMatches record booking = true <->
     Customer_Email booking = Email record /\
     Class_Name booking = First_visit record /\
     Class_Date booking = First_visit_at record /\
     Location booking = First_visit_location record) /\
  (((forall booking, In booking cleanedBookingsData ->
       bookingMatches record booking = false) /\
    Teacher (enrich cleanedBookingsData record) = "Unknown") \/
   (exists pre booking post,
      cleanedBookingsData = (pre ++ booking :: post)%list /\
      bookingMatches record booking = true /\
      (forall earlier, In earlier pre -> bookingMatches record earlier = false) /\
      Teacher (enrich cleanedBookingsData record) = bTeacher booking)) /\
  enrich cleanedBookingsData record
    = mkNew (First_name record) (Last_name record) (Email record)
        (Membership_used record) (First_visit_at record) (First_visit record)
        (First_visit_location record) (Teacher (enrich cleanedBookingsData record)).
Proof.
  split; [|split; [|reflexivity]].
  - intros booking. unfold bookingMatches.
    rewrite !andb_true_iff, !String.eqb_eq. tauto.
  - unfold enrich. simpl.
    destruct (List.find (bookingMatches record) cleanedBookingsData) as [b|] eqn:Hfind.
    + right. destruct (find_split _ _ _ Hfind) as (pre & post & Hsplit & Hb & Hpre).
      now exists pre, b, post.
    + left. split; [|reflexivity]. intros booking Hin.
      now apply (find_none _ _ Hfind).
Qed.

(** X2. The teachers, locations and periods the loop ranges over have
    no duplicates. The teachers are exactly the teacher names of the
    uploaded bookings other than the empty name and "Unknown"; the
    locations are exactly the first-visit locations of the uploaded
    intake records; the periods are exactly the month buckets of their
    formatted first-visit dates. Intake records contribute no teacher. *)
Theorem X2_loop_keys_are_the_distinct_values :
  List.NoDup teachers /\ List.NoDup locations /\ List.NoDup periods /\
  (forall t, In t teachers <->
     (exists booking, In booking bookingsData /\ bTeacher booking = t) /\
     t <> "" /\ t <> "Unknown") /\
  (forall l, In l locations <->
     exists record, In record newData /\ First_visit_location record = l) /\
  (forall p, In p periods <->
     exists record, In record newData /\
       getMonthYearFromDate (formatDateString (First_visit_at record)) = p).
Proof.
  repeat (split; [apply uniq_NoDup|]).
  split; [|split].
  - intros t. rewrite teachers_spec. unfold cleanedBookingsDataOf.
    rewrite List.map_map. simpl. rewrite in_map_iff.
    split; intros [(b & H1 & H2) Hne]; (split; [exists b; tauto | exact Hne]).
  - intros l. unfold locationsOf, enrichedNewDataOf, cleanedNewData.
    rewrite uniq_In, !List.map_map. simpl. rewrite in_map_iff.
    split; intros (r & H1 & H2); exists r; tauto.
  - intros p. unfold periodsOf, enrichedNewDataOf, cleanedNewData.
    rewrite uniq_In, !List.map_map. simpl. rewrite in_map_iff.
    split; intros (r & H1 & H2); exists r; tauto.
Qed.

End MoreRunFacts.

(** *** The conversion map of a cohort *)

Section MoreCohortFacts.

Variable enrichedNewData : list NewRecord.
Variable cleanedBookingsData : list BookingRecord.
Variable cleanedSales : list CleanedSale.
Variables teacher loc per : string.

Abbreviation members := (teacherNewClients enrichedNewData teacher loc per).
Abbreviation scanOf := (scanSales enrichedNewData teacher loc per).
Abbreviation matchedBy := (matchingClient enrichedNewData teacher loc per).
Abbreviation finalMap :=
  (clientConversionMap enrichedNewData cleanedSales teacher loc per).

Lemma matched_is_member (sale : CleanedSale) (c : NewRecord) :
  matchedBy sale = Some c ->
  In c members /\
  (Email c = Customer_email sale \/ Email c = Paying_Customer_email sale).
Proof.
  unfold matchingClient. intros Hfind. apply find_some in Hfind.
  destruct Hfind as [Hin Heq]. split; [exact Hin|].
  apply orb_prop in Heq. destruct Heq as [Heq|Heq]; apply String.eqb_eq in Heq; tauto.
Qed.

Lemma initial_map_lookup (e : string) :
  initialConversionMap enrichedNewData teacher loc per !! e
  = if List.existsb (String.eqb e) (List.map Email members)
    then Some (Status.mk false NoQualifyingPurchase None None None)
    else None.
Proof.
  unfold initialConversionMap.
  assert (Hgen : forall (l : list NewRecord) (m : gmap string Status.t),
    List.fold_left (fun m client =>
      <[Email client := Status.mk false NoQualifyingPurchase None None None]> m) l m !! e
    = if List.existsb (String.eqb e) (List.map Email l)
      then Some (Status.mk false NoQualifyingPurchase None None None)
      else m !! e).
  { induction l as [|c l IH]; intros m; simpl; [reflexivity|].
    rewrite IH. destruct (List.existsb (String.eqb e) (List.map Email l));
      [now rewrite orb_true_r|].
    rewrite orb_false_r. destruct (String.eqb e (Email c)) eqn:He.
    - apply String.eqb_eq in He. subst e. apply lookup_insert_eq.
    - apply String.eqb_neq in He. now rewrite lookup_insert_ne by congruence. }
  rewrite Hgen, lookup_empty. reflexivity.
Qed.

Lemma recordSale_domain (client : NewRecord) (sale : CleanedSale)
    (m : gmap string Status.t) (e : string) :
  is_Some (m !! Email client) ->
  (is_Some (recordSale client sale m !! e) <-> is_Some (m !! e)).
Proof.
  intros Hmem. destruct (String.eqb e (Email client)) eqn:He.
  - apply String.eqb_eq in He. subst e. split; [intros _; exact Hmem|]. intros _.
    unfold recordSale. destruct Hmem as [st Hst]. rewrite Hst.
    destruct (isConverted client sale && _)%bool; [rewrite lookup_insert_eq; eauto|].
    destruct (negb (isConverted client sale) && _)%bool;
      [rewrite lookup_insert_eq | rewrite Hst]; eauto.
  - apply String.eqb_neq in He. now rewrite recordSale_other.
Qed.

Lemma scan_domain (sales : list CleanedSale) (m : gmap string Status.t) :
  (forall c, In c members -> is_Some (m !! Email c)) ->
  forall e, is_Some (snd (scanOf sales m) !! e) <-> is_Some (m !! e).
Proof.
  revert m. induction sales as [|sale sales IH]; intros m Hmem e; simpl; [tauto|].
  destruct (matchedBy sale) as [client|] eqn:Hmatch; [|now apply IH].
  destruct (matched_is_member sale client Hmatch) as [Hin _].
  specialize (IH (recordSale client sale m)).
  destruct (scanOf sales (recordSale client sale m)) as [kept final]. simpl in *.
  rewrite IH.
  - apply recordSale_domain. now apply Hmem.
  - intros c Hc. apply recordSale_domain; [now apply Hmem | now apply Hmem].
Qed.

Lemma scan_marked (sales : list CleanedSale) (m : gmap string Status.t) (e : string) :
  markedConverted (snd (scanOf sales m)) e
  = (markedConverted m e ||
     List.existsb (fun sale =>
       match matchedBy sale with
       | Some c => String.eqb e (Email c) && isConverted c sale
       | None => false
       end) sales)%bool.
Proof.
  revert m. induction sales as [|sale sales IH]; intros m; simpl;
    [now rewrite orb_false_r|].
  destruct (matchedBy sale) as [client|].
  - specialize (IH (recordSale client sale m)).
    destruct (scanOf sales (recordSale client sale m)) as [kept final]. simpl in *.
    rewrite IH, recordSale_marked. now rewrite orb_assoc.
  - simpl. apply IH.
Qed.

(** X7. The conversion map of a cohort has exactly the member emails
    as keys, before and after the scan. A member is marked converted
    exactly when some sale of the dataset is matched to a member with
    that email and qualifies; the detail list has one record per cohort
    member, in cohort order, whose status is that of the map, and the
    fallback reason for a missing map entry never occurs. *)
Theorem X7_conversion_map_members_and_marks :
  (forall e, is_Some (finalMap !! e) <-> In e (List.map Email members)) /\
  (forall e, markedConverted finalMap e = true <->
     exists sale c,
       In sale cleanedSales /\ matchedBy sale = Some c /\ Email c = e /\
       isConverted c sale = true) /\
  List.map Detail.email (newClientDetailsOf enrichedNewData cleanedSales teacher loc per)
    = List.map Email members /\
  Forall (fun d =>
    Detail.conversionReason d <> NoConversionData /\
    Detail.converted d = markedConverted finalMap (Detail.email d))
    (newClientDetailsOf enrichedNewData cleanedSales teacher loc per).
Proof.
  assert (Hdom : forall e, is_Some (finalMap !! e) <-> In e (List.map Email members)).
  { intros e. unfold clientConversionMap. rewrite scan_domain.
    - rewrite initial_map_lookup.
      destruct (List.existsb (String.eqb e) (List.map Email members)) eqn:He.
      + apply existsb_eqb_In in He. split; [tauto | eauto].
      + split; [intros [? [=]]|]. intros Hin. apply existsb_eqb_In in Hin. congruence.
    - intros c Hc. rewrite initial_map_lookup.
      assert (He : List.existsb (String.eqb (Email c)) (List.map Email members) = true).
      { apply existsb_eqb_In. now apply in_map. }
      rewrite He. eauto. }
  split; [exact Hdom | split; [|split]].
  - intros e. unfold clientConversionMap.
    rewrite scan_marked, initial_map_unmarked. simpl. rewrite existsb_exists. split.
    + intros (sale & Hin & Hq). destruct (matchedBy sale) as [c|] eqn:Hm; [|discriminate].
      apply andb_prop in Hq. destruct Hq as [He Hq]. apply String.eqb_eq in He.
      now exists sale, c.
    + intros (sale & c & Hin & Hm & He & Hq). exists sale. split; [exact Hin|].
      rewrite Hm, Hq, <- He, String.eqb_refl. reflexivity.
  - unfold newClientDetailsOf. rewrite List.map_map. reflexivity.
  - apply List.Forall_forall. intros d Hin. unfold newClientDetailsOf in Hin.
    apply in_map_iff in Hin. destruct Hin as (c & <- & Hc). simpl.
    assert (Hsome : is_Some (finalMap !! Email c)) by (apply Hdom; now apply in_map).
    destruct Hsome as [st Hst]. unfold markedConverted. rewrite Hst. split; [|reflexivity].
    revert Hst. unfold clientConversionMap.
    apply (scan_marked_inv enrichedNewData teacher loc per
             (fun st => Status.reason st <> NoConversionData)).
    + intros c0 s st0 _. simpl. unfold conversionReasonOf.
      repeat match goal with |- context [if ?b then _ else _] => destruct b end;
        discriminate.
    + intros c0 s _. simpl. unfold conversionReasonOf.
      repeat match goal with |- context [if ?b then _ else _] => destruct b end;
        discriminate.
    + apply initial_map_inv. discriminate.
Qed.

Lemma scan_unmatched_keeps (sales : list CleanedSale) (m : gmap string Status.t)
    (e : string) :
  (forall later c, In later sales -> matchedBy later = Some c -> Email c <> e) ->
  snd (scanOf sales m) !! e = m !! e.
Proof.
  revert m. induction sales as [|sale sales IH]; intros m Hun; simpl; [reflexivity|].
  destruct (matchedBy sale) as [client|] eqn:Hmatch.
  - specialize (IH (recordSale client sale m)).
    destruct (scanOf sales (recordSale client sale m)) as [kept final]. simpl in *.
    rewrite IH.
    + apply recordSale_other. intros ->. now apply (Hun sale client); [left| |].
    + intros later c Hin. apply Hun. now right.
  - apply IH. intros later c Hin. apply Hun. now right.
Qed.

Lemma scan_unconverted_shape (sales : list CleanedSale) (m : gmap string Status.t)
    (e : string) (reason : ConversionReason) :
  m !! e = Some (Status.mk false reason None None None) ->
  (forall sale c, In sale sales -> matchedBy sale = Some c -> Email c = e ->
     isConverted c sale = false) ->
  exists reason',
    snd (scanOf sales m) !! e = Some (Status.mk false reason' None None None).
Proof.
  revert m reason. induction sales as [|sale sales IH]; intros m reason Hm Hnone; simpl;
    [eauto|].
  destruct (matchedBy sale) as [client|] eqn:Hmatch.
  - assert (Hstep : exists reason',
              recordSale client sale m !! e = Some (Status.mk false reason' None None None)).
    { destruct (String.eqb e (Email client)) eqn:He.
      - apply String.eqb_eq in He. subst e.
        assert (Hq : isConverted client sale = false)
          by (apply (Hnone sale client); [now left | exact Hmatch | reflexivity]).
        unfold recordSale. rewrite Hm, Hq. simpl. rewrite lookup_insert_eq. eauto.
      - apply String.eqb_neq in He. rewrite recordSale_other by exact He. eauto. }
    destruct Hstep as [reason' Hstep].
    specialize (IH (recordSale client sale m) reason' Hstep).
    destruct (scanOf sales (recordSale client sale m)) as [kept final]. simpl in *.
    apply IH. intros s c Hin. apply Hnone. now right.
  - apply (IH m reason Hm). intros s c Hin. apply Hnone. now right.
Qed.

(** X8. For a member none of whose matched sales qualifies, the reason
    kept in the conversion map is that of the last sale, in dataset
    order, matched to the member; the member stays unconverted and no
    purchase is attributed. *)
Theorem X8_last_disqualifying_reason_kept
    (pre post : list CleanedSale) (sale : CleanedSale) (member : NewRecord) :
  cleanedSales = (pre ++ sale :: post)%list ->
  matchedBy sale = Some member ->
  (forall other c, In other cleanedSales -> matchedBy other = Some c ->
     Email c = Email member -> isConverted c other = false) ->
  (forall later c, In later post -> matchedBy later = Some c -> Email c <> Email member) ->
  finalMap !! Email member
    = Some (Status.mk false (conversionReasonOf member sale) None None None).
Proof.
  intros Hsplit Hmatch Hnone Hlast.
  unfold clientConversionMap. rewrite Hsplit, scan_app. simpl. rewrite Hmatch.
  set (m := snd (scanOf pre (initialConversionMap enrichedNewData teacher loc per))).
  assert (Hpre : exists reason,
            m !! Email member = Some (Status.mk false reason None None None)).
  { apply (scan_unconverted_shape pre _ _ NoQualifyingPurchase).
    - rewrite initial_map_lookup.
      assert (He : List.existsb (String.eqb (Email member)) (List.map Email members) = true).
      { apply existsb_eqb_In, in_map. now apply (matched_is_member sale member). }
      now rewrite He.
    - intros s c Hin. apply Hnone. rewrite Hsplit. apply in_or_app. now left. }
  destruct Hpre as [reason Hpre].
  assert (Hq : isConverted member sale = false).
  { apply (Hnone sale member); [|exact Hmatch | reflexivity].
    rewrite Hsplit. apply in_or_app. right. now left. }
  pose proof (scan_unmatched_keeps post (recordSale member sale m) (Email member) Hlast)
    as Hkeep.
  destruct (scanOf post (recordSale member sale m)) as [kept final]. simpl in *.
  rewrite Hkeep. unfold recordSale. rewrite Hpre, Hq. simpl.
  now rewrite lookup_insert_eq.
Qed.

(** X9. A sale whose customer email and payer email are both foreign
    to the cohort plays no part in it: the kept sales, the conversion
    map, the converted count and the revenue of the cohort are those
    computed from the sales that name a cohort member. *)
Theorem X9_foreign_sales_are_ignored :
  let relevant :=
    List.filter (fun sale =>
      List.existsb (fun c =>
        String.eqb (Email c) (Customer_email sale) ||
        String.eqb (Email c) (Paying_Customer_email sale))%bool members) cleanedSales in
  convertedClientsList enrichedNewData cleanedSales teacher loc per
    = convertedClientsList enrichedNewData relevant teacher loc per /\
  finalMap = clientConversionMap enrichedNewData relevant teacher loc per /\
  convertedClientsCount enrichedNewData cleanedSales teacher loc per
    = convertedClientsCount enrichedNewData relevant teacher loc per /\
  totalRevenueOf enrichedNewData cleanedSales teacher loc per
    = totalRevenueOf enrichedNewData relevant teacher loc per.
Proof.
  intros relevant.
  assert (Hscan : forall sales m,
    scanOf sales m
    = scanOf (List.filter (fun sale =>
        List.existsb (fun c =>
          String.eqb (Email c) (Customer_email sale) ||
          String.eqb (Email c) (Paying_Customer_email sale))%bool members) sales) m).
  { induction sales as [|sale sales IH]; intros m; simpl; [reflexivity|].
    destruct (matchedBy sale) as [client|] eqn:Hmatch.
    - assert (Hex : List.existsb (fun c =>
                String.eqb (Email c) (Customer_email sale) ||
                String.eqb (Email c) (Paying_Customer_email sale))%bool members = true).
      { apply existsb_exists. exists client. unfold matchingClient in Hmatch.
        now apply find_some in Hmatch. }
      rewrite Hex. simpl. rewrite Hmatch. now rewrite <- IH.
    - assert (Hex : List.existsb (fun c =>
                String.eqb (Email c) (Customer_email sale) ||
                String.eqb (Email c) (Paying_Customer_email sale))%bool members = false).
      { destruct (List.existsb _ members) eqn:He; [|reflexivity].
        apply existsb_exists in He. destruct He as (c & Hin & Hc).
        unfold matchingClient in Hmatch.
        now rewrite (find_none _ _ Hmatch c Hin) in Hc. }
      rewrite Hex. apply IH. }
  unfold convertedClientsCount, convertedClientEmails, totalRevenueOf,
    convertedClientsList, clientConversionMap.
  now rewrite <- (Hscan cleanedSales).
Qed.

(** *** Bounds *)

Lemma percentOf_bounds (n d : Z) :
  0 <= n <= d -> 0 < d -> isPercentage (percentOf n d).
Proof.
  intros Hn Hd. unfold percentOf, Js.div, Js.times100.
  destruct (Qeq_bool (inject_Z d) 0) eqn:Hz.
  { apply Qeq_bool_iff in Hz. unfold Qeq in Hz. simpl in Hz. lia. }
  eexists. split; [reflexivity|].
  rewrite !Qred_correct.
  destruct d as [|p|p]; try lia.
  unfold Qle, Qdiv, Qmult, Qinv, inject_Z. simpl. split; nia.
Qed.

Lemma guardedPercent_bounds (n d : Z) :
  0 <= n <= d -> isPercentage (guardedPercent n d).
Proof.
  intros Hn. unfold guardedPercent. destruct (0 <? d) eqn:Hd.
  - apply percentOf_bounds; [exact Hn | now apply Z.ltb_lt].
  - exists 0%Q. repeat split; unfold Qle; simpl; lia.
Qed.

Lemma len_filter_disjoint {A} (p q : A -> bool) (l : list A) :
  (forall x, p x = true -> q x = false) ->
  Js.len (List.filter p l) + Js.len (List.filter q l) <= Js.len l.
Proof.
  intros Hpq. unfold Js.len. induction l as [|x l IH]; simpl; [lia|].
  destruct (p x) eqn:Hp; [rewrite (Hpq x Hp)|destruct (q x)]; simpl; lia.
Qed.

Lemma sumCount_le (f g : CountField) (l : list ProcessedTeacherData) :
  (forall d, In d l -> 0 <= getCount f d <= getCount g d) ->
  0 <= sumCount f l <= sumCount g l.
Proof.
  unfold sumCount. induction l as [|d l IH]; intros Hall; simpl; [lia|].
  pose proof (Hall d (or_introl eq_refl)).
  assert (0 <= List.fold_right (fun d acc => getCount f d + acc) 0 l
          <= List.fold_right (fun d acc => getCount g d + acc) 0 l).
  { apply IH. intros d' Hin. apply Hall. now right. }
  lia.
Qed.

(** X10. Within the attendance rows of a cohort, attended rows are
    disjoint from cancelled, late-cancelled and no-show rows, so each of
    these counts plus the visits is at most the number of rows. For every
    entry of the result, cohort or studio, the retained count lies
    between 0 and the new-client count, and the retention, no-show and
    late-cancellation rates are finite numbers between 0 and 100. *)
Theorem X10_counts_and_rates_bounded
    (newData : list NewRecord) (bookingsData : list BookingRecord)
    (salesData : option (list SaleRecord)) :
  (totalVisitsCount cleanedBookingsData teacher loc per
     + cancellationsCount cleanedBookingsData teacher loc per
     <= Js.len (teacherBookings cleanedBookingsData teacher loc per) /\
   totalVisitsCount cleanedBookingsData teacher loc per
     + lateCancellationsCount cleanedBookingsData teacher loc per
     <= Js.len (teacherBookings cleanedBookingsData teacher loc per) /\
   totalVisitsCount cleanedBookingsData teacher loc per
     + noShowsCount cleanedBookingsData teacher loc per
     <= Js.len (teacherBookings cleanedBookingsData teacher loc per)) /\
  Forall (fun d =>
    0 <= retainedClients d <= newClients d /\
    isPercentage (retentionRate d) /\
    isPercentage (noShowRate d) /\
    isPercentage (lateCancellationRate d))
    (processData newData bookingsData salesData).
Proof.
  split.
  - unfold totalVisitsCount, cancellationsCount, lateCancellationsCount, noShowsCount.
    repeat split; apply len_filter_disjoint; intros b Hb; unfold attended in Hb;
      rewrite !andb_true_iff, !String.eqb_eq in Hb; destruct Hb as [[Hc Hl] Hn];
      apply String.eqb_neq; congruence.
  - assert (Hcohort : forall d, In d (cohortEntries newData bookingsData salesData) ->
      0 <= retainedClients d <= newClients d /\
      isPercentage (retentionRate d) /\ isPercentage (noShowRate d) /\
      isPercentage (lateCancellationRate d)).
    { intros d Hin. destruct (cohort_origin _ _ _ d Hin) as (t & l & p & Hd).
      unfold cohortOf in Hd.
      destruct (cohortMetrics_fields _ _ _ _ _ _ d Hd)
        as (_ & _ & _ & Hnew & _ & _ & _ & _ & _ & _ & Hret & _).
      destruct (cohortMetrics_rates _ _ _ _ _ _ d Hd)
        as (Hrr & _ & _ & Hns & Hlc & _).
      assert (Hbound : 0 <= retainedClients d <= newClients d).
      { rewrite Hret, Hnew.
        unfold retainedClientsCount, retainedClientEmails, newClientsCount.
        rewrite push_fold. simpl. split; [apply len_nonneg|].
        unfold Js.len. rewrite length_map. apply len_filter_le. }
      split; [exact Hbound|]. rewrite Hrr, Hns, Hlc.
      assert (Hd' := Hd). unfold cohortMetrics in Hd'.
      destruct (Js.len _ =? 0); [discriminate|]. injection Hd' as <-. simpl.
      repeat split; try (apply guardedPercent_bounds; exact Hbound);
        apply guardedPercent_bounds; (split; [apply len_nonneg | apply len_filter_le]). }
    unfold processData. apply List.Forall_forall. intros d Hin.
    apply in_app_or in Hin. destruct Hin as [Hin | Hin]; [now apply Hcohort|].
    destruct (rollup_rates _ _ _ d Hin) as (Hrr & _ & _ & Hns & Hlc & _).
    destruct (rollup_origin _ _ _ d Hin) as (v & Hv & Heq).
    destruct (run_invariant newData bookingsData salesData) as (_ & _ & Hstudio).
    destruct (Hstudio _ v Hv) as (_ & _ & Hsum & _).
    assert (Hbound : 0 <= retainedClients d <= newClients d).
    { rewrite Heq. simpl.
      change (0 <= getCount FRetainedClients v <= getCount FNewClients v).
      rewrite !Hsum. apply sumCount_le. intros d' Hin'. apply filter_In in Hin'.
      apply (Hcohort d'). tauto. }
    split; [exact Hbound|]. rewrite Hrr, Hns, Hlc.
    repeat split; try (apply guardedPercent_bounds; exact Hbound);
      exists 0%Q; repeat split; unfold Qle; simpl; lia.
Qed.

(** *** The weekly revenue series *)

Lemma addWeek_keys (weekKey : string) (revenue : Q) (acc : list (string * Q)) :
  List.map fst (addWeek weekKey revenue acc)
  = (List.map fst acc ++
     if List.existsb (String.eqb weekKey) (List.map fst acc) then [] else [weekKey])%list.
Proof.
  induction acc as [|[week sofar] rest IH]; simpl; [reflexivity|].
  rewrite (String.eqb_sym weekKey week).
  destruct (String.eqb week weekKey); simpl; [now rewrite app_nil_r|]. now rewrite IH.
Qed.

Lemma addWeek_NoDup (weekKey : string) (revenue : Q) (acc : list (string * Q)) :
  List.NoDup (List.map fst acc) ->
  List.NoDup (List.map fst (addWeek weekKey revenue acc)).
Proof.
  intros Hnd. rewrite addWeek_keys.
  destruct (List.existsb (String.eqb weekKey) (List.map fst acc)) eqn:He;
    [now rewrite app_nil_r|].
  apply List.NoDup_app; [exact Hnd | repeat constructor; intros [] |].
  intros a Hin [<-|[]]. apply existsb_eqb_In in Hin. congruence.
Qed.

Lemma weekRevenue_addWeek (week weekKey : string) (revenue : Q)
    (acc : list (string * Q)) :
  (weekRevenue week (addWeek weekKey revenue acc)
   == weekRevenue week acc + if String.eqb weekKey week then revenue else 0)%Q.
Proof.
  induction acc as [|[w sofar] rest IH]; simpl.
  - destruct (String.eqb weekKey week); ring.
  - destruct (String.eqb w weekKey) eqn:Hw; simpl.
    + apply String.eqb_eq in Hw. subst w.
      destruct (String.eqb weekKey week); ring.
    + destruct (String.eqb w week) eqn:Hww; [|exact IH].
      apply String.eqb_eq in Hww. subst w. rewrite (String.eqb_sym weekKey week), Hw. ring.
Qed.

Lemma total_addWeek (weekKey : string) (revenue : Q) (acc : list (string * Q)) :
  (sumQ (List.map snd (addWeek weekKey revenue acc))
   == sumQ (List.map snd acc) + revenue)%Q.
Proof.
  unfold sumQ. induction acc as [|[w sofar] rest IH]; simpl; [ring|].
  destruct (String.eqb w weekKey); simpl; [ring|]. rewrite IH. ring.
Qed.

Lemma fold_left_pointwise {A B} (f g : A -> B -> A) (l : list B) (a : A) :
  (forall a b, f a b = g a b) -> List.fold_left f l a = List.fold_left g l a.
Proof.
  intros Hfg. revert a. induction l as [|b l IH]; intros a; simpl; [reflexivity|].
  now rewrite Hfg, IH.
Qed.

Lemma sumQ_filter_weeks (week : string) (weeks : list (string * Q)) :
  List.NoDup (List.map fst weeks) ->
  (sumQ (List.map snd (List.filter (fun entry => String.eqb (fst entry) week) weeks))
   == weekRevenue week weeks)%Q.
Proof.
  unfold sumQ. induction weeks as [|[w r] rest IH]; simpl; intros Hnd; [reflexivity|].
  inversion Hnd as [|? ? Hnotin Hrest]; subst.
  destruct (String.eqb w week) eqn:Hw; simpl; [|now apply IH].
  apply String.eqb_eq in Hw. subst w.
  assert (Hnone : List.filter (fun entry => String.eqb (fst entry) week) rest = []).
  { clear -Hnotin. induction rest as [|[w r'] rest IH]; simpl in *; [reflexivity|].
    destruct (String.eqb w week) eqn:Hw.
    - apply String.eqb_eq in Hw. tauto.
    - apply IH. tauto. }
  rewrite Hnone. simpl. ring.
Qed.

Section Weeks.

Context `{W : WeekDates}.

Abbreviation keptSales :=
  (convertedClientsList enrichedNewData cleanedSales teacher loc per).

Lemma revenueByWeek_fold :
  revenueByWeekOf enrichedNewData cleanedSales teacher loc per
  = List.fold_left bucketSale keptSales [].
Proof.
  unfold revenueByWeekOf. apply fold_left_pointwise. intros acc sale.
  unfold bucketSale, saleWeek.
  destruct (String.eqb (Date sale) ""); [reflexivity|].
  now destruct (parseDate (Date sale)).
Qed.

Lemma bucket_fold_spec (sales : list CleanedSale) (acc : list (string * Q)) :
  List.NoDup (List.map fst acc) ->
  List.NoDup (List.map fst (List.fold_left bucketSale sales acc)) /\
  (forall week,
     weekRevenue week (List.fold_left bucketSale sales acc)
     == weekRevenue week acc
        + sumQ (List.map Sale_value (List.filter (inWeek week) sales)))%Q /\
  (sumQ (List.map snd (List.fold_left bucketSale sales acc))
   == sumQ (List.map snd acc)
      + sumQ (List.map Sale_value
                (List.filter (fun sale => match saleWeek sale with
                                          | Some _ => true
                                          | None => false
                                          end) sales)))%Q /\
  (forall week,
     In week (List.map fst (List.fold_left bucketSale sales acc)) <->
     In week (List.map fst acc) \/
     exists sale, In sale sales /\ saleWeek sale = Some week).
Proof.
  revert acc. induction sales as [|sale sales IH]; intros acc Hnd; simpl.
  - split; [exact Hnd|]. split; [intros week; unfold sumQ; simpl; ring|].
    split; [unfold sumQ; simpl; ring|].
    intros week. split; [tauto|]. intros [H|(s & [] & _)]. exact H.
  - assert (Hnd' : List.NoDup (List.map fst (bucketSale acc sale))).
    { unfold bucketSale. destruct (saleWeek sale); [now apply addWeek_NoDup | exact Hnd]. }
    destruct (IH (bucketSale acc sale) Hnd') as (H1 & H2 & H3 & H4).
    split; [exact H1|]. split; [|split].
    + intros week. rewrite H2. unfold bucketSale, inWeek.
      destruct (saleWeek sale) as [key|]; simpl; [|reflexivity].
      rewrite weekRevenue_addWeek.
      destruct (String.eqb key week); unfold sumQ; simpl; ring.
    + rewrite H3. unfold bucketSale.
      destruct (saleWeek sale) as [key|]; simpl; [|reflexivity].
      rewrite total_addWeek. unfold sumQ. simpl. ring.
    + intros week. rewrite H4. unfold bucketSale.
      destruct (saleWeek sale) as [key|] eqn:Hkey.
      * rewrite addWeek_keys, in_app_iff. split.
        -- intros [[Hin | Hnew] | (s & Hs & Hw)].
           ++ now left.
           ++ right. exists sale. split; [now left|].
              destruct (List.existsb _ _); simpl in Hnew; [contradiction|].
              destruct Hnew as [<-|[]]. exact Hkey.
           ++ right. exists s. split; [now right | exact Hw].
        -- intros [Hin | (s & [<- | Hs] & Hw)].
           ++ left. now left.
           ++ left. rewrite Hkey in Hw. injection Hw as <-.
              destruct (List.existsb (String.eqb key) (List.map fst acc)) eqn:He.
              ** left. now apply existsb_eqb_In.
              ** right. now left.
           ++ right. now exists s.
      * split.
        -- intros [Hin | (s & Hs & Hw)]; [now left|]. right. exists s. split; [now right | exact Hw].
        -- intros [Hin | (s & [<- | Hs] & Hw)]; [now left | congruence|].
           right. now exists s.
Qed.

(** X11. The weekly revenue series of a cohort has one entry per week
    in which a kept sale falls, and the revenue of each entry is the sum
    of the values of the kept sales of that week; the series adds up to
    the value of the kept sales that have a date that parses, the others
    being left out of the series while they still count in the total
    revenue. *)
Theorem X11_weekly_revenue_series :
  List.NoDup (List.map fst (revenueByWeekOf enrichedNewData cleanedSales teacher loc per)) /\
  (forall week,
     In week (List.map fst (revenueByWeekOf enrichedNewData cleanedSales teacher loc per))
     <-> exists sale, In sale keptSales /\ saleWeek sale = Some week) /\
  (forall week,
     weekRevenue week (revenueByWeekOf enrichedNewData cleanedSales teacher loc per)
     == sumQ (List.map Sale_value (List.filter (inWeek week) keptSales)))%Q /\
  (sumQ (List.map snd (revenueByWeekOf enrichedNewData cleanedSales teacher loc per))
   == sumQ (List.map Sale_value
              (List.filter (fun sale => match saleWeek sale with
                                        | Some _ => true
                                        | None => false
                                        end) keptSales)))%Q.
Proof.
  rewrite revenueByWeek_fold.
  destruct (bucket_fold_spec keptSales [] (List.NoDup_nil _)) as (H1 & H2 & H3 & H4).
  split; [exact H1|]. split; [|split].
  - intros week. rewrite H4. simpl. tauto.
  - intros week. rewrite H2. simpl. ring.
  - rewrite H3. unfold sumQ. simpl. ring.
Qed.

End Weeks.

Lemma mergeWeeks_spec (revenueByWeek studioWeeks : list (string * Q)) :
  List.NoDup (List.map fst studioWeeks) ->
  List.NoDup (List.map fst (mergeWeeks revenueByWeek studioWeeks)) /\
  (forall week,
     weekRevenue week (mergeWeeks revenueByWeek studioWeeks)
     == weekRevenue week studioWeeks
        + sumQ (List.map snd
                  (List.filter (fun entry => String.eqb (fst entry) week) revenueByWeek)))%Q /\
  (sumQ (List.map snd (mergeWeeks revenueByWeek studioWeeks))
   == sumQ (List.map snd studioWeeks) + sumQ (List.map snd revenueByWeek))%Q.
Proof.
  unfold mergeWeeks. revert studioWeeks.
  induction revenueByWeek as [|[w r] rest IH]; intros studioWeeks Hnd; simpl.
  - split; [exact Hnd|]. split; [intros week|]; unfold sumQ; simpl; ring.
  - destruct (IH (addWeek w r studioWeeks) (addWeek_NoDup w r studioWeeks Hnd))
      as (H1 & H2 & H3).
    split; [exact H1|]. split.
    + intros week. rewrite H2, weekRevenue_addWeek.
      destruct (String.eqb w week); unfold sumQ; simpl; ring.
    + rewrite H3, total_addWeek. unfold sumQ. simpl. ring.
Qed.

(** X12. Merging the weekly series of a cohort into the series of its
    studio keeps one entry per week, adds to each week of the studio the
    revenue the cohort has for that week, keeps the weeks the cohort
    lacks unchanged and appends the weeks that are new, so that the
    studio total grows by the cohort total. *)
Theorem X12_weekly_series_merge (revenueByWeek studioWeeks : list (string * Q)) :
  List.NoDup (List.map fst revenueByWeek) ->
  List.NoDup (List.map fst studioWeeks) ->
  List.NoDup (List.map fst (mergeWeeks revenueByWeek studioWeeks)) /\
  (forall week,
     weekRevenue week (mergeWeeks revenueByWeek studioWeeks)
     == weekRevenue week studioWeeks + weekRevenue week revenueByWeek)%Q /\
  (forall week,
     In week (List.map fst (mergeWeeks revenueByWeek studioWeeks)) <->
     In week (List.map fst studioWeeks) \/ In week (List.map fst revenueByWeek)) /\
  (sumQ (List.map snd (mergeWeeks revenueByWeek studioWeeks))
   == sumQ (List.map snd studioWeeks) + sumQ (List.map snd revenueByWeek))%Q.
Proof.
  intros Hc Hs. destruct (mergeWeeks_spec revenueByWeek studioWeeks Hs) as (H1 & H2 & H3).
  split; [exact H1|]. split; [|split; [|exact H3]].
  - intros week. rewrite H2, sumQ_filter_weeks by exact Hc. reflexivity.
  - intros week. clear. unfold mergeWeeks. revert studioWeeks.
    induction revenueByWeek as [|[w r] rest IH]; intros studioWeeks; simpl; [tauto|].
    rewrite IH, addWeek_keys, in_app_iff.
    destruct (List.existsb (String.eqb w) (List.map fst studioWeeks)) eqn:He; simpl.
    + apply existsb_eqb_In in He. split; [tauto|].
      intros [H|[<-|H]]; tauto.
    + tauto.
Qed.

(** *** The detail records of retained clients *)

(** X14. The detail list of retained clients has one record per
    retained member, in cohort order. In every record the member is
    found, so the "Unknown" name is never used and the name, first visit
    and membership are those of the first cohort member with that email;
    the visit count is at least 1; the date shown is the class date of
    the first return visit, in dataset order, of that email, and that
    visit is strictly after the first visit shown. *)
Theorem X14_retained_details_are_backed_by_visits :
  List.map Retained.email
    (retainedClientDetailsOf enrichedNewData cleanedBookingsData teacher loc per)
    = List.map Email
        (List.filter (isRetained enrichedNewData cleanedBookingsData teacher loc per)
           members) /\
  Forall (fun r =>
    exists member visit later,
      List.find (fun client => String.eqb (Email client) (Retained.email r)) members
        = Some member /\
      Email member = Retained.email r /\
      Retained.name r = First_name member ++ " " ++ Last_name member /\
      Retained.firstVisit r = First_visit_at member /\
      Retained.membershipType r = Membership_used member /\
      clientReturnVisits enrichedNewData cleanedBookingsData teacher loc per
        (Retained.email r) = visit :: later /\
      Retained.visitCount r = Js.len (visit :: later) /\
      Retained.date r = Class_Date visit /\
      Retained.firstVisitPostTrial r = Js.or_str (Class_Date visit) "N/A" /\
      isDateAfter (Class_Date visit) (First_visit_at member) = true)
    (retainedClientDetailsOf enrichedNewData cleanedBookingsData teacher loc per).
Proof.
  assert (Hemails :
    retainedClientEmails enrichedNewData cleanedBookingsData teacher loc per
    = List.map Email
        (List.filter (isRetained enrichedNewData cleanedBookingsData teacher loc per)
           members)).
  { unfold retainedClientEmails. now rewrite push_fold. }
  split.
  - unfold retainedClientDetailsOf. rewrite List.map_map. simpl.
    now rewrite List.map_id.
  - apply List.Forall_forall. intros r Hin. unfold retainedClientDetailsOf in Hin.
    apply in_map_iff in Hin. destruct Hin as (e & <- & He). simpl.
    rewrite Hemails in He. apply in_map_iff in He. destruct He as (c & <- & Hc).
    apply filter_In in Hc. destruct Hc as [Hc Hret].
    fold (clientReturnVisits enrichedNewData cleanedBookingsData teacher loc per (Email c)).
    destruct (List.find (fun client => String.eqb (Email client) (Email c)) members)
      as [member|] eqn:Hfind.
    2:{ exfalso. pose proof (find_none _ _ Hfind c Hc) as Hno. simpl in Hno.
        now rewrite String.eqb_refl in Hno. }
    destruct (clientReturnVisits enrichedNewData cleanedBookingsData teacher loc per
                (Email c)) as [|visit later] eqn:Hvisits.
    { exfalso. unfold isRetained in Hret. rewrite Hvisits in Hret.
      destruct (Js.includes _ _); discriminate. }
    exists member, visit, later.
    pose proof (find_some _ _ Hfind) as [_ Hm]. apply String.eqb_eq in Hm.
    assert (Hv : In visit (clientReturnVisits enrichedNewData cleanedBookingsData
                             teacher loc per (Email c)))
      by (rewrite Hvisits; now left).
    unfold clientReturnVisits in Hv. apply filter_In in Hv. destruct Hv as [Hv Hmail].
    apply String.eqb_eq in Hmail.
    unfold returnVisits in Hv. apply filter_In in Hv. destruct Hv as [_ Hkeep].
    rewrite Hmail, Hfind in Hkeep.
    repeat (apply andb_prop in Hkeep; destruct Hkeep as [Hkeep ?]).
    unfold Js.or_str at 1.
    repeat split; try assumption; try reflexivity.
    destruct (String.eqb (Class_Date visit) "") eqn:Hd; [|reflexivity].
    apply String.eqb_eq in Hd. now rewrite Hd.
Qed.
End MoreCohortFacts.

End MorePipeline.

(** *** The channel series *)

Lemma getCell_insert_eq (store : list Z) (t : nat) (x : Z) :
  (t < List.length store)%nat -> getCell (<[t := x]> store) t = x.
Proof. intros Hlt. unfold getCell. now rewrite list_lookup_insert_eq. Qed.

Lemma getCell_insert_ne (store : list Z) (t a : nat) (x : Z) :
  t <> a -> getCell (<[t := x]> store) a = getCell store a.
Proof. intros Hne. unfold getCell. now rewrite list_lookup_insert_ne. Qed.

Lemma addCounts_length (targets sources : list nat) (store : list Z) :
  List.length (addCounts targets sources store) = List.length store.
Proof.
  revert sources store. induction targets as [|t ts IH]; intros [|s ss] store; simpl;
    try reflexivity.
  rewrite IH. apply length_insert.
Qed.

Lemma addCounts_other (targets sources : list nat) (store : list Z) (a : nat) :
  ~ In a targets -> getCell (addCounts targets sources store) a = getCell store a.
Proof.
  revert sources store. induction targets as [|t ts IH]; intros [|s ss] store Hnot; simpl;
    try reflexivity.
  rewrite IH by (simpl in Hnot; tauto).
  apply getCell_insert_ne. simpl in Hnot. tauto.
Qed.

Lemma viewArray_ext (store store' : list Z) (array : list nat) :
  (forall a, In a array -> getCell store' a = getCell store a) ->
  viewArray store' array = viewArray store array.
Proof. intros Hall. unfold viewArray. now apply map_ext_in. Qed.

Lemma addCounts_view (targets sources : list nat) (store : list Z) :
  List.NoDup targets ->
  (forall s, In s sources -> ~ In s targets) ->
  (forall t, In t targets -> (t < List.length store)%nat) ->
  List.length targets = List.length sources ->
  viewArray (addCounts targets sources store) targets
  = zip_with Z.add (viewArray store targets) (viewArray store sources).
Proof.
  revert sources store.
  induction targets as [|t ts IH]; intros [|s ss] store Hnd Hdis Hlt Hlen;
    simpl in *; try discriminate; [reflexivity|].
  inversion Hnd as [|? ? Hnotin Hnd']; subst.
  f_equal.
  - rewrite addCounts_other by exact Hnotin.
    apply getCell_insert_eq. apply Hlt. now left.
  - rewrite IH.
    + f_equal; apply viewArray_ext; intros a Ha; apply getCell_insert_ne.
      * intros ->. contradiction.
      * intros ->. apply (Hdis a); [now right | now left].
    + exact Hnd'.
    + intros s' Hs' Hin. apply (Hdis s'); [now right | now right].
    + intros t' Ht'. rewrite length_insert. apply Hlt. now right.
    + now injection Hlen.
Qed.

Lemma viewArray_app_old (store extra : list Z) (array : list nat) :
  (forall a, In a array -> (a < List.length store)%nat) ->
  viewArray (store ++ extra)%list array = viewArray store array.
Proof.
  intros Hlt. apply viewArray_ext. intros a Ha. unfold getCell.
  rewrite lookup_app_l; [reflexivity|]. now apply Hlt.
Qed.

Lemma viewArray_app_new (store extra : list Z) :
  viewArray (store ++ extra)%list (List.seq (List.length store) (List.length extra)) = extra.
Proof.
  revert store. induction extra as [|x extra IH]; intros store; simpl; [reflexivity|].
  f_equal.
  - unfold getCell. rewrite lookup_app_r by lia. now rewrite Nat.sub_diag.
  - specialize (IH (store ++ [x])%list). rewrite <- app_assoc in IH. simpl in IH.
    rewrite length_app in IH. simpl in IH. rewrite Nat.add_1_r in IH. exact IH.
Qed.

Lemma firstAt_snoc (loc : string) (l : list ProcessedTeacherData)
    (d : ProcessedTeacherData) :
  firstAt loc (l ++ [d])%list
  = match firstAt loc l with
    | Some i => Some i
    | None => if String.eqb (location d) loc then Some (List.length l) else None
    end.
Proof.
  induction l as [|x l IH]; simpl.
  - now destruct (String.eqb (location d) loc).
  - destruct (String.eqb (location x) loc); [reflexivity|]. rewrite IH.
    destruct (firstAt loc l); [reflexivity|].
    now destruct (String.eqb (location d) loc).
Qed.

Lemma firstAt_Some (loc : string) (l : list ProcessedTeacherData) (i : nat) :
  firstAt loc l = Some i ->
  exists d, l !! i = Some d /\ location d = loc.
Proof.
  revert i. induction l as [|x l IH]; intros i; simpl; [discriminate|].
  destruct (String.eqb (location x) loc) eqn:Hx.
  - intros [= <-]. exists x. split; [reflexivity | now apply String.eqb_eq].
  - destruct (firstAt loc l) as [j|]; [|discriminate]. intros [= <-].
    destruct (IH j eq_refl) as (d & Hd & Hloc). now exists d.
Qed.

Lemma firstAt_None (loc : string) (l : list ProcessedTeacherData) :
  firstAt loc l = None -> forall d, In d l -> location d <> loc.
Proof.
  induction l as [|x l IH]; simpl; [intros _ d []|].
  destruct (String.eqb (location x) loc) eqn:Hx; [discriminate|].
  destruct (firstAt loc l); [discriminate|]. intros _ d [<-|Hin].
  - now apply String.eqb_neq.
  - now apply IH.
Qed.

Lemma firstAt_of_entry (l : list ProcessedTeacherData) (i : nat) (d : ProcessedTeacherData) :
  l !! i = Some d -> exists j, firstAt (location d) l = Some j.
Proof.
  intros Hd. destruct (firstAt (location d) l) as [j|] eqn:Hf; [eauto|].
  exfalso. apply (firstAt_None _ _ Hf d); [|reflexivity].
  apply list_elem_of_In. now apply list_elem_of_lookup_2 with i.
Qed.

Lemma sumSources_snoc (l : list ProcessedTeacherData) (d : ProcessedTeacherData) :
  sumSources (l ++ [d])%list = zip_with Z.add (sumSources l) (sourceCountsOf d).
Proof.
  unfold sumSources, sourceCountsOf. rewrite !sumCount_app. unfold sumCount. simpl.
  repeat f_equal; lia.
Qed.

Lemma arrayLookup_arraySet (loc loc' : string) (array : list nat)
    (arrays : list (string * list nat)) :
  arrayLookup loc' (arraySet loc array arrays)
  = if String.eqb loc loc' then Some array else arrayLookup loc' arrays.
Proof.
  induction arrays as [|[k old] rest IH]; simpl.
  - reflexivity.
  - destruct (String.eqb k loc) eqn:Hk; simpl.
    + apply String.eqb_eq in Hk. subst k. now destruct (String.eqb loc loc').
    + rewrite IH. destruct (String.eqb k loc') eqn:Hk'; [|reflexivity].
      apply String.eqb_eq in Hk'. subst k. now rewrite String.eqb_sym, Hk.
Qed.

Lemma blockOf_In (i a : nat) : In a (blockOf i) <-> (5 * i <= a < 5 * i + 5)%nat.
Proof. unfold blockOf. rewrite in_seq. lia. Qed.

Lemma blockOf_NoDup (i : nat) : List.NoDup (blockOf i).
Proof. apply seq_NoDup. Qed.

Lemma sourceStep_invariant (pushed : list ProcessedTeacherData) (st : SourceState)
    (d : ProcessedTeacherData) :
  sourceInvariant pushed st -> sourceInvariant (pushed ++ [d])%list (sourceStep st d).
Proof.
  intros (Hlen & Harrays & Hstudio & Hview).
  remember (List.length pushed) as n eqn:Hn.
  assert (Hblock : List.seq (List.length (sourceStore st)) (List.length (sourceCountsOf d))
                   = blockOf n) by (unfold blockOf; now rewrite Hlen).
  assert (Hold : forall i, (i < n)%nat -> forall a, In a (blockOf i) ->
                   (a < List.length (sourceStore st))%nat).
  { intros i Hi a Ha. apply blockOf_In in Ha. lia. }
  assert (Hnew : viewArray (sourceStore st ++ sourceCountsOf d)%list (blockOf n)
                 = sourceCountsOf d).
  { rewrite <- Hblock. apply viewArray_app_new. }
  assert (Harr' : (cohortArrays st ++ [blockOf n])%list
                  = List.map blockOf (List.seq 0 (List.length (pushed ++ [d])%list))).
  { rewrite length_app. simpl. rewrite <- Hn, Nat.add_1_r, seq_S, List.map_app.
    simpl. now rewrite Harrays. }
  unfold sourceStep. rewrite Hblock, (Hstudio (location d)).
  destruct (firstAt (location d) pushed) as [f|] eqn:Hfirst.
  - (* the studio already has an array: the objects of the first cohort *)
    assert (Hfive : Nat.eqb (List.length (blockOf f)) 0 = false)
      by (unfold blockOf; now rewrite length_seq).
    rewrite Hfive.
    destruct (firstAt_Some _ _ _ Hfirst) as (df & Hdf & Hlocf).
    assert (Hf : (f < n)%nat) by (apply lookup_lt_Some in Hdf; lia).
    split; [|split; [|split]]; cbn [sourceStore cohortArrays studioArrays].
    + rewrite addCounts_length, !length_app. simpl. lia.
    + exact Harr'.
    + intros loc. rewrite Hstudio, firstAt_snoc.
      destruct (firstAt loc pushed) eqn:Hl; [reflexivity|].
      destruct (String.eqb (location d) loc) eqn:He; [|reflexivity].
      apply String.eqb_eq in He. congruence.
    + intros i di Hdi.
      assert (Hi : (i < n \/ (i = n /\ di = d))%nat).
      { destruct (Nat.lt_ge_cases i n) as [Hlt|Hge]; [now left|]. right.
        rewrite lookup_app_r in Hdi by (rewrite <- Hn; exact Hge).
        rewrite <- Hn in Hdi.
        destruct (i - n)%nat as [|k] eqn:Hk; simpl in Hdi; [|now destruct k].
        injection Hdi as <-. split; [lia | reflexivity]. }
      rewrite firstAt_snoc.
      destruct Hi as [Hi | [-> ->]].
      * rewrite lookup_app_l in Hdi by (rewrite <- Hn; exact Hi).
        destruct (firstAt_of_entry _ _ _ Hdi) as [j Hj]. rewrite Hj.
        specialize (Hview i di Hdi). rewrite Hj in Hview.
        destruct (Nat.eq_dec i f) as [->|Hne].
        -- assert (di = df) by congruence. subst di. rewrite Hlocf in *.
           assert (j = f) by congruence. subst j. rewrite Nat.eqb_refl in *.
           rewrite addCounts_view.
           ++ rewrite Hnew, viewArray_app_old by (apply Hold; exact Hf).
              rewrite Hview, atLocation_snoc, String.eqb_refl.
              symmetry. apply sumSources_snoc.
           ++ apply blockOf_NoDup.
           ++ intros s Hs Ht. apply blockOf_In in Hs, Ht. lia.
           ++ intros t Ht. rewrite length_app. apply blockOf_In in Ht. lia.
           ++ unfold blockOf. now rewrite !length_seq.
        -- rewrite (viewArray_ext (sourceStore st ++ sourceCountsOf d)%list).
           2:{ intros a Ha. apply addCounts_other. intros Ht.
               apply blockOf_In in Ha, Ht. lia. }
           rewrite viewArray_app_old by (apply Hold; exact Hi). rewrite Hview.
           destruct (Nat.eqb i j) eqn:Hij; [|reflexivity].
           apply Nat.eqb_eq in Hij. subst j.
           rewrite atLocation_snoc.
           assert (Hoff : String.eqb (location d) (location di) = false).
           { apply String.eqb_neq. intros Heq. rewrite <- Heq in Hj. congruence. }
           now rewrite Hoff, app_nil_r.
      * rewrite Hfirst.
        assert (Hnf : Nat.eqb n f = false) by (apply Nat.eqb_neq; lia).
        rewrite Hnf.
        rewrite (viewArray_ext (sourceStore st ++ sourceCountsOf d)%list); [exact Hnew|].
        intros a Ha. apply addCounts_other. intros Ht. apply blockOf_In in Ha, Ht. lia.
  - (* the studio is new: its array is a copy, with the same objects *)
    change (Nat.eqb (List.length (@nil nat)) 0) with true. cbv iota.
    split; [|split; [|split]]; cbn [sourceStore cohortArrays studioArrays].
    + rewrite !length_app. simpl. lia.
    + exact Harr'.
    + intros loc. rewrite arrayLookup_arraySet, Hstudio, firstAt_snoc.
      destruct (String.eqb (location d) loc) eqn:He.
      * apply String.eqb_eq in He. subst loc. rewrite Hfirst. now rewrite Hn.
      * now destruct (firstAt loc pushed).
    + intros i di Hdi.
      assert (Hi : (i < n \/ (i = n /\ di = d))%nat).
      { destruct (Nat.lt_ge_cases i n) as [Hlt|Hge]; [now left|]. right.
        rewrite lookup_app_r in Hdi by (rewrite <- Hn; exact Hge).
        rewrite <- Hn in Hdi.
        destruct (i - n)%nat as [|k] eqn:Hk; simpl in Hdi; [|now destruct k].
        injection Hdi as <-. split; [lia | reflexivity]. }
      rewrite firstAt_snoc.
      destruct Hi as [Hi | [-> ->]].
      * rewrite lookup_app_l in Hdi by (rewrite <- Hn; exact Hi).
        destruct (firstAt_of_entry _ _ _ Hdi) as [j Hj]. rewrite Hj.
        specialize (Hview i di Hdi). rewrite Hj in Hview.
        rewrite viewArray_app_old by (apply Hold; exact Hi). rewrite Hview.
        rewrite atLocation_snoc.
        assert (Hoff : String.eqb (location d) (location di) = false).
        { apply String.eqb_neq. intros Heq. rewrite <- Heq in Hj. congruence. }
        now rewrite Hoff, app_nil_r.
      * rewrite Hfirst, String.eqb_refl, <- Hn, Nat.eqb_refl, Hnew, atLocation_snoc,
          String.eqb_refl.
        rewrite (atLocation_none (location d) pushed (firstAt_None _ _ Hfirst)).
        unfold sumSources, sourceCountsOf, sumCount. simpl. repeat f_equal; lia.
Qed.

Lemma sourcesLoop_invariant (pushed : list ProcessedTeacherData) :
  sourceInvariant pushed (sourcesLoop pushed).
Proof.
  unfold sourcesLoop. induction pushed as [|d pushed IH] using rev_ind.
  - repeat split; try reflexivity. intros i d Hd. now rewrite lookup_nil in Hd.
  - rewrite fold_left_app. simpl. now apply sourceStep_invariant.
Qed.

(** X13. In the result, the channel series of the first cohort pushed
    for a location is shared with the studio: it shows the channel counts
    added up over all cohorts of that location, not those of the cohort,
    and so does the series of the studio. The series of every later
    cohort of the location shows the five counts of that cohort. *)
Theorem X13_first_cohort_series_shows_studio_totals (pushed : list ProcessedTeacherData) :
  List.length (cohortArrays (sourcesLoop pushed)) = List.length pushed /\
  (forall i d, pushed !! i = Some d ->
     exists array,
       cohortArrays (sourcesLoop pushed) !! i = Some array /\
       viewArray (sourceStore (sourcesLoop pushed)) array
       = if List.existsb (fun earlier => String.eqb (location earlier) (location d))
              (take i pushed)
         then sourceCountsOf d
         else sumSources (atLocation (location d) pushed)) /\
  (forall d, In d pushed ->
     exists array,
       arrayLookup (location d) (studioArrays (sourcesLoop pushed)) = Some array /\
       viewArray (sourceStore (sourcesLoop pushed)) array
       = sumSources (atLocation (location d) pushed)).
Proof.
  destruct (sourcesLoop_invariant pushed) as (Hlen & Harrays & Hstudio & Hview).
  assert (Hfirst : forall i d, pushed !! i = Some d ->
    exists j, firstAt (location d) pushed = Some j /\
      Nat.eqb i j
      = negb (List.existsb (fun earlier => String.eqb (location earlier) (location d))
               (take i pushed))).
  { clear. induction pushed as [|x l IH]; intros i d Hd; [now rewrite lookup_nil in Hd|].
    simpl. destruct i as [|i]; simpl in *.
    - injection Hd as ->. rewrite String.eqb_refl. now exists 0%nat.
    - destruct (String.eqb (location x) (location d)) eqn:Hx; [now exists 0%nat|].
      destruct (IH i d Hd) as (j & Hj & Heq). rewrite Hj. exists (S j). now split. }
  split; [|split].
  - rewrite Harrays, length_map. apply length_seq.
  - intros i d Hd. exists (blockOf i). split.
    + rewrite Harrays. apply lookup_lt_Some in Hd as Hlt.
      rewrite list_lookup_fmap, lookup_seq_lt by exact Hlt. reflexivity.
    + rewrite (Hview i d Hd). destruct (Hfirst i d Hd) as (j & Hj & Heq).
      rewrite Hj, Heq. now destruct (List.existsb _ _).
  - intros d Hin. apply list_elem_of_In, list_elem_of_lookup in Hin. destruct Hin as [i Hd].
    destruct (firstAt_of_entry _ _ _ Hd) as [j Hj].
    destruct (firstAt_Some _ _ _ Hj) as (dj & Hdj & Hloc).
    exists (blockOf j). split; [now rewrite Hstudio, Hj|].
    rewrite (Hview j dj Hdj), Hloc, Hj, Nat.eqb_refl. reflexivity.
Qed.

(** ** Further concrete runs *)

Section MoreConcreteRuns.

#[local] Existing Instance Sample.parser.
#[local] Existing Instance Sample.runtime.
#[local] Existing Instance SampleWeeks.weeks.

Import Sample.

Abbreviation ashaOnly := (enrichedNewDataOf [asha] [firstVisitOf asha]).

(** The two cohorts of the two-month run share the studio: the series
    of the January cohort shows two trials, that of the February cohort
    one. *)
Example channel_series_of_two_months :
  let pushed := cohortEntries twoMonthsNew twoMonthsBookings None in
  let st := sourcesLoop pushed in
  List.map sourceCountsOf pushed = [[1; 0; 0; 0; 0]; [1; 0; 0; 0; 0]] /\
  List.map (viewArray (sourceStore st)) (cohortArrays st)
    = [[2; 0; 0; 0; 0]; [1; 0; 0; 0; 0]] /\
  (viewArray (sourceStore st) <$> arrayLookup "Studio A" (studioArrays st))
    = Some [2; 0; 0; 0; 0].
Proof. vm_compute. repeat split; reflexivity. Qed.

(** The three January purchases fall in one week. *)
Example weekly_series_of_january :
  revenueByWeekOf (enrichedNewDataOf januaryNew januaryBookings)
    (cleanedSalesData (Some januarySales))
    "T1" "Studio A" "Jan 2024"
  = [("2024-01-14", 4700%Q)].
Proof. vm_compute. reflexivity. Qed.

(** A member who pays for two third parties counts as two converted
    clients: the conversion rate of a cohort may exceed 100. *)
Example conversion_rate_above_hundred :
  let sales := [ cleaned "y@x.com" "a@x.com" "Membership" 1200 "2024-01-12";
                 cleaned "z@x.com" "a@x.com" "Membership" 1500 "2024-01-20" ] in
  newClientsCount ashaOnly "T1" "Studio A" "Jan 2024" = 1 /\
  convertedClientsCount ashaOnly sales "T1" "Studio A" "Jan 2024" = 2 /\
  conversionRateOf ashaOnly sales "T1" "Studio A" "Jan 2024" = Js.Fin 200.
Proof. vm_compute. repeat split; reflexivity. Qed.

(** X8, witness: a purchase below the minimum followed by a retail
    purchase; the reason kept is that of the retail purchase. *)
Lemma X8_witness_retail_after_small_purchase :
  let small := cleaned "a@x.com" "a@x.com" "Membership" 500 "2024-01-12" in
  let retail := cleaned "a@x.com" "a@x.com" "Retail" 1200 "2024-01-20" in
  matchingClient ashaOnly "T1" "Studio A" "Jan 2024" retail
    = Some (enrich [firstVisitOf asha] asha) /\
  clientConversionMap ashaOnly [small; retail] "T1" "Studio A" "Jan 2024" !! "a@x.com"
    = Some (Status.mk false (ExcludedCategory "Retail") None None None).
Proof.
  intros small retail.
  assert (Hmatch : matchingClient ashaOnly "T1" "Studio A" "Jan 2024" retail
                   = Some (enrich [firstVisitOf asha] asha)) by (vm_compute; reflexivity).
  split; [exact Hmatch|].
  pose proof (X8_last_disqualifying_reason_kept ashaOnly [small; retail]
                "T1" "Studio A" "Jan 2024" [small] [] retail
                (enrich [firstVisitOf asha] asha) eq_refl Hmatch) as Hlast.
  change "a@x.com" with (Email (enrich [firstVisitOf asha] asha)).
  rewrite Hlast.
  - vm_compute. reflexivity.
  - intros other c [<-|[<-|[]]] Hm _; vm_compute in Hm; injection Hm as <-;
      vm_compute; reflexivity.
  - intros later c [].
Defined.

(** X12, witness: a cohort week merged into a studio that has that
    week and another one. *)
Lemma X12_witness_merge_one_week :
  List.NoDup (List.map fst [("2024-01-14", 1200%Q)]) /\
  List.NoDup (List.map fst [("2024-01-14", 1500%Q); ("2024-01-07", 300%Q)]) /\
  (weekRevenue "2024-01-14"
     (mergeWeeks [("2024-01-14", 1200%Q)] [("2024-01-14", 1500%Q); ("2024-01-07", 300%Q)])
   == 1500 + 1200)%Q /\
  (weekRevenue "2024-01-07"
     (mergeWeeks [("2024-01-14", 1200%Q)] [("2024-01-14", 1500%Q); ("2024-01-07", 300%Q)])
   == 300 + 0)%Q.
Proof.
  assert (Hc : List.NoDup (List.map fst [("2024-01-14", 1200%Q)])).
  { simpl. constructor; [intros [] | constructor]. }
  assert (Hs : List.NoDup (List.map fst [("2024-01-14", 1500%Q); ("2024-01-07", 300%Q)])).
  { simpl. constructor; [intros [H|[]]; discriminate|].
    constructor; [intros [] | constructor]. }
  split; [exact Hc|]. split; [exact Hs|].
  destruct (X12_weekly_series_merge _ _ Hc Hs) as (_ & Hweek & _).
  split; [apply (Hweek "2024-01-14") | apply (Hweek "2024-01-07")].
Defined.

End MoreConcreteRuns.

(** ** The run as a whole *)

(** *** [Object.values] *)

Lemma insertIndexed_Permutation {A} (entry : N * A) (sorted : list (N * A)) :
  Permutation (insertIndexed entry sorted) (entry :: sorted).
Proof.
  induction sorted as [|next rest IH]; simpl; [reflexivity|].
  destruct (fst entry <=? fst next)%N; [reflexivity|].
  rewrite IH. apply perm_swap.
Qed.

Lemma insertIndexed_ascending {A} (entry : N * A) (sorted : list (N * A)) :
  ascending (List.map fst sorted) = true ->
  ascending (List.map fst (insertIndexed entry sorted)) = true.
Proof.
  induction sorted as [|next rest IH]; simpl; [reflexivity|].
  intros Hsorted. apply andb_prop in Hsorted. destruct Hsorted as [Hall Hrest].
  destruct (fst entry <=? fst next)%N eqn:Hle; simpl.
  - rewrite Hle, Hall, Hrest. simpl. rewrite andb_true_r.
    apply forallb_forall. intros x Hx.
    apply (proj1 (forallb_forall _ _) Hall) in Hx.
    apply N.leb_le in Hle, Hx. apply N.leb_le. lia.
  - rewrite (IH Hrest), andb_true_r.
    apply forallb_forall. intros x Hx.
    apply in_map_iff in Hx. destruct Hx as (e & <- & He).
    apply (Permutation_in _ (insertIndexed_Permutation entry rest)) in He.
    destruct He as [<-|He].
    + apply N.leb_gt in Hle. apply N.leb_le. lia.
    + apply (proj1 (forallb_forall _ _) Hall). now apply in_map.
Qed.

Lemma indexedValues_ascending {A} (object : list (string * A)) :
  ascending (List.map fst (indexedValues object)) = true.
Proof.
  unfold indexedValues.
  induction (List.flat_map _ object) as [|entry l IH]; simpl; [reflexivity|].
  now apply insertIndexed_ascending.
Qed.

Lemma indexedValues_Permutation {A} (object : list (string * A)) :
  Permutation (List.map snd (indexedValues object))
    (List.map snd (List.filter (fun kv => isArrayIndex (fst kv)) object)).
Proof.
  unfold indexedValues.
  induction object as [|[k v] rest IH]; simpl; [reflexivity|].
  unfold isArrayIndex at 1. simpl.
  destruct (arrayIndexOf k) as [n|]; simpl; [|exact IH].
  rewrite insertIndexed_Permutation. simpl. now apply perm_skip.
Qed.

Lemma filter_split_Permutation {A} (p : A -> bool) (l : list A) :
  Permutation (List.filter p l ++ List.filter (fun x => negb (p x)) l) l.
Proof.
  induction l as [|x l IH]; simpl; [reflexivity|].
  destruct (p x); simpl.
  - now apply perm_skip.
  - apply Permutation_sym, Permutation_cons_app, Permutation_sym, IH.
Qed.

(** [Object.values] lists every value once. *)
Lemma objectValues_Permutation {A} (object : list (string * A)) :
  Permutation (objectValues object) (List.map snd object).
Proof.
  unfold objectValues. rewrite indexedValues_Permutation, <- List.map_app.
  apply Permutation_map.
  apply (filter_split_Permutation (fun kv => isArrayIndex (fst kv))).
Qed.

Lemma In_indexedValues {A} (object : list (string * A)) (n : N) (v : A) :
  In (n, v) (indexedValues object) <->
  exists k, In (k, v) object /\ arrayIndexOf k = Some n.
Proof.
  unfold indexedValues.
  assert (Hsort : forall l (e : N * A),
            In e (List.fold_right insertIndexed [] l) <-> In e l).
  { induction l as [|x l IHl]; intros e; simpl; [reflexivity|]. split.
    - intros H. apply (Permutation_in _ (insertIndexed_Permutation _ _)) in H.
      destruct H as [<-|H]; [now left | right; now apply IHl].
    - intros H.
      apply (Permutation_in _ (Permutation_sym (insertIndexed_Permutation _ _))).
      destruct H as [<-|H]; [now left | right; now apply IHl]. }
  rewrite Hsort, in_flat_map. split.
  - intros ([k v'] & Hin & He). simpl in He.
    destruct (arrayIndexOf k) as [n'|] eqn:Hk; [|contradiction].
    destruct He as [[= <- <-]|[]]. now exists k.
  - intros (k & Hin & Hk). exists (k, v). split; [exact Hin|].
    simpl. rewrite Hk. now left.
Qed.

(** Without array indices among the keys, [Object.values] follows the
    order of creation. *)
Lemma objectValues_plain {A} (object : list (string * A)) :
  (forall kv, In kv object -> isArrayIndex (fst kv) = false) ->
  objectValues object = List.map snd object.
Proof.
  intros Hplain. unfold objectValues, indexedValues.
  assert (Hnone : List.flat_map (fun kv : string * A =>
                    match arrayIndexOf (fst kv) with
                    | Some n => [(n, snd kv)]
                    | None => []
                    end) object = []).
  { induction object as [|kv rest IH]; simpl; [reflexivity|].
    pose proof (Hplain kv (or_introl eq_refl)) as Hkv. unfold isArrayIndex in Hkv.
    destruct (arrayIndexOf (fst kv)); [discriminate|]. simpl.
    apply IH. intros kv' H'. apply Hplain. now right. }
  assert (Hall : List.filter (fun kv : string * A => negb (isArrayIndex (fst kv))) object
                 = object).
  { induction object as [|kv rest IH]; simpl; [reflexivity|].
    rewrite (Hplain kv (or_introl eq_refl)). simpl. f_equal.
    apply IH.
    - intros kv' H'. apply Hplain. now right.
    - simpl in Hnone. destruct (arrayIndexOf (fst kv)); [discriminate|]. exact Hnone. }
  now rewrite Hnone, Hall.
Qed.

Section RunOutcomes.

Context `{P : CsvParser} `{R : JsRuntime}.

Variable newData : list NewRecord.
Variable bookingsData : list BookingRecord.
Variable salesData : option (list SaleRecord).

Abbreviation runEntries := (cohortEntries newData bookingsData salesData).
Abbreviation runStudios := (snd (loopResult newData bookingsData salesData)).

(** The studio entries of the result are those of the association
    list, in another order. *)
Lemma returned_studios_Permutation :
  Permutation (returnedStudioEntries newData bookingsData salesData)
    (studioEntries newData bookingsData salesData).
Proof.
  unfold returnedStudioEntries, studioEntries.
  rewrite objectValues_Permutation, List.map_map. reflexivity.
Qed.

Lemma locations_spec (l : string) :
  In l (locationsOf newData bookingsData) <->
  exists record, In record newData /\ First_visit_location record = l.
Proof.
  unfold locationsOf, enrichedNewDataOf, cleanedNewData.
  rewrite uniq_In, !List.map_map. simpl. rewrite in_map_iff.
  split; intros (record & H1 & H2); exists record; tauto.
Qed.

(** A run whose locations are not names of [Object.prototype]
    resolves. *)
Lemma run_resolves :
  (forall record, In record newData -> inheritedKey (First_visit_location record) = false) ->
  runOutcome newData bookingsData salesData
  = Resolved (runEntries ++ returnedStudioEntries newData bookingsData salesData)%list.
Proof.
  intros Hplain. unfold runOutcome.
  destruct (List.existsb _ runEntries) eqn:Hex; [|reflexivity].
  apply existsb_exists in Hex. destruct Hex as (d & Hin & Hkey).
  destruct (entry_origin _ _ _ d Hin) as (_ & Hloc & _).
  apply locations_spec in Hloc. destruct Hloc as (record & Hrec & Heq).
  rewrite <- Heq, (Hplain record Hrec) in Hkey. discriminate.
Qed.

(** A cohort with a new client, headed by a teacher of the attendance
    dataset, has its entry among the cohort entries. *)
Lemma cohort_entry_present (teacher loc per : string) :
  In teacher (teachersOf bookingsData) ->
  teacherNewClients (enrichedNewDataOf newData bookingsData) teacher loc per <> [] ->
  exists d,
    In d runEntries /\
    cohortOf newData bookingsData salesData teacher loc per = Some d /\
    cohortKey d = (teacher, (loc, per)) /\
    newClients d
      = Js.len (teacherNewClients (enrichedNewDataOf newData bookingsData) teacher loc per).
Proof.
  intros Hteacher Hne.
  destruct (teacherNewClients (enrichedNewDataOf newData bookingsData) teacher loc per)
    as [|member others] eqn:Hclients; [contradiction|].
  assert (Hmember : In member
            (teacherNewClients (enrichedNewDataOf newData bookingsData) teacher loc per))
    by (rewrite Hclients; now left).
  unfold teacherNewClients in Hmember. apply filter_In in Hmember.
  destruct Hmember as [Hin Hkeep].
  rewrite !andb_true_iff in Hkeep.
  destruct Hkeep as ((((_ & Hl) & Hp) & _) & _).
  apply String.eqb_eq in Hl, Hp.
  assert (Hloc : In loc (locationsOf newData bookingsData)).
  { unfold locationsOf. apply uniq_In. rewrite <- Hl. now apply in_map. }
  assert (Hper : In per (periodsOf newData bookingsData)).
  { unfold periodsOf. apply uniq_In. rewrite <- Hp.
    apply (in_map (fun record => getMonthYearFromDate (First_visit_at record))).
    exact Hin. }
  destruct (cohortOf newData bookingsData salesData teacher loc per) as [d|] eqn:Hd.
  - exists d.
    destruct (cohortMetrics_fields _ _ _ _ _ _ d Hd) as (Ht & Hlo & Hpe & Hnew & _).
    split; [|split; [reflexivity|split]].
    + rewrite entries_spec. apply in_flat_map.
      exists (teacher, (loc, per)). split.
      * rewrite !in_prod_iff. tauto.
      * simpl. rewrite Hd. now left.
    + unfold cohortKey. now rewrite Ht, Hlo, Hpe.
    + rewrite Hnew. unfold newClientsCount. now rewrite Hclients.
  - unfold cohortOf, cohortMetrics in Hd. rewrite Hclients in Hd.
    discriminate.
Qed.

(** X5. In a run that resolves, the cohort entries are followed by the
    studio entries, one per location of a cohort entry: first those
    whose location name is an array index, in ascending order of the
    index, then the others in the order in which their locations first
    appear among the cohort entries.  The period a studio entry is
    labelled with is the period of the first cohort processed for its
    location, and its detail list of new clients is the concatenation,
    in order, of the detail lists of the cohorts of that location. *)
Theorem X5_studio_entries_order_label_details (result : list ProcessedTeacherData) :
  runOutcome newData bookingsData salesData = Resolved result ->
  exists indexed named indices,
    result = (runEntries ++ indexed ++ named)%list /\
    List.map location named
      = List.filter (fun l => negb (isArrayIndex l))
          (Js.uniq (List.map location runEntries)) /\
    List.map (fun r => arrayIndexOf (location r)) indexed = List.map Some indices /\
    ascending indices = true /\
    (forall l, In l (List.map location indexed) <->
               In l (List.map location runEntries) /\ isArrayIndex l = true) /\
    List.NoDup (List.map location (indexed ++ named)) /\
    Forall (labelledByFirstCohort runEntries) (indexed ++ named).
Proof.
  intros Hrun. unfold runOutcome in Hrun.
  destruct (List.existsb _ runEntries); [discriminate|].
  injection Hrun as <-.
  destruct (run_order_invariant newData bookingsData salesData) as [Hkeys Hstudio].
  destruct (run_invariant newData bookingsData salesData) as (Hnd & _ & Hinv).
  fold runEntries in Hkeys, Hstudio.
  assert (Hlocation : forall k v, In (k, v) runStudios -> location v = k).
  { intros k v Hin. destruct (Hinv k v Hin) as (_ & Hk & _). exact Hk. }
  exists (List.map studioRates (List.map snd (indexedValues runStudios))),
         (List.map studioRates
            (List.map snd (List.filter (fun kv => negb (isArrayIndex (fst kv))) runStudios))),
         (List.map fst (indexedValues runStudios)).
  split.
  { unfold returnedStudioEntries, objectValues. now rewrite List.map_app. }
  split.
  { rewrite <- Hkeys, filter_map_swap, !List.map_map. apply map_ext_in.
    intros [k v] Hin. apply filter_In in Hin. simpl. apply Hlocation. tauto. }
  split.
  { rewrite !List.map_map. apply map_ext_in. intros [n v] Hin. simpl.
    apply In_indexedValues in Hin. destruct Hin as (k & Hin & Hk).
    now rewrite (Hlocation k v Hin). }
  split; [apply indexedValues_ascending|].
  split.
  { intros l. rewrite !List.map_map, in_map_iff. split.
    - intros ([n v] & <- & Hin). simpl.
      apply In_indexedValues in Hin. destruct Hin as (k & Hin & Hk).
      rewrite (Hlocation k v Hin). split.
      + apply (uniq_In (List.map location runEntries)). rewrite <- Hkeys.
        apply (in_map fst) in Hin. exact Hin.
      + unfold isArrayIndex. now rewrite Hk.
    - intros [Hin Hindex].
      apply (uniq_In (List.map location runEntries)) in Hin. rewrite <- Hkeys in Hin.
      apply in_map_iff in Hin. destruct Hin as ([k v] & Hk & Hin). simpl in Hk. subst k.
      unfold isArrayIndex in Hindex.
      destruct (arrayIndexOf l) as [n|] eqn:Hn; [|discriminate].
      exists (n, v). split; [simpl; apply (Hlocation l v Hin)|].
      apply In_indexedValues. now exists l. }
  assert (Hperm : Permutation
            (List.map studioRates (List.map snd (indexedValues runStudios)) ++
             List.map studioRates
               (List.map snd
                  (List.filter (fun kv => negb (isArrayIndex (fst kv))) runStudios)))%list
            (studioEntries newData bookingsData salesData)).
  { rewrite <- List.map_app. apply returned_studios_Permutation. }
  split.
  { apply (Permutation_NoDup (Permutation_sym (Permutation_map location Hperm))).
    rewrite rollup_locations. exact Hnd. }
  apply List.Forall_forall. intros r Hr.
  apply (Permutation_in _ Hperm) in Hr.
  destruct (rollup_origin _ _ _ r Hr) as (v & Hv & ->).
  destruct (Hstudio _ v Hv) as [Hfirst Hdet]. unfold labelledByFirstCohort.
  simpl in *. tauto.
Qed.

(** C8. With an empty or absent sales dataset, a run whose
    first-visit locations are not names defined by [Object.prototype]
    resolves: every cohort with a new client, headed by a teacher of the
    attendance dataset, has its entry in the result, with its new-client
    count, beside a studio entry for its location, and every entry of
    the result has a converted count of 0 and a total revenue of 0.
    The run on one client whose first-visit location is [constructor]
    has a cohort with that client and throws, with an empty sales
    dataset and with none. *)
Theorem C8_empty_sales_run_outcome :
  (salesData = None \/ salesData = Some [] ->
   (forall record, In record newData ->
      inheritedKey (First_visit_location record) = false) ->
   exists result,
     runOutcome newData bookingsData salesData = Resolved result /\
     (forall teacher loc per,
        In teacher (teachersOf bookingsData) ->
        teacherNewClients (enrichedNewDataOf newData bookingsData) teacher loc per <> [] ->
        exists d studio,
          In d result /\
          cohortKey d = (teacher, (loc, per)) /\
          newClients d
            = Js.len (teacherNewClients (enrichedNewDataOf newData bookingsData)
                        teacher loc per) /\
          In studio result /\
          teacherName studio = "All Teachers" /\ location studio = loc) /\
     Forall (fun d => convertedClients d = 0 /\ totalRevenue d = 0%Q) result) /\
  (SampleKeys.constructorCohort <> [] /\
   SampleKeys.constructorRun (Some []) = Thrown /\
   SampleKeys.constructorRun None = Thrown).
Proof.
  split; [|split; [vm_compute; discriminate | split; vm_compute; reflexivity]].
  intros Hempty Hplain.
  exists (runEntries ++ returnedStudioEntries newData bookingsData salesData)%list.
  split; [now apply run_resolves|].
  split.
  - intros teacher loc per Hteacher Hne.
    destruct (cohort_entry_present teacher loc per Hteacher Hne)
      as (d & Hin & Hd & Hkey & Hnew).
    destruct (run_invariant newData bookingsData salesData) as (_ & Hcoh & Hinv).
    destruct (Hcoh d Hin) as [_ Hstudio].
    apply in_map_iff in Hstudio. destruct Hstudio as ([k v] & Hk & Hv). simpl in Hk.
    destruct (Hinv k v Hv) as (Hname & Hloc & _).
    exists d, (studioRates v).
    split; [apply in_or_app; now left|].
    split; [exact Hkey|]. split; [exact Hnew|].
    split.
    { apply in_or_app. right.
      apply (Permutation_in _ (Permutation_sym returned_studios_Permutation)).
      unfold studioEntries. apply in_map_iff. now exists (k, v). }
    split; [exact Hname|].
    unfold cohortKey in Hkey. injection Hkey as _ Hl _.
    change (location v = loc). now rewrite Hloc, Hk, Hl.
  - assert (Hclean : cleanedSalesData salesData = [])
      by (destruct Hempty as [->| ->]; reflexivity).
    pose proof (no_sales_no_conversion newData bookingsData salesData Hclean) as Hzero.
    rewrite List.Forall_forall in Hzero. apply List.Forall_forall. intros d Hin.
    apply Hzero. unfold processData.
    apply in_app_or in Hin. apply in_or_app.
    destruct Hin as [Hin|Hin]; [now left | right].
    apply (Permutation_in _ returned_studios_Permutation). exact Hin.
Qed.

End RunOutcomes.

(** *** Runs *)

Section OutcomeRuns.

#[local] Existing Instance Sample.parser.
#[local] Existing Instance Sample.runtime.

Import Sample SampleKeys.

(** C5, witness: after a "2 For 1 Intro" first visit, two attended
    classes after it, found in the attendance dataset, reach the
    threshold of 2. *)
Lemma C5_witness_two_for_one :
  let twice :=
    [ firstVisitOf twoForOne; visit "e@x.com" "2024-01-12" "T1" "Studio A";
      visit "e@x.com" "2024-01-19" "T2" "Studio B" ] in
  let enriched := enrichedNewDataOf [twoForOne] twice in
  let bookings := cleanedBookingsDataOf twice in
  exists member,
    List.find (fun client => String.eqb (Email client) (Email member))
      (teacherNewClients enriched "T1" "Studio A" "Jan 2024") = Some member /\
    retentionThreshold member = 2 /\
    Js.len (List.filter (fun booking =>
              (String.eqb (Customer_Email booking) (Email member) &&
               isDateAfter (Class_Date booking) (First_visit_at member) &&
               String.eqb (Cancelled booking) "NO" &&
               String.eqb (Late_Cancelled booking) "NO" &&
               String.eqb (No_Show booking) "NO")%bool) bookings) = 2 /\
    isRetained enriched bookings "T1" "Studio A" "Jan 2024" member = true.
Proof.
  intros twice enriched bookings.
  exists (enrich bookings (cleanNew twoForOne)).
  assert (Hfind :
    List.find (fun client =>
        String.eqb (Email client) (Email (enrich bookings (cleanNew twoForOne))))
      (teacherNewClients enriched "T1" "Studio A" "Jan 2024")
    = Some (enrich bookings (cleanNew twoForOne))) by (vm_compute; reflexivity).
  assert (Hthreshold : retentionThreshold (enrich bookings (cleanNew twoForOne)) = 2)
    by (vm_compute; reflexivity).
  assert (Hcount :
    Js.len (List.filter (fun booking =>
              (String.eqb (Customer_Email booking)
                 (Email (enrich bookings (cleanNew twoForOne))) &&
               isDateAfter (Class_Date booking)
                 (First_visit_at (enrich bookings (cleanNew twoForOne))) &&
               String.eqb (Cancelled booking) "NO" &&
               String.eqb (Late_Cancelled booking) "NO" &&
               String.eqb (No_Show booking) "NO")%bool) bookings) = 2)
    by (vm_compute; reflexivity).
  split; [exact Hfind|]. split; [exact Hthreshold|]. split; [exact Hcount|].
  apply (proj2 (proj1 (C5_retention_threshold enriched bookings "T1" "Studio A" "Jan 2024")
                  _ _ Hfind)).
  rewrite Hthreshold, Hcount. lia.
Defined.

(** C8, witness: the January clients without a sales dataset. *)
Lemma C8_witness_no_sales :
  exists result d,
    runOutcome januaryNew januaryBookings None = Resolved result /\
    In d result /\
    cohortKey d = ("T1", ("Studio A", "Jan 2024")) /\
    newClients d = 3 /\
    Forall (fun d => convertedClients d = 0 /\ totalRevenue d = 0%Q) result.
Proof.
  assert (Hplain : forall record, In record januaryNew ->
            inheritedKey (First_visit_location record) = false)
    by (intros record [<-|[<-|[<-|[]]]]; reflexivity).
  assert (Hteacher : In "T1" (teachersOf januaryBookings)) by (vm_compute; now left).
  assert (Hne : teacherNewClients (enrichedNewDataOf januaryNew januaryBookings)
                  "T1" "Studio A" "Jan 2024" <> []) by (vm_compute; discriminate).
  destruct (proj1 (C8_empty_sales_run_outcome januaryNew januaryBookings None)
              (or_introl eq_refl) Hplain) as (result & Hrun & Hcohorts & Hzero).
  destruct (Hcohorts "T1" "Studio A" "Jan 2024" Hteacher Hne)
    as (d & studio & Hin & Hkey & Hnew & _).
  exists result, d.
  split; [exact Hrun|]. split; [exact Hin|]. split; [exact Hkey|].
  split; [|exact Hzero].
  rewrite Hnew. vm_compute. reflexivity.
Defined.

(** X5, witness: clients at [Studio A], [12] and [7], in that order.
    The studio entries of [7] and [12] come first. *)
Lemma X5_witness_numbered_locations :
  exists result indexed named,
    runOutcome numberedNew numberedBookings None = Resolved result /\
    List.map location result = ["Studio A"; "12"; "7"; "7"; "12"; "Studio A"] /\
    result = (cohortEntries numberedNew numberedBookings None ++ indexed ++ named)%list /\
    List.map location indexed = ["7"; "12"] /\
    List.map location named = ["Studio A"] /\
    List.map (fun r => arrayIndexOf (location r)) indexed = [Some 7%N; Some 12%N] /\
    Forall (labelledByFirstCohort (cohortEntries numberedNew numberedBookings None))
      (indexed ++ named).
Proof.
  assert (Hrun : runOutcome numberedNew numberedBookings None
                 = Resolved (cohortEntries numberedNew numberedBookings None ++
                             returnedStudioEntries numberedNew numberedBookings None)%list)
    by (vm_compute; reflexivity).
  destruct (X5_studio_entries_order_label_details numberedNew numberedBookings None _ Hrun)
    as (indexed & named & indices & Hresult & Hnamed & _ & _ & _ & _ & Hlabel).
  apply app_inv_head in Hresult.
  exists (cohortEntries numberedNew numberedBookings None ++
          returnedStudioEntries numberedNew numberedBookings None)%list,
         indexed, named.
  split; [exact Hrun|].
  split; [vm_compute; reflexivity|].
  split; [now rewrite Hresult|].
  assert (Hlocations : (List.map location indexed ++ List.map location named)%list
                       = ["7"; "12"; "Studio A"]).
  { rewrite <- List.map_app, <- Hresult. vm_compute. reflexivity. }
  assert (Hnamed' : List.map location named = ["Studio A"]).
  { rewrite Hnamed. vm_compute. reflexivity. }
  rewrite Hnamed' in Hlocations.
  assert (Hindexed : List.map location indexed = ["7"; "12"]).
  { apply (app_inv_tail ["Studio A"]). exact Hlocations. }
  split; [exact Hindexed|]. split; [exact Hnamed'|].
  split; [|exact Hlabel].
  rewrite <- (List.map_map location arrayIndexOf), Hindexed. vm_compute. reflexivity.
Defined.

End OutcomeRuns.
